(** * Calendar / Notion / Discord event synchronisation: a shallow embedding

    The development embeds the reconciliation code of
    [src/services/webhook/webhook.py] (calendar -> document store and chat
    platform) and the inbound handlers of [src/services/bot/bot.py]
    (chat platform -> calendar and document store), and proves properties
    of the embedded functions.

    Conventions of the embedding:
    - a Python [dict] with a fixed set of keys read by the code is a record
      whose optional keys are [option] fields;
    - [None] is [None]; truthiness ([if x], [x or y]) is written out;
    - code that performs HTTP requests runs in the monad [M], which threads
      the module globals and the list of requests issued so far; the
      answers of the remote services come from an oracle that may depend on
      the whole request history;
    - a Python exception is the [Raise] outcome. *)

From stdpp Require Import base gmap strings list pretty.
From Stdlib Require Import ZArith.
From Stdlib Require Import Ascii.
From Stdlib Require String.

Open Scope Z_scope.

(** ** Python values used by the code *)

Module Py.

(** [bool(s)] for a [str]. *)
Definition truthy (s : string) : bool := negb (String.eqb s "").

(** [bool(x)] for an [Optional[str]]. *)
Definition truthy_opt (o : option string) : bool :=
  match o with
  | Some s => truthy s
  | None => false
  end.

(** [x or d] for an [Optional[str]] x and a [str] d. *)
Definition or_str (o : option string) (d : string) : string :=
  match o with
  | Some s => if truthy s then s else d
  | None => d
  end.

(** [x or y] for two [Optional[str]]. *)
Definition or_opt (x y : option string) : option string :=
  if truthy_opt x then x else y.

(** [s[:n]]: a negative bound counts from the end. *)
Definition slice_to (s : string) (n : Z) : string :=
  let cs := String.list_ascii_of_string s in
  let k := if n <? 0 then Z.max 0 (Z.of_nat (List.length cs) + n) else n in
  String.string_of_list_ascii (take (Z.to_nat k) cs).

(** [str.isspace] on the ASCII range. *)
Definition is_space (c : ascii) : bool :=
  let n := Ascii.nat_of_ascii c in
  ((9 <=? n) && (n <=? 13) || (28 <=? n) && (n <=? 32))%nat.

Fixpoint lstrip (cs : list ascii) : list ascii :=
  match cs with
  | c :: cs' => if is_space c then lstrip cs' else cs
  | [] => []
  end.

(** [s.strip()]. *)
Definition strip (s : string) : string :=
  String.string_of_list_ascii
    (rev (lstrip (rev (lstrip (String.list_ascii_of_string s))))).

(** [text = str(x).strip(); return text or None]. *)
Definition strip_or_none (s : string) : option string :=
  let t := strip s in if truthy t then Some t else None.

Fixpoint is_prefix (p s : string) : bool :=
  match p, s with
  | EmptyString, _ => true
  | String a p', String b s' => Ascii.eqb a b && is_prefix p' s'
  | String _ _, EmptyString => false
  end.

(** [needle in hay]. *)
Fixpoint contains (needle hay : string) : bool :=
  is_prefix needle hay ||
  match hay with
  | EmptyString => false
  | String _ hay' => contains needle hay'
  end.

Fixpoint drop_chars (n : nat) (s : string) : string :=
  match n, s with
  | O, _ => s
  | S n', String _ s' => drop_chars n' s'
  | S _, EmptyString => EmptyString
  end.

(** [s.replace(old, new)] for a non-empty [old]; [fuel] bounds the scan and
    [String.length s] always suffices. *)
Fixpoint replace_fuel (fuel : nat) (old new s : string) : string :=
  match fuel with
  | O => s
  | S fuel' =>
      match s with
      | EmptyString => EmptyString
      | String c s' =>
          if is_prefix old s
          then new +:+ replace_fuel fuel' old new
                         (drop_chars (String.length old) s)
          else String c (replace_fuel fuel' old new s')
      end
  end.

Definition replace (old new s : string) : string :=
  replace_fuel (String.length s) old new s.

End Py.

(** ** [datetime] and [timedelta]

    A [datetime] is its wall-clock reading in microseconds since the epoch
    together with the UTC offset of its [tzinfo] ([None] for a naive
    value).  A [timedelta] is a number of microseconds. *)

Record datetime := DateTime {
  dt_wall : Z;
  dt_utcoffset : option Z;
}.

Definition timedelta_minutes (m : Z) : Z := m * 60 * 1000000.
Definition timedelta_hours (h : Z) : Z := h * 3600 * 1000000.
Definition timedelta_days (d : Z) : Z := d * 86400 * 1000000.

(** [dt + delta]. *)
Definition dt_add (dt : datetime) (delta : Z) : datetime :=
  DateTime (dt_wall dt + delta) (dt_utcoffset dt).

(** [a <= b]: aware values compare as instants, naive ones by wall clock,
    and a mixed comparison raises [TypeError] ([None]). *)
Definition dt_le (a b : datetime) : option bool :=
  match dt_utcoffset a, dt_utcoffset b with
  | Some oa, Some ob => Some (dt_wall a - oa <=? dt_wall b - ob)
  | None, None => Some (dt_wall a <=? dt_wall b)
  | _, _ => None
  end.

(** [dt.astimezone(timezone.utc)]; a naive value is read in the local zone
    of the process, whose offset is [local]. *)
Definition astimezone_utc (local : Z) (dt : datetime) : datetime :=
  match dt_utcoffset dt with
  | Some o => DateTime (dt_wall dt - o) (Some 0)
  | None => DateTime (dt_wall dt - local) (Some 0)
  end.

(** [datetime.now(timezone.utc)] for a clock reading [t]. *)
Definition utc_datetime (t : Z) : datetime := DateTime t (Some 0).

(** ** The webhook service ([src/services/webhook/webhook.py]) *)

Module Webhook.

(** *** Configuration (module constants read from the environment) *)

Record config := Config {
  NOTION_TOKEN : option string;
  NOTION_EVENT_INTERNAL_DB_ID : option string;
  NOTION_EVENT_EXTERNAL_DB_ID : option string;
  GOOGLE_CALENDAR_ID : option string;
  DISCORD_TOKEN : option string;
  DISCORD_GUILD_ID : option string;
  DISCORD_SYNC_ENABLED : bool;
  DEDUPE_MAX_IDS : Z;
  (** in microseconds, like every duration of the embedding *)
  SYNC_COOLDOWN_SECONDS : Z;
  NOTION_PROP_MESSAGE_ID : string;
  NOTION_PROP_GOOGLE_EVENT_ID : string;
  DISCORD_DESCRIPTION_LIMIT : Z;
  DISCORD_NAME_LIMIT : Z;
  DISCORD_LOCATION_LIMIT : Z;
  DISCORD_LOCATION_FALLBACK : string;
  DISCORD_APPEND_GCAL_MARKER : bool;
}.

Definition DISCORD_ORIGIN_MARKER_PREFIX : string := "[gcal-id:".

(** *** Data exchanged with the three services *)

(** The [start] / [end] part of a calendar event. *)
Record gtime := GTime {
  dateTime : option string;
  date : option string;
}.

(** A Google Calendar event, with the keys the code reads. *)
Record gevent := GEvent {
  ev_id : option string;
  ev_status : option string;
  ev_summary : option string;
  ev_description : option string;
  ev_location : option string;
  ev_htmlLink : option string;
  ev_creator_email : option string;
  ev_start : gtime;
  ev_end : gtime;
  ev_updated : option string;
}.

(** A node of a Notion [rich_text] property. *)
Record rich_node := RichNode {
  plain_text : option string;
  text_content : option string;
}.

(** A Notion page: its id and its [rich_text] properties by name. *)
Record page := Page {
  pg_id : string;
  pg_rich_text : gmap string (list rich_node);
}.

(** The Notion [date] property. *)
Record date_prop := DateProp {
  dp_start : string;
  dp_end : option string;
}.

(** Body of [POST /v1/pages] built by [notion_create_event]. *)
Record notion_create := NotionCreate {
  nc_database_id : option string;
  nc_title : string;
  nc_content : string;
  nc_date : date_prop;
  nc_message_id : string;
  nc_creator_id : string;
  nc_page_id : string;
  nc_event_url : option string;
  nc_google_event_id : option string;
  nc_location : option string;
}.

(** The [properties] of [PATCH /v1/pages/{id}] built by
    [notion_update_event]: only the keys that are not [None] are sent. *)
Record notion_props := NotionProps {
  np_title : option string;
  np_content : option string;
  np_date : option date_prop;
  np_event_url : option string;
  np_google_event_id : option string;
  np_page_id : option string;
  np_message_id : option string;
  np_location : option string;
}.

(** Payload of a Discord scheduled event built by [build_discord_payload]. *)
Record discord_payload := DiscordPayload {
  pl_name : string;
  pl_description : string;
  pl_privacy_level : Z;
  pl_entity_type : Z;
  pl_scheduled_start_time : string;
  pl_scheduled_end_time : string;
  pl_location : string;
}.

(** An element of the list returned by [GET .../scheduled-events]. *)
Record discord_item := DiscordItem {
  di_id : option string;
  di_description : option string;
}.

(** Requests leaving the process. *)
Inductive call :=
| NotionGetPage (page_id : string)
| NotionQuery (database_id property equals : string)
| NotionCreatePage (data : notion_create)
| NotionPatchPage (page_id : string) (props : notion_props)
| NotionArchivePage (page_id : string)
| DiscordApi (method path : string) (payload : option discord_payload)
| DiscordListEvents (path : string)
| GcalEventsList (updated_min : option string) (show_deleted : bool)
                 (page_token : option string)
| SaveSyncState (updated_min : string).

(** What the accessors of the code see of a response body. [BMalformed]
    stands for every body on which the accessor used by the caller raises
    (invalid JSON, a missing key). *)
Inductive body :=
| BEmpty
| BPage (p : page)
| BResults (results : list page)
| BDiscordEvent (id : option string)
| BDiscordEvents (items : list discord_item)
| BGcalEvents (items : list gevent) (next_page_token : option string)
| BMalformed.

(** The request either raises (timeout, connection error, [HttpError] of
    the Google client) or yields a status and a body. *)
Inductive response :=
| Failed (exc : string)
| Http (status : Z) (b : body).

Inductive level := INFO | WARNING | ERROR.

Record log_entry := Log {
  log_level : level;
  log_format : string;
  log_args : list string;
}.

(** *** The environment of a run *)

Record env := Env {
  cfg : config;
  (** answer of the remote service to a request, given the requests issued
      before it *)
  respond : list call -> call -> response;
  (** system clock in microseconds since the epoch, given the requests
      issued so far and the number of earlier readings *)
  clock : list call -> nat -> Z;
  (** whether [get_calendar_service()] returns a service *)
  calendar_service : bool;
  (** [datetime.fromisoformat], [None] when it raises *)
  fromisoformat : string -> option datetime;
  (** [datetime.strptime(s, "%Y-%m-%d")] as a naive wall-clock reading,
      [None] when it raises *)
  strptime_ymd : string -> option Z;
  (** [datetime.isoformat] *)
  isoformat : datetime -> string;
  (** UTC offset of the process's local zone *)
  local_utcoffset : Z;
}.

(** *** Module globals and the effects observed so far *)

Record world := World {
  gcal_notion_internal : gmap string string;
  gcal_notion_external : gmap string string;
  gcal_discord_map : gmap string string;
  processed_message_ids : list string;
  processed_message_set : gset string;
  (** the [updated_min] stored in [SYNC_STATE_FILE], if any *)
  sync_state_file : option string;
  sync_lock : bool;
  sync_last_run_epoch : Z;
  clock_reads : nat;
  trace : list call;
  logs : list log_entry;
}.

Definition set_internal (f : gmap string string -> gmap string string)
    (w : world) : world :=
  World (f (gcal_notion_internal w)) (gcal_notion_external w)
        (gcal_discord_map w) (processed_message_ids w)
        (processed_message_set w) (sync_state_file w) (sync_lock w)
        (sync_last_run_epoch w) (clock_reads w) (trace w) (logs w).

Definition set_external (f : gmap string string -> gmap string string)
    (w : world) : world :=
  World (gcal_notion_internal w) (f (gcal_notion_external w))
        (gcal_discord_map w) (processed_message_ids w)
        (processed_message_set w) (sync_state_file w) (sync_lock w)
        (sync_last_run_epoch w) (clock_reads w) (trace w) (logs w).

Definition set_discord (f : gmap string string -> gmap string string)
    (w : world) : world :=
  World (gcal_notion_internal w) (gcal_notion_external w)
        (f (gcal_discord_map w)) (processed_message_ids w)
        (processed_message_set w) (sync_state_file w) (sync_lock w)
        (sync_last_run_epoch w) (clock_reads w) (trace w) (logs w).

Definition set_dedupe (ids : list string) (s : gset string)
    (w : world) : world :=
  World (gcal_notion_internal w) (gcal_notion_external w)
        (gcal_discord_map w) ids s (sync_state_file w) (sync_lock w)
        (sync_last_run_epoch w) (clock_reads w) (trace w) (logs w).

Definition set_sync_state_file (v : option string) (w : world) : world :=
  World (gcal_notion_internal w) (gcal_notion_external w)
        (gcal_discord_map w) (processed_message_ids w)
        (processed_message_set w) v (sync_lock w)
        (sync_last_run_epoch w) (clock_reads w) (trace w) (logs w).

Definition set_sync_lock (b : bool) (w : world) : world :=
  World (gcal_notion_internal w) (gcal_notion_external w)
        (gcal_discord_map w) (processed_message_ids w)
        (processed_message_set w) (sync_state_file w) b
        (sync_last_run_epoch w) (clock_reads w) (trace w) (logs w).

Definition set_sync_last_run_epoch (t : Z) (w : world) : world :=
  World (gcal_notion_internal w) (gcal_notion_external w)
        (gcal_discord_map w) (processed_message_ids w)
        (processed_message_set w) (sync_state_file w) (sync_lock w)
        t (clock_reads w) (trace w) (logs w).

Definition tick_clock (w : world) : world :=
  World (gcal_notion_internal w) (gcal_notion_external w)
        (gcal_discord_map w) (processed_message_ids w)
        (processed_message_set w) (sync_state_file w) (sync_lock w)
        (sync_last_run_epoch w) (S (clock_reads w)) (trace w) (logs w).

Definition push_call (c : call) (w : world) : world :=
  World (gcal_notion_internal w) (gcal_notion_external w)
        (gcal_discord_map w) (processed_message_ids w)
        (processed_message_set w) (sync_state_file w) (sync_lock w)
        (sync_last_run_epoch w) (clock_reads w) (trace w ++ [c]) (logs w).

Definition push_log (l : log_entry) (w : world) : world :=
  World (gcal_notion_internal w) (gcal_notion_external w)
        (gcal_discord_map w) (processed_message_ids w)
        (processed_message_set w) (sync_state_file w) (sync_lock w)
        (sync_last_run_epoch w) (clock_reads w) (trace w) (logs w ++ [l]).

(** *** The monad of effectful code *)

Inductive outcome (A : Type) :=
| Ret (a : A)
| Raise (exc : string).
Arguments Ret {A} a.
Arguments Raise {A} exc.

Definition M (A : Type) : Type := world -> outcome A * world.

Definition ret {A} (a : A) : M A := fun w => (Ret a, w).

Definition raise {A} (exc : string) : M A := fun w => (Raise exc, w).

Definition bind {A B} (m : M A) (k : A -> M B) : M B :=
  fun w =>
    match m w with
    | (Ret a, w') => k a w'
    | (Raise exc, w') => (Raise exc, w')
    end.

(** [try: m except Exception as exc: h(exc)]. *)
Definition try_except {A} (m : M A) (h : string -> M A) : M A :=
  fun w =>
    match m w with
    | (Ret a, w') => (Ret a, w')
    | (Raise exc, w') => h exc w'
    end.

(** [try: m finally: f], for a body whose result [None] means that it does
    not return within its fuel: [f] runs whenever the body returns or
    raises, and never runs for a body that is still running. *)
Definition try_finally {A} (m : M (option A)) (f : M unit) : M (option A) :=
  fun w =>
    match m w with
    | (Ret None, w') => (Ret None, w')
    | (r, w') =>
        match f w' with
        | (Ret _, w'') => (r, w'')
        | (Raise exc, w'') => (Raise exc, w'')
        end
    end.

Notation "'let!' x ':=' m 'in' k" := (bind m (fun x => k))
  (at level 10, x binder, m at level 100, k at level 200).
Notation "'run!' m 'in' k" := (bind m (fun _ => k))
  (at level 10, m at level 100, k at level 200).

Definition get_world : M world := fun w => (Ret w, w).
Definition modify (f : world -> world) : M unit := fun w => (Ret tt, f w).

Definition log (l : level) (fmt : string) (args : list string) : M unit :=
  modify (push_log (Log l fmt args)).

(** *** The functions of the module *)

Section Code.

Context (E : env).

(** A request (or a write to the state file): the answer comes from the
    oracle and the request is recorded. *)
Definition perform (c : call) : M (Z * body) :=
  fun w =>
    match respond E (trace w) c with
    | Failed exc => (Raise exc, push_call c w)
    | Http status b => (Ret (status, b), push_call c w)
    end.

(** [time.time()] and [datetime.now(timezone.utc)]. *)
Definition read_clock : M Z :=
  fun w => (Ret (clock E (trace w) (clock_reads w)), tick_clock w).

(** [parse_rfc3339] (lines 104-120). *)
Definition parse_rfc3339 (value : option string) : option datetime :=
  match value with
  | Some v =>
      if Py.truthy v
      then fromisoformat E (Py.replace "Z" "+00:00" v)
      else None
  | None => None
  end.

(** **** Duplicate guard (lines 95-97, 172-193) *)

(** [_processed_message_ids.maxlen], from
    [deque(maxlen=max(100, DEDUPE_MAX_IDS))]. *)
Definition maxlen : nat := Z.to_nat (Z.max 100 (DEDUPE_MAX_IDS (cfg E))).

(** [deque.append] on a bounded deque: the leftmost element is dropped
    when the bound is exceeded. *)
Definition deque_append (x : string) (dq : list string) : list string :=
  let dq' := dq ++ [x] in
  if (maxlen <? List.length dq')%nat then drop 1 dq' else dq'.

(** [register_message_id]. Saving the ids to [DEDUPE_STATE_FILE] changes
    neither the globals nor the result (a failure is logged and
    swallowed), so the file is left out. *)
Definition register_message_id (message_id : string) : M bool :=
  fun w =>
    if negb (Py.truthy message_id) then (Ret false, w)
    else if bool_decide (message_id ∈ processed_message_set w)
    then (Ret true, w)
    else
      let ids := processed_message_ids w in
      let set1 :=
        if (List.length ids =? maxlen)%nat
        then match ids with
             | oldest :: _ => processed_message_set w ∖ {[ oldest ]}
             | [] => processed_message_set w
             end
        else processed_message_set w in
      (Ret false,
       set_dedupe (deque_append message_id ids) (set1 ∪ {[ message_id ]}) w).

(** **** Correlation maps (lines 262-325) *)

Inductive scope := internal | external.

Definition scope_map (sc : scope) (w : world) : gmap string string :=
  match sc with
  | internal => gcal_notion_internal w
  | external => gcal_notion_external w
  end.

Definition set_scope_map (sc : scope)
    (f : gmap string string -> gmap string string) : world -> world :=
  match sc with
  | internal => set_internal f
  | external => set_external f
  end.

Definition get_notion_page_id_by_google_id (google_event_id : string)
    (sc : scope) : M (option string) :=
  fun w =>
    (Ret (if negb (Py.truthy google_event_id) then None
          else scope_map sc w !! google_event_id), w).

Definition set_notion_page_id_by_google_id (google_event_id page_id : string)
    (sc : scope) : M unit :=
  if negb (Py.truthy google_event_id) || negb (Py.truthy page_id)
  then ret tt
  else modify (set_scope_map sc (insert google_event_id page_id)).

Definition remove_notion_page_id_by_google_id (google_event_id : string)
    (sc : scope) : M unit :=
  if negb (Py.truthy google_event_id) then ret tt
  else modify (set_scope_map sc (delete google_event_id)).

Definition get_discord_event_id_by_google_id (google_event_id : string)
    : M (option string) :=
  fun w =>
    (Ret (if negb (Py.truthy google_event_id) then None
          else gcal_discord_map w !! google_event_id), w).

Definition set_discord_event_id_by_google_id
    (google_event_id discord_event_id : string) : M unit :=
  if negb (Py.truthy google_event_id) || negb (Py.truthy discord_event_id)
  then ret tt
  else modify (set_discord (insert google_event_id discord_event_id)).

Definition remove_discord_event_id_by_google_id (google_event_id : string)
    : M unit :=
  if negb (Py.truthy google_event_id) then ret tt
  else modify (set_discord (delete google_event_id)).

(** **** Notion (lines 518-771) *)

(** [build_notion_date]. *)
Definition build_notion_date (event : gevent) : option date_prop :=
  let start_iso := Py.or_opt (dateTime (ev_start event))
                             (date (ev_start event)) in
  let end_iso := Py.or_opt (dateTime (ev_end event)) (date (ev_end event)) in
  if negb (Py.truthy_opt start_iso) then None
  else
    Some (DateProp (default "" start_iso)
                   (if Py.truthy_opt end_iso then end_iso else None)).

(** [notion_extract_rich_text]. *)
Definition notion_extract_rich_text (pg : option page) (prop_name : string)
    : option string :=
  match pg with
  | None => None
  | Some p =>
      match default [] (pg_rich_text p !! prop_name) with
      | [] => None
      | node :: _ =>
          if Py.truthy_opt (plain_text node)
          then Py.strip_or_none (default "" (plain_text node))
          else if Py.truthy_opt (text_content node)
          then Py.strip_or_none (default "" (text_content node))
          else None
      end
  end.

(** [res.json().get("results", [])]. *)
Definition body_results (b : body) : M (list page) :=
  match b with
  | BResults results => ret results
  | _ => raise "JSONDecodeError"
  end.

(** [notion_find_by_google_event_id]. *)
Definition notion_find_by_google_event_id (google_event_id : string)
    (db_id : option string) : M (option page) :=
  let target_db_id :=
    Py.or_opt db_id (NOTION_EVENT_INTERNAL_DB_ID (cfg E)) in
  if negb (Py.truthy_opt target_db_id)
  then run! log ERROR "target notion database id is not set" [] in ret None
  else
    let! r := perform (NotionQuery (default "" target_db_id)
                      (NOTION_PROP_GOOGLE_EVENT_ID (cfg E))
                      google_event_id) in
    if negb (r.1 =? 200)
    then run! log ERROR "Notion query error: %s" [] in ret None
    else let! results := body_results r.2 in ret (head results).

(** [notion_find_by_message_id]. *)
Definition notion_find_by_message_id (message_id : string)
    (db_id : option string) : M (option page) :=
  if negb (Py.truthy_opt db_id) || negb (Py.truthy message_id)
  then ret None
  else
    let! r := perform (NotionQuery (default "" db_id)
                      (NOTION_PROP_MESSAGE_ID (cfg E)) message_id) in
    if negb (r.1 =? 200)
    then run! log ERROR "Notion query by message_id error: %s" [] in
         ret None
    else let! results := body_results r.2 in ret (head results).

(** [notion_get_page]. *)
Definition notion_get_page (page_id : string) : M (option page) :=
  if negb (Py.truthy page_id) then ret None
  else
    let! r := perform (NotionGetPage page_id) in
    if negb (r.1 =? 200) then ret None
    else
      match r.2 with
      | BPage p => ret (if Py.truthy (pg_id p) then Some p else None)
      | _ => raise "JSONDecodeError"
      end.

(** [notion_update_event]: [props] holds the keyword arguments that are
    not [None]. *)
Definition notion_update_event (page_id : string) (props : notion_props)
    : M bool :=
  let! r := perform (NotionPatchPage page_id props) in
  if negb ((r.1 =? 200) || (r.1 =? 201))
  then run! log ERROR "Notion update error(page_id=%s): %s" [page_id] in
       ret false
  else ret true.

(** [notion_create_event]. *)
Definition notion_create_event (name content : string) (dp : date_prop)
    (creator_id : string) (event_url google_event_id location : option string)
    (db_id : option string) (message_id : option string)
    : M (option string) :=
  let target_db_id :=
    Py.or_opt db_id (NOTION_EVENT_INTERNAL_DB_ID (cfg E)) in
  let data :=
    NotionCreate target_db_id name content dp (default "" message_id)
                 creator_id "" event_url google_event_id location in
  let! r := perform (NotionCreatePage data) in
  if negb ((r.1 =? 200) || (r.1 =? 201))
  then run! log ERROR "Notion create error: %s" [] in ret None
  else
    match r.2 with
    | BPage p =>
        let page_id := pg_id p in
        run! notion_update_event page_id
               (NotionProps None None None None None (Some page_id)
                            None None) in
        ret (Some page_id)
    | _ => raise "KeyError"
    end.

(** [notion_archive_page]. *)
Definition notion_archive_page (pg : option page) : M bool :=
  match pg with
  | None => ret false
  | Some p =>
      let! r := perform (NotionArchivePage (pg_id p)) in
      if negb ((r.1 =? 200) || (r.1 =? 201))
      then run! log ERROR "Notion archive error(page_id=%s): %s" [pg_id p] in
           ret false
      else ret true
  end.

(** **** Discord (lines 774-988) *)

(** [discord_sync_available]. *)
Definition discord_sync_available : M bool :=
  if negb (DISCORD_SYNC_ENABLED (cfg E)) then ret false
  else if negb (Py.truthy_opt (DISCORD_TOKEN (cfg E)))
  then run! log WARNING "Discord sync disabled: DISCORD_TOKEN is not set" [] in
       ret false
  else if negb (Py.truthy_opt (DISCORD_GUILD_ID (cfg E)))
  then run! log WARNING "Discord sync disabled: DISCORD_GUILD_ID is not set" []
       in ret false
  else ret true.

(** A value formatted into an f-string. *)
Definition fmt (o : option string) : string := default "None" o.

(** [discord_api_request]: [None] on failure, otherwise the JSON object,
    of which only the ["id"] key is read ([Some None] is an object
    without it, such as [{}]). *)
Definition discord_api_request (method path : string)
    (payload : option discord_payload) : M (option (option string)) :=
  let! r := perform (DiscordApi method path payload) in
  if 400 <=? r.1
  then run! log ERROR "Discord API error method=%s path=%s status=%s body=%s"
              [method; path] in
       ret None
  else if r.1 =? 204 then ret (Some None)
  else
    match r.2 with
    | BDiscordEvent id => ret (Some id)
    | _ => ret (Some None)
    end.

(** [parse_part], local to [parse_google_event_times]. *)
Definition parse_part (part : gtime) (is_end : bool) : option datetime :=
  let from_date :=
    if Py.truthy_opt (date part)
    then
      match strptime_ymd E (default "" (date part)) with
      | Some d =>
          let base := DateTime d (Some (timedelta_hours 9)) in
          Some (dt_add base (if is_end then timedelta_hours 1
                             else timedelta_hours 9))
      | None => None
      end
    else None in
  if Py.truthy_opt (dateTime part)
  then
    match parse_rfc3339 (dateTime part) with
    | Some dt => Some dt
    | None => from_date
    end
  else from_date.

(** [parse_google_event_times]; the comparison of a naive with an aware
    value raises. *)
Definition parse_google_event_times (event : gevent)
    : M (option datetime * option datetime) :=
  let start_dt := parse_part (ev_start event) false in
  let end_dt := parse_part (ev_end event) true in
  match start_dt with
  | None => ret (None, None)
  | Some s =>
      match end_dt with
      | None => ret (Some s, Some (dt_add s (timedelta_hours 1)))
      | Some e =>
          match dt_le e s with
          | None => raise "TypeError"
          | Some true => ret (Some s, Some (dt_add s (timedelta_hours 1)))
          | Some false => ret (Some s, Some e)
          end
      end
  end.

(** [to_discord_iso]. *)
Definition to_discord_iso (dt : datetime) : string :=
  let dt' := match dt_utcoffset dt with
             | None => DateTime (dt_wall dt) (Some 0)
             | Some _ => dt
             end in
  Py.replace "+00:00" "Z" (isoformat E (astimezone_utc (local_utcoffset E) dt')).

Definition newline : string := String "010" "".

(** [build_discord_description]. *)
Definition build_discord_description (description : option string)
    (google_event_id : string) : string :=
  let base := Py.strip (Py.or_str description "") in
  let text :=
    if DISCORD_APPEND_GCAL_MARKER (cfg E)
    then
      let marker := DISCORD_ORIGIN_MARKER_PREFIX +:+ google_event_id +:+ "]" in
      if Py.truthy base then base +:+ newline +:+ newline +:+ marker
      else marker
    else base in
  Py.slice_to text (DISCORD_DESCRIPTION_LIMIT (cfg E)).

(** [build_discord_payload]. *)
Definition build_discord_payload (event : gevent)
    : M (option discord_payload) :=
  if negb (Py.truthy_opt (ev_id event)) then ret None
  else
    let google_event_id := default "" (ev_id event) in
    let! times := parse_google_event_times event in
    match times with
    | (Some start_dt, Some end_dt) =>
        let location :=
          Py.strip (Py.or_str (ev_location event)
                              (DISCORD_LOCATION_FALLBACK (cfg E))) in
        ret (Some (DiscordPayload
               (Py.slice_to (Py.or_str (ev_summary event) "(no title)")
                            (DISCORD_NAME_LIMIT (cfg E)))
               (build_discord_description (ev_description event)
                                          google_event_id)
               2 3
               (to_discord_iso start_dt)
               (to_discord_iso end_dt)
               (Py.slice_to location (DISCORD_LOCATION_LIMIT (cfg E)))))
    | _ => ret None
    end.

Definition scheduled_events_path : string :=
  "/guilds/" +:+ fmt (DISCORD_GUILD_ID (cfg E)) +:+ "/scheduled-events".

(** [discord_create_event]. *)
Definition discord_create_event (event : gevent)
    : M (option (option string)) :=
  let! payload := build_discord_payload event in
  match payload with
  | None => ret None
  | Some _ => discord_api_request "POST" scheduled_events_path payload
  end.

(** [discord_update_event]. *)
Definition discord_update_event (discord_event_id : string) (event : gevent)
    : M (option (option string)) :=
  let! payload := build_discord_payload event in
  match payload with
  | None => ret None
  | Some _ =>
      discord_api_request "PATCH"
        (scheduled_events_path +:+ "/" +:+ discord_event_id) payload
  end.

(** [discord_delete_event]. *)
Definition discord_delete_event (discord_event_id : string) : M bool :=
  let! res := discord_api_request "DELETE"
                (scheduled_events_path +:+ "/" +:+ discord_event_id) None in
  ret (bool_decide (res <> None)).

(** The [for item in items] loop of
    [find_discord_event_id_by_google_marker]. *)
Fixpoint scan_marker (marker : string) (items : list discord_item)
    : option string :=
  match items with
  | [] => None
  | item :: items' =>
      if Py.contains marker (Py.or_str (di_description item) "")
         && Py.truthy_opt (di_id item)
      then di_id item
      else scan_marker marker items'
  end.

(** [find_discord_event_id_by_google_marker]. *)
Definition find_discord_event_id_by_google_marker (google_event_id : string)
    : M (option string) :=
  if negb (DISCORD_APPEND_GCAL_MARKER (cfg E)) then ret None
  else
    let! available := discord_sync_available in
    if negb available || negb (Py.truthy google_event_id) then ret None
    else
      let marker := DISCORD_ORIGIN_MARKER_PREFIX +:+ google_event_id +:+ "]" in
      let! r := perform (DiscordListEvents scheduled_events_path) in
      if 400 <=? r.1
      then run! log WARNING "Discord list events failed status=%s body=%s" []
           in ret None
      else
        match r.2 with
        | BDiscordEvents items => ret (scan_marker marker items)
        | _ => ret None
        end.

(** **** Reconciliation of one event (lines 991-1225) *)

(** Step 1 of [sync_to_discord] (lines 1015-1028): the Discord event id
    known for the calendar event. *)
Definition resolve_discord_event_id (google_event_id : string)
    (notion_page fallback_notion_page : option page) : M (option string) :=
  let notion_discord_id :=
    let first := notion_extract_rich_text notion_page
                   (NOTION_PROP_MESSAGE_ID (cfg E)) in
    if negb (Py.truthy_opt first) && bool_decide (fallback_notion_page <> None)
    then notion_extract_rich_text fallback_notion_page
           (NOTION_PROP_MESSAGE_ID (cfg E))
    else first in
  let! mapped_discord_id := get_discord_event_id_by_google_id google_event_id in
  let discord_event_id := Py.or_opt notion_discord_id mapped_discord_id in
  if negb (Py.truthy_opt discord_event_id)
  then
    let! discovered := find_discord_event_id_by_google_marker google_event_id in
    if Py.truthy_opt discovered
    then run! set_discord_event_id_by_google_id google_event_id
                (default "" discovered) in
         ret discovered
    else ret discord_event_id
  else ret discord_event_id.

(** Lines 1031-1048 of [sync_to_discord]: the Discord event of a cancelled
    calendar event is deleted when its id is known. *)
Definition delete_step (google_event_id : string)
    (discord_event_id : option string) : M unit :=
  if Py.truthy_opt discord_event_id
  then
    let! deleted := discord_delete_event (default "" discord_event_id) in
    if deleted
    then log INFO
           "Discord event deleted by Google cancel: google_event_id=%s discord_event_id=%s"
           [google_event_id; default "" discord_event_id]
    else log WARNING
           "Discord delete failed by Google cancel: google_event_id=%s discord_event_id=%s"
           [google_event_id; default "" discord_event_id]
  else log WARNING
         "Discord delete skipped: discord_event_id unresolved google_event_id=%s"
         [google_event_id].

(** [sync_to_discord]. *)
Definition sync_to_discord (event : gevent)
    (notion_page fallback_notion_page : option page) : M (option string) :=
  let! available := discord_sync_available in
  if negb available then ret None
  else if negb (Py.truthy_opt (ev_id event)) then ret None
  else
    let google_event_id := default "" (ev_id event) in
    let! discord_event_id :=
      resolve_discord_event_id google_event_id notion_page
                               fallback_notion_page in
    if bool_decide (ev_status event = Some "cancelled")
    then
      run! delete_step google_event_id discord_event_id in
      run! remove_discord_event_id_by_google_id google_event_id in
      ret None
    else if Py.truthy_opt discord_event_id
    then
      let! updated := discord_update_event (default "" discord_event_id) event in
      match updated with
      | Some obj =>
          let resolved_id := Py.or_str obj (default "" discord_event_id) in
          run! set_discord_event_id_by_google_id google_event_id resolved_id in
          ret (Some resolved_id)
      | None =>
          run! log WARNING
                 "Discord update failed for existing event_id=%s; skip create to avoid duplication"
                 [default "" discord_event_id] in
          ret None
      end
    else
      let! created := discord_create_event event in
      match created with
      | Some (Some id) =>
          if Py.truthy id
          then
            run! set_discord_event_id_by_google_id google_event_id id in
            run! log INFO
                   "Discord event created from Google: google_event_id=%s discord_event_id=%s"
                   [google_event_id; id] in
            ret (Some id)
          else ret None
      | _ => ret None
      end.

(** Lines 1095-1104 of [upsert_event]: the page of the internal database,
    from the correlation map or else by a query. *)
Definition resolve_internal_page (google_event_id : string)
    : M (option page) :=
  let! mapped_internal_page_id :=
    get_notion_page_id_by_google_id google_event_id internal in
  let! pg :=
    (if Py.truthy_opt mapped_internal_page_id
     then
       let! pg := notion_get_page (default "" mapped_internal_page_id) in
       run! (if bool_decide (pg = None)
             then remove_notion_page_id_by_google_id google_event_id internal
             else ret tt) in
       ret pg
     else ret None) in
  match pg with
  | Some _ => ret pg
  | None =>
      let! pg := notion_find_by_google_event_id google_event_id
                   (NOTION_EVENT_INTERNAL_DB_ID (cfg E)) in
      run! (match pg with
            | Some p => set_notion_page_id_by_google_id google_event_id
                          (pg_id p) internal
            | None => ret tt
            end) in
      ret pg
  end.

(** Lines 1106-1125 of [upsert_event]: the page of the external
    database. *)
Definition resolve_external_page (google_event_id : string)
    : M (option page) :=
  if negb (Py.truthy_opt (NOTION_EVENT_EXTERNAL_DB_ID (cfg E))) then ret None
  else
    let! mapped_external_page_id :=
      get_notion_page_id_by_google_id google_event_id external in
    let! external_page :=
      (if Py.truthy_opt mapped_external_page_id
       then
         let! pg := notion_get_page (default "" mapped_external_page_id) in
         run! (if bool_decide (pg = None)
               then remove_notion_page_id_by_google_id google_event_id external
               else ret tt) in
         ret pg
       else ret None) in
    match external_page with
    | Some _ => ret external_page
    | None =>
        let! found := notion_find_by_message_id google_event_id
                        (NOTION_EVENT_EXTERNAL_DB_ID (cfg E)) in
        let! found :=
          (match found with
           | Some _ => ret found
           | None => notion_find_by_google_event_id google_event_id
                       (NOTION_EVENT_EXTERNAL_DB_ID (cfg E))
           end) in
        run! (match found with
              | Some p => set_notion_page_id_by_google_id google_event_id
                            (pg_id p) external
              | None => ret tt
              end) in
        ret found
    end.

(** Lines 1127-1138 of [upsert_event]: a cancelled event. *)
Definition upsert_cancelled (event : gevent) (google_event_id : string)
    (pg external_page : option page) : M unit :=
  run! (match pg with
        | Some _ =>
            run! notion_archive_page pg in
            remove_notion_page_id_by_google_id google_event_id internal
        | None => ret tt
        end) in
  run! (match external_page with
        | Some _ =>
            run! notion_archive_page external_page in
            remove_notion_page_id_by_google_id google_event_id external
        | None => ret tt
        end) in
  run! sync_to_discord event pg external_page in
  ret tt.

(** [skip_internal_create] (lines 1147-1151). *)
Definition skip_internal_create (pg : option page) (end_dt : option datetime)
    (now_utc : Z) : bool :=
  bool_decide (pg = None) &&
  match end_dt with
  | Some e =>
      dt_wall (astimezone_utc (local_utcoffset E) e) <=? now_utc
  | None => false
  end.

(** Lines 1156-1190 of [upsert_event]: the page of the internal database
    is updated, created or left out; [None] is the early [return]. *)
Definition upsert_internal (google_event_id name content creator_id : string)
    (event_url location : option string) (dp : date_prop) (skip : bool)
    (pg : option page) : M (option (option page)) :=
  match pg with
  | Some p =>
      let! updated :=
        notion_update_event (pg_id p)
          (NotionProps (Some name) (Some content) (Some dp) event_url
                       (Some google_event_id) None None location) in
      run! (if updated
            then
              run! log INFO "Notion updated: %s (%s)" [name; google_event_id] in
              set_notion_page_id_by_google_id google_event_id (pg_id p) internal
            else ret tt) in
      ret (Some pg)
  | None =>
      if negb skip
      then
        let! page_id :=
          notion_create_event name content dp creator_id event_url
            (Some google_event_id) location
            (NOTION_EVENT_INTERNAL_DB_ID (cfg E)) (Some "") in
        if negb (Py.truthy_opt page_id) then ret None
        else
          run! log INFO "Notion created: %s (%s)" [name; google_event_id] in
          run! set_notion_page_id_by_google_id google_event_id
                 (default "" page_id) internal in
          ret (Some (Some (Page (default "" page_id) ∅)))
      else
        run! log INFO
               "Skip internal Notion recreate for finished event: google_event_id=%s"
               [google_event_id] in
        ret (Some None)
  end.

(** Lines 1192-1219 of [upsert_event]: the page of the external database
    is updated or created. *)
Definition upsert_external (google_event_id name content creator_id : string)
    (dp : date_prop) (external_page : option page) : M (option page) :=
  if negb (Py.truthy_opt (NOTION_EVENT_EXTERNAL_DB_ID (cfg E)))
  then ret external_page
  else
    match external_page with
    | Some q =>
        let! ext_ok :=
          notion_update_event (pg_id q)
            (NotionProps (Some name) (Some content) (Some dp) None None None
                         (Some google_event_id) None) in
        run! (if ext_ok
              then
                run! log INFO "Notion external updated: %s (%s)"
                       [name; google_event_id] in
                set_notion_page_id_by_google_id google_event_id (pg_id q)
                  external
              else ret tt) in
        ret external_page
    | None =>
        let! ext_page_id :=
          notion_create_event name content dp creator_id None None None
            (NOTION_EVENT_EXTERNAL_DB_ID (cfg E)) (Some google_event_id) in
        if Py.truthy_opt ext_page_id
        then
          run! log INFO "Notion external created: %s (%s)"
                 [name; google_event_id] in
          run! set_notion_page_id_by_google_id google_event_id
                 (default "" ext_page_id) external in
          ret (Some (Page (default "" ext_page_id) ∅))
        else ret None
    end.

(** Lines 1140-1225 of [upsert_event]: an event that is not cancelled. *)
Definition upsert_active (event : gevent) (google_event_id : string)
    (pg external_page : option page) : M unit :=
  let name := Py.or_str (ev_summary event) "(no title)" in
  let content := Py.or_str (ev_description event) "(no content)" in
  let event_url := ev_htmlLink event in
  let location := ev_location event in
  let creator_id := Py.or_str (ev_creator_email event) "unknown" in
  let! times := parse_google_event_times event in
  let! now_utc := read_clock in
  let skip := skip_internal_create pg times.2 now_utc in
  match build_notion_date event with
  | None => ret tt
  | Some dp =>
      let! step := upsert_internal google_event_id name content creator_id
                     event_url location dp skip pg in
      match step with
      | None => ret tt
      | Some pg =>
          let! external_page :=
            upsert_external google_event_id name content creator_id dp
                            external_page in
          let! discord_event_id := sync_to_discord event pg None in
          run! (match pg with
                | Some p =>
                    if Py.truthy_opt discord_event_id
                    then
                      run! notion_update_event (pg_id p)
                             (NotionProps None None None None None None
                                          discord_event_id None) in
                      ret tt
                    else ret tt
                | None => ret tt
                end) in
          match external_page with
          | Some q =>
              if Py.truthy_opt discord_event_id
              then
                run! notion_update_event (pg_id q)
                       (NotionProps None None None None None None
                                    discord_event_id None) in
                ret tt
              else ret tt
          | None => ret tt
          end
      end
  end.

(** [upsert_event]. *)
Definition upsert_event (event : gevent) : M unit :=
  if negb (Py.truthy_opt (ev_id event)) then ret tt
  else
    let google_event_id := default "" (ev_id event) in
    let! pg := resolve_internal_page google_event_id in
    let! external_page := resolve_external_page google_event_id in
    if bool_decide (ev_status event = Some "cancelled")
    then upsert_cancelled event google_event_id pg external_page
    else upsert_active event google_event_id pg external_page.

(** **** A reconciliation pass (lines 405-515, 1228-1277) *)

(** The [while True] loop over the pages of [events().list(...)], with
    or without [updatedMin]; [showDeleted] is always [True]. The Google
    client raises on an error status, which the oracle presents as
    [Failed]. The result is [None] when [fuel] pages do not exhaust the
    listing. *)
Fixpoint list_pages (fuel : nat) (updated_min page_token : option string)
    (events : list gevent) : M (option (list gevent)) :=
  match fuel with
  | O => ret None
  | S fuel' =>
      let! r := perform (GcalEventsList updated_min true page_token) in
      match r.2 with
      | BGcalEvents items next_page_token =>
          if negb (Py.truthy_opt next_page_token)
          then ret (Some (events ++ items))
          else list_pages fuel' updated_min next_page_token (events ++ items)
      | _ => raise "AttributeError"
      end
  end.

(** [fetch_all_without_updated_min], local to [list_updated_events]. *)
Definition fetch_all_without_updated_min (fuel : nat)
    : M (option (list gevent)) :=
  run! log WARNING "Retrying without updatedMin due to 410 updatedMinTooLongAgo"
         [] in
  list_pages fuel None None [].

(** The cursor sent as [updatedMin] (lines 454-460). *)
Definition effective_updated_min (updated_min : option string) : M string :=
  if negb (Py.truthy_opt updated_min)
  then
    let! now := read_clock in
    ret (isoformat E (dt_add (utc_datetime now) (- timedelta_days 30)))
  else
    match parse_rfc3339 updated_min with
    | Some dt => ret (isoformat E (dt_add dt (- timedelta_minutes 2)))
    | None => ret (default "" updated_min)
    end.

(** [list_updated_events]. *)
Definition list_updated_events (fuel : nat) (updated_min : option string)
    : M (option (list gevent)) :=
  if negb (calendar_service E)
     || negb (Py.truthy_opt (GOOGLE_CALENDAR_ID (cfg E)))
  then ret (Some [])
  else
    let! updated_min := effective_updated_min updated_min in
    try_except (list_pages fuel (Some updated_min) None [])
      (fun exc =>
         if Py.contains "updatedMinTooLongAgo" exc || Py.contains " 410 " exc
         then
           try_except (fetch_all_without_updated_min fuel)
             (fun retry_exc =>
                run! log ERROR "Google event list retry failed: %s"
                       [retry_exc] in
                ret (Some []))
         else
           run! log ERROR "Google event list failed: %s" [exc] in
           ret (Some [])).

(** The [for event in events] loop of [sync_calendar]; the result is
    [had_error]. *)
Fixpoint upsert_all (events : list gevent) (had_error : bool) : M bool :=
  match events with
  | [] => ret had_error
  | event :: events' =>
      let! failed :=
        try_except (run! upsert_event event in ret false)
          (fun exc =>
             run! log ERROR "Upsert failed event_id=%s err=%s"
                    [fmt (ev_id event); exc] in
             ret true) in
      upsert_all events' (had_error || failed)
  end.

(** [a > b] on [datetime]. *)
Definition dt_gt (a b : datetime) : option bool :=
  match dt_utcoffset a, dt_utcoffset b with
  | Some oa, Some ob => Some (dt_wall b - ob <? dt_wall a - oa)
  | None, None => Some (dt_wall b <? dt_wall a)
  | _, _ => None
  end.

(** [max(cur, *rest)]: the first maximal element is kept. *)
Fixpoint dt_max (cur : datetime) (rest : list datetime) : M datetime :=
  match rest with
  | [] => ret cur
  | d :: rest' =>
      match dt_gt d cur with
      | None => raise "TypeError"
      | Some true => dt_max d rest'
      | Some false => dt_max cur rest'
      end
  end.

(** [save_sync_state]: the write may raise. *)
Definition save_sync_state (updated_min : string) : M unit :=
  run! perform (SaveSyncState updated_min) in
  modify (set_sync_state_file (Some updated_min)).

(** [sync_calendar]. *)
Definition sync_calendar (fuel : nat) : M (option bool) :=
  if negb (Py.truthy_opt (NOTION_TOKEN (cfg E))
           && Py.truthy_opt (NOTION_EVENT_INTERNAL_DB_ID (cfg E))
           && Py.truthy_opt (GOOGLE_CALENDAR_ID (cfg E)))
  then
    run! log ERROR
           "Missing required envs: NOTION_TOKEN/NOTION_EVENT_INTERNAL_ID/GOOGLE_CALENDAR_ID"
           [] in
    ret (Some false)
  else
    let! w := get_world in
    let updated_min := sync_state_file w in
    run! log INFO "Sync start updated_min=%s" [fmt updated_min] in
    let! listed := list_updated_events fuel updated_min in
    match listed with
    | None => ret None
    | Some events =>
        run! log INFO "Google events fetched: %d" [] in
        let! had_error := upsert_all events false in
        let updated_values :=
          omap (fun e => parse_rfc3339 (ev_updated e)) events in
        let! next_cursor :=
          (match updated_values with
           | d :: rest => let! m := dt_max d rest in ret (isoformat E m)
           | [] => let! now := read_clock in ret (isoformat E (utc_datetime now))
           end) in
        run! save_sync_state next_cursor in
        run! log INFO
               "Sync completed next_updated_min=%s events=%d had_error=%s"
               [next_cursor] in
        ret (Some (negb had_error))
    end.

(** **** Run coordination and the HTTP surface (lines 1280-1365) *)

(** [_sync_lock.acquire(blocking=False)]. *)
Definition acquire_nonblocking : M bool :=
  fun w =>
    if sync_lock w then (Ret false, w) else (Ret true, set_sync_lock true w).

(** [_sync_lock.release()]. *)
Definition release : M unit := modify (set_sync_lock false).

(** [run_sync_guarded]. *)
Definition run_sync_guarded (fuel : nat) (source : string)
    : M (option (bool * string)) :=
  let! now := read_clock in
  let! w := get_world in
  if now - sync_last_run_epoch w <? Z.max 0 (SYNC_COOLDOWN_SECONDS (cfg E))
  then
    run! log INFO "Sync skipped source=%s reason=cooldown cool=%.3fs" [source]
    in ret (Some (true, "cooldown"))
  else
    let! locked := acquire_nonblocking in
    if negb locked
    then
      run! log INFO "Sync skipped source=%s reason=in_progress" [source] in
      ret (Some (true, "in_progress"))
    else
      try_finally
        (let! synced := sync_calendar fuel in
         match synced with
         | None => ret None
         | Some synced =>
             let! t := read_clock in
             run! modify (set_sync_last_run_epoch t) in
             ret (Some (synced, "done"))
         end)
        release.

(** Lines 1335-1339 of [gcal_webhook]: whether the notification is a
    duplicate. *)
Definition check_duplicate (goog_channel goog_message_num : option string)
    : M bool :=
  if Py.truthy_opt goog_channel && Py.truthy_opt goog_message_num
  then
    let dedupe_key :=
      "goog:" +:+ default "" goog_channel +:+ ":"
              +:+ default "" goog_message_num in
    let! seen := register_message_id dedupe_key in
    if seen
    then
      run! log INFO "Duplicate Google webhook message skipped key=%s"
             [dedupe_key] in
      ret true
    else ret false
  else ret false.

(** [gcal_webhook]: the body and the status of the response. *)
Definition gcal_webhook (fuel : nat)
    (goog_channel goog_message_num goog_state : option string)
    : M (option (string * Z)) :=
  let! duplicate := check_duplicate goog_channel goog_message_num in
  if duplicate then ret (Some ("", 204))
  else
    run! log INFO "Webhook received mode=direct ch=%s state=%s msg=%s"
           [fmt goog_channel; fmt goog_state; fmt goog_message_num] in
    let! r := run_sync_guarded fuel "webhook" in
    match r with
    | None => ret None
    | Some (synced, reason) =>
        if negb (String.eqb reason "done") then ret (Some ("", 204))
        else if negb synced then ret (Some ("sync failed", 500))
        else ret (Some ("", 204))
    end.

(** [manual_sync]. *)
Definition manual_sync (fuel : nat) : M (option (string * Z)) :=
  let! r := run_sync_guarded fuel "manual" in
  match r with
  | None => ret None
  | Some (synced, _) =>
      if synced then ret (Some ("ok", 200))
      else ret (Some ("sync failed", 500))
  end.

End Code.

End Webhook.

(** ** The chat bot ([src/services/bot/bot.py]): inbound handlers *)

Module Bot.

Import Webhook (page, Page, pg_id, pg_rich_text, rich_node, text_content,
                plain_text, level, INFO, WARNING, ERROR, log_entry, Log,
                outcome, Ret, Raise).

Record config := Config {
  NOTION_EVENT_EXTERNAL_DB_ID : option string;
  NOTION_EVENT_INTERNAL_DB_ID : option string;
}.

(** [discord.User], of which the code reads the [id]. *)
Record user := User { user_id : Z }.

(** [discord.ScheduledEvent], with the attributes the code reads.
    [se_entity_metadata] is [None] without metadata and holds the
    [location] attribute of the metadata otherwise. *)
Record scheduled_event := ScheduledEvent {
  se_id : Z;
  se_name : string;
  se_description : option string;
  se_start_time : datetime;
  se_end_time : option datetime;
  se_creator_id : option Z;
  se_creator : option user;
  se_url : option string;
  se_guild_id : option Z;
  se_location : option string;
  se_entity_metadata : option (option string);
}.

(** Body of [events().insert] and [events().patch]. *)
Record google_body := GoogleBody {
  gb_summary : string;
  gb_description : string;
  gb_start : string;
  gb_end : string;
  gb_location : option string;
}.

(** Body of [POST /v1/pages] built by [notion_add_event]. *)
Record notion_add := NotionAdd {
  na_database_id : string;
  na_title : string;
  na_content : string;
  na_date_start : string;
  na_message_id : string;
  na_creator_id : string;
  na_event_url : option string;
  na_google_event_id : option string;
  na_location : option string;
}.

(** The [properties] built by [notion_update_event]. *)
Record notion_props := NotionProps {
  np_title : option string;
  np_content : option string;
  np_date_start : option string;
  np_message_id : option string;
  np_page_id : option string;
  np_event_url : option string;
  np_google_event_id : option string;
  np_location : option string;
}.

Inductive call :=
| GoogleInsert (body : google_body)
| GooglePatch (event_id : string) (body : google_body)
| GoogleDelete (event_id : string)
| NotionCreatePage (data : notion_add)
| NotionGetPage (page_id : string)
| NotionPatchPage (page_id : string) (props : notion_props)
| NotionArchivePage (page_id : string)
| NotionQueryAll (database_id : string).

(** The calls that reach the calendar and those that reach the document
    store. *)
Definition is_calendar_call (c : call) : bool :=
  match c with
  | GoogleInsert _ | GooglePatch _ _ | GoogleDelete _ => true
  | _ => false
  end.

Definition is_document_store_call (c : call) : bool :=
  match c with
  | NotionCreatePage _ | NotionGetPage _ | NotionPatchPage _ _
  | NotionArchivePage _ | NotionQueryAll _ => true
  | _ => false
  end.

(** The JSON of a response, as far as the code reads it; [BNone] is an
    empty or undecodable text ([data = None]). *)
Inductive body :=
| BNone
| BPage (p : page)
| BResults (results : list page)
| BGoogleEvent (id : option string).

Inductive response :=
| Failed (exc : string)
| Http (status : Z) (data : body).

Record env := Env {
  cfg : config;
  (** [bot.user], [None] before the client has logged in *)
  bot_user : option user;
  (** whether [get_google_calendar_service()] returns a service *)
  google_service : bool;
  respond : list call -> call -> response;
  isoformat : datetime -> string;
}.

Record world := World {
  trace : list call;
  logs : list log_entry;
}.

Definition M (A : Type) : Type := world -> outcome A * world.

Definition ret {A} (a : A) : M A := fun w => (Ret a, w).
Definition raise {A} (exc : string) : M A := fun w => (Raise exc, w).

Definition bind {A B} (m : M A) (k : A -> M B) : M B :=
  fun w =>
    match m w with
    | (Ret a, w') => k a w'
    | (Raise exc, w') => (Raise exc, w')
    end.

Definition try_except {A} (m : M A) (h : string -> M A) : M A :=
  fun w =>
    match m w with
    | (Ret a, w') => (Ret a, w')
    | (Raise exc, w') => h exc w'
    end.

Notation "'let!' x ':=' m 'in' k" := (bind m (fun x => k))
  (at level 10, x binder, m at level 100, k at level 200).
Notation "'run!' m 'in' k" := (bind m (fun _ => k))
  (at level 10, m at level 100, k at level 200).

Definition log (l : level) (fmt : string) (args : list string) : M unit :=
  fun w => (Ret tt, World (trace w) (logs w ++ [Log l fmt args])).

Section Code.

Context (E : env).

Definition perform (c : call) : M (Z * body) :=
  fun w =>
    match respond E (trace w) c with
    | Failed exc => (Raise exc, World (trace w ++ [c]) (logs w))
    | Http status data => (Ret (status, data), World (trace w ++ [c]) (logs w))
    end.

(** The zone [JST] and [to_jst_iso]. *)
Definition JST : Z := timedelta_hours 9.

Definition to_jst_iso (dt : datetime) : string :=
  match dt_utcoffset dt with
  | Some o => isoformat E (DateTime (dt_wall dt - o + JST) (Some JST))
  | None => isoformat E (DateTime (dt_wall dt) (Some JST))
  end.

(** The body shared by [google_add_event] and [google_update_event]. *)
Definition google_event_body (name description : string)
    (start_dt end_dt : datetime) (location : option string) : google_body :=
  GoogleBody name description (to_jst_iso start_dt) (to_jst_iso end_dt)
             (if Py.truthy_opt location then location else None).

(** [google_add_event]: the ["id"] of the inserted event, [None] on
    failure; [Some None] is a response without id. *)
Definition google_add_event (name description : string)
    (start_dt end_dt : datetime) (location : option string)
    : M (option (option string)) :=
  if negb (google_service E)
  then run! log WARNING "Googleカレンダー登録をスキップ: 連携設定が有効化されていません。" []
       in ret None
  else
    try_except
      (let! r := perform (GoogleInsert (google_event_body name description
                                          start_dt end_dt location)) in
       match r.2 with
       | BGoogleEvent id => ret (Some id)
       | _ => ret (Some None)
       end)
      (fun exc => run! log ERROR "Googleカレンダー追加失敗: %s" [exc] in ret None).

(** [google_update_event]: whether a response came back. *)
Definition google_update_event (google_event_id name description : string)
    (start_dt end_dt : datetime) (location : option string) : M bool :=
  if negb (google_service E) || negb (Py.truthy google_event_id)
  then ret false
  else
    try_except
      (run! perform (GooglePatch google_event_id
                       (google_event_body name description start_dt end_dt
                                          location)) in
       ret true)
      (fun exc =>
         run! log ERROR "Googleカレンダー更新失敗(event_id=%s): %s"
                [google_event_id; exc] in
         ret false).

(** [google_delete_event]. *)
Definition google_delete_event (google_event_id : string) : M bool :=
  if negb (google_service E) || negb (Py.truthy google_event_id)
  then ret false
  else
    try_except
      (run! perform (GoogleDelete google_event_id) in ret true)
      (fun exc =>
         run! log ERROR "Googleカレンダー削除失敗(event_id=%s): %s"
                [google_event_id; exc] in
         ret false).

(** [notion_update_event]. *)
Definition notion_update_event (page_id : string) (props : notion_props)
    : M bool :=
  let! r := perform (NotionPatchPage page_id props) in
  ret ((r.1 =? 200) || (r.1 =? 201)).

(** [notion_add_event]. *)
Definition notion_add_event (db_id : option string) (name content : string)
    (date_iso message_id creator_id : string)
    (event_url google_event_id location : option string)
    : M (option string) :=
  if negb (Py.truthy_opt db_id) then ret None
  else
    let! r := perform (NotionCreatePage
                (NotionAdd (default "" db_id) name content date_iso
                           message_id creator_id event_url google_event_id
                           location)) in
    if negb ((r.1 =? 200) || (r.1 =? 201))
    then run! log ERROR "Notion作成エラー: %s" [] in ret None
    else
      match r.2 with
      | BPage p =>
          run! notion_update_event (pg_id p)
                 (NotionProps None None None None (Some (pg_id p)) None None
                              None) in
          ret (Some (pg_id p))
      | _ => raise "KeyError"
      end.

(** [notion_get_event]. *)
Definition notion_get_event (page_id : string) : M (option page) :=
  let! r := perform (NotionGetPage page_id) in
  if negb (r.1 =? 200) then ret None
  else
    match r.2 with
    | BPage p => ret (Some p)
    | _ => ret None
    end.

(** [notion_delete_event]. *)
Definition notion_delete_event (page_id : string) : M bool :=
  let! r := perform (NotionArchivePage page_id) in
  if negb ((r.1 =? 200) || (r.1 =? 201))
  then run! log ERROR "Notion削除エラー: %s" [] in ret false
  else ret true.

(** [fetch_event_pages]. *)
Definition fetch_event_pages (db_id : option string) : M (list page) :=
  if negb (Py.truthy_opt db_id) then ret []
  else
    let! r := perform (NotionQueryAll (default "" db_id)) in
    if negb (r.1 =? 200)
    then run! log ERROR "イベント一覧取得失敗: %s" [] in ret []
    else
      match r.2 with
      | BResults results => ret results
      | _ => ret []
      end.

(** [is_ignored_event]. *)
Definition is_ignored_event (name : string) : bool :=
  Py.contains "定例会" name.

(** [get_event_url]. *)
Definition get_event_url (event : scheduled_event) : option string :=
  if Py.truthy_opt (se_url event) then se_url event
  else
    match se_guild_id event with
    | Some g =>
        if negb (g =? 0)
        then Some ("https://discord.com/events/" +:+ pretty g +:+ "/"
                     +:+ pretty (se_id event))
        else None
    | None => None
    end.

(** [get_event_location]. *)
Definition get_event_location (event : scheduled_event) : option string :=
  let from_metadata :=
    match se_entity_metadata event with
    | Some meta_location =>
        if Py.truthy_opt meta_location
        then Py.strip_or_none (default "" meta_location)
        else None
    | None => None
    end in
  if Py.truthy_opt (se_location event)
  then
    match Py.strip_or_none (default "" (se_location event)) with
    | Some text => Some text
    | None => from_metadata
    end
  else from_metadata.

(** [get_google_event_id_from_notion_page]. *)
Definition get_google_event_id_from_notion_page (pg : option page)
    : option string :=
  match pg with
  | None => None
  | Some p =>
      match default [] (pg_rich_text p !! "GoogleイベントID") with
      | [] => None
      | node :: _ =>
          if Py.truthy_opt (plain_text node)
          then Py.strip_or_none (default "" (plain_text node))
          else if Py.truthy_opt (text_content node)
          then Py.strip_or_none (default "" (text_content node))
          else None
      end
  end.

(** [is_bot_created_scheduled_event]. *)
Definition is_bot_created_scheduled_event (event : scheduled_event) : bool :=
  match bot_user E with
  | None => false
  | Some u =>
      match se_creator_id event with
      | Some creator_id =>
          if creator_id =? user_id u then true
          else
            match se_creator event with
            | Some creator => user_id creator =? user_id u
            | None => false
            end
      | None =>
          match se_creator event with
          | Some creator => user_id creator =? user_id u
          | None => false
          end
      end
  end.

(** The [for page in pages] loop of [find_event_page]; a node without
    text content raises [KeyError]. *)
Fixpoint find_in_pages (pages : list page) (event_id_str : string)
    : M (option page) :=
  match pages with
  | [] => ret None
  | p :: pages' =>
      match default [] (pg_rich_text p !! "メッセージID") with
      | [] => find_in_pages pages' event_id_str
      | node :: _ =>
          match text_content node with
          | None => raise "KeyError"
          | Some mid =>
              if String.eqb mid event_id_str then ret (Some p)
              else find_in_pages pages' event_id_str
          end
      end
  end.

(** [find_event_page]. *)
Definition find_event_page (db_id : option string) (event_id_str : string)
    : M (option page) :=
  let! pages := fetch_event_pages db_id in
  find_in_pages pages event_id_str.

(** [on_scheduled_event_create]. *)
Definition on_scheduled_event_create (event : scheduled_event) : M unit :=
  let name := se_name event in
  if is_bot_created_scheduled_event event
  then log INFO "Bot作成イベントのためDiscord->Google/Notion同期をスキップ: %s" [name]
  else
    let description := Py.or_str (se_description event) "(内容なし)" in
    let start_iso := to_jst_iso (se_start_time event) in
    let event_url := get_event_url event in
    let event_location := get_event_location event in
    let from_creator :=
      match se_creator event with
      | Some creator => pretty (user_id creator)
      | None => "unknown"
      end in
    let creator_id :=
      match se_creator_id event with
      | Some c => if negb (c =? 0) then pretty c else from_creator
      | None => from_creator
      end in
    let end_time :=
      match se_end_time event with
      | Some e => e
      | None => dt_add (se_start_time event) (timedelta_hours 1)
      end in
    let! google_event :=
      google_add_event name description (se_start_time event) end_time
                       event_location in
    let google_event_id :=
      match google_event with
      | Some id => id
      | None => None
      end in
    run! (if negb (is_ignored_event (se_name event))
          then
            run! notion_add_event (NOTION_EVENT_EXTERNAL_DB_ID (cfg E)) name
                   description start_iso (pretty (se_id event)) creator_id
                   None google_event_id None in
            ret tt
          else log WARNING "外部用DBは除外イベントのため登録しません: %s"
                 [se_name event]) in
    run! notion_add_event (NOTION_EVENT_INTERNAL_DB_ID (cfg E)) name
           description start_iso (pretty (se_id event)) creator_id
           event_url google_event_id event_location in
    log INFO "Discordイベント作成 -> Notion登録: %s" [name].

(** [on_scheduled_event_update]. *)
Definition on_scheduled_event_update (before after : scheduled_event)
    : M unit :=
  let after_id_str := pretty (se_id after) in
  if is_bot_created_scheduled_event after
  then log INFO "Bot作成イベントのためDiscord更新同期をスキップ: %s" [se_name after]
  else
    let event_url := get_event_url after in
    let! target :=
      (if negb (is_ignored_event (se_name after))
       then find_event_page (NOTION_EVENT_EXTERNAL_DB_ID (cfg E)) after_id_str
       else
         run! log WARNING "外部用DBは除外イベントのため更新しません: %s"
                [se_name after] in
         ret None) in
    let! internal_target :=
      find_event_page (NOTION_EVENT_INTERNAL_DB_ID (cfg E)) after_id_str in
    let new_name := se_name after in
    let new_content := Py.or_str (se_description after) "(内容なし)" in
    let new_date_iso := to_jst_iso (se_start_time after) in
    let new_location := get_event_location after in
    let new_end_time :=
      match se_end_time after with
      | Some e => e
      | None => dt_add (se_start_time after) (timedelta_hours 1)
      end in
    let! google_event_id :=
      (match internal_target with
       | Some t =>
           let! internal_page := notion_get_event (pg_id t) in
           ret (get_google_event_id_from_notion_page internal_page)
       | None => ret None
       end) in
    run! (if Py.truthy_opt google_event_id
          then
            let! google_updated :=
              google_update_event (default "" google_event_id) new_name
                new_content (se_start_time after) new_end_time new_location in
            if google_updated
            then log INFO "Discordイベント更新 -> Googleカレンダー更新: %s" [new_name]
            else log ERROR "Googleカレンダー イベント更新に失敗しました。" []
          else log WARNING
                 "GoogleイベントIDが見つからないためGoogle更新をスキップします: %s"
                 [new_name]) in
    run! (match target with
          | Some t =>
              let! ok :=
                notion_update_event (pg_id t)
                  (NotionProps (Some new_name) (Some new_content)
                               (Some new_date_iso) None None None None None) in
              if ok
              then log INFO "Discordイベント更新 -> 外部用Notion更新: %s" [new_name]
              else log ERROR "外部用Notion イベント更新に失敗しました。" []
          | None =>
              if Py.truthy_opt (NOTION_EVENT_EXTERNAL_DB_ID (cfg E))
                 && negb (is_ignored_event (se_name after))
              then log WARNING
                     "外部用Notion 側に対応するイベントページが見つかりません。" []
              else ret tt
          end) in
    match internal_target with
    | Some t =>
        let! ok :=
          notion_update_event (pg_id t)
            (NotionProps (Some new_name) (Some new_content)
                         (Some new_date_iso) None None event_url None
                         new_location) in
        if ok
        then log INFO "Discordイベント更新 -> 内部用Notion更新: %s" [new_name]
        else log ERROR "内部用Notion イベント更新に失敗しました。" []
    | None =>
        if Py.truthy_opt (NOTION_EVENT_INTERNAL_DB_ID (cfg E))
        then log WARNING "内部用Notion 側に対応するイベントページが見つかりません。" []
        else ret tt
    end.

(** [on_scheduled_event_delete]. *)
Definition on_scheduled_event_delete (event : scheduled_event) : M unit :=
  let eid := pretty (se_id event) in
  if is_bot_created_scheduled_event event
  then log INFO "Bot作成イベントのためDiscord削除同期をスキップ: %s" [se_name event]
  else
    run! (if negb (is_ignored_event (se_name event))
          then
            let! target :=
              find_event_page (NOTION_EVENT_EXTERNAL_DB_ID (cfg E)) eid in
            match target with
            | Some t =>
                let! deleted := notion_delete_event (pg_id t) in
                if deleted
                then log INFO "Discordイベント削除 -> 外部用Notion削除: %s"
                       [se_name event]
                else log ERROR "外部用Notion イベント削除に失敗しました。" []
            | None =>
                if Py.truthy_opt (NOTION_EVENT_EXTERNAL_DB_ID (cfg E))
                then log WARNING "外部用の削除対象Notionイベントが見つかりません。" []
                else ret tt
            end
          else log WARNING "外部用DBは除外イベントの削除は無視します: %s"
                 [se_name event]) in
    let! internal_target :=
      find_event_page (NOTION_EVENT_INTERNAL_DB_ID (cfg E)) eid in
    match internal_target with
    | Some t =>
        let! internal_page := notion_get_event (pg_id t) in
        let google_event_id :=
          get_google_event_id_from_notion_page internal_page in
        run! (if Py.truthy_opt google_event_id
              then
                let! deleted :=
                  google_delete_event (default "" google_event_id) in
                if deleted
                then log INFO "Discordイベント削除 -> Googleカレンダー削除: %s"
                       [se_name event]
                else log ERROR "Googleカレンダー イベント削除に失敗しました。" []
              else log WARNING
                     "GoogleイベントIDが見つからないためGoogle削除をスキップします: %s"
                     [se_name event]) in
        let! deleted := notion_delete_event (pg_id t) in
        if deleted
        then log INFO "Discordイベント削除 -> 内部用Notion削除: %s"
               [se_name event]
        else log ERROR "内部用Notion イベント削除に失敗しました。" []
    | None =>
        if Py.truthy_opt (NOTION_EVENT_INTERNAL_DB_ID (cfg E))
        then log WARNING "内部用の削除対象Notionイベントが見つかりません。" []
        else ret tt
    end.

End Code.

End Bot.

(** ** Concurrent triggers of [run_sync_guarded]

    Flask serves each request on its own thread, so several activations of
    [run_sync_guarded] (webhook.py, lines 1280-1314) interleave. A thread
    is at one of the program points below; an action lets one thread
    execute the statement at its program point, lets a request arrive, or
    lets time pass. [sync_calendar] touches neither [_sync_lock] nor
    [_sync_last_run_epoch], so it is a single action that either returns a
    flag or raises. *)

Module Coordinator.

Import Webhook (outcome, Ret, Raise).

Inductive pc :=
| AtEntry                       (* before [now = time.time()] *)
| AtCheck (now : Z)             (* before the cooldown test *)
| AtAcquire                     (* before [_sync_lock.acquire(blocking=False)] *)
| InSync                        (* inside [sync_calendar()], lock held *)
| AtStamp (synced : bool)       (* before [_sync_last_run_epoch = time.time()] *)
| AtRelease (r : outcome (bool * string))   (* the [finally] clause *)
| Returned (r : outcome (bool * string)).

Record thread := Thread {
  th_source : string;           (* ["webhook"] or ["manual"] *)
  th_pc : pc;
}.

Record state := State {
  lock : bool;                  (* [_sync_lock] is held *)
  last_run_epoch : Z;           (* [_sync_last_run_epoch] *)
  clock : Z;
  threads : list thread;
}.

Inductive action :=
| Arrive (source : string)
| Tick (elapsed : Z)
| Step (i : nat)
| SyncReturns (i : nat) (synced : bool)
| SyncRaises (i : nat) (exc : string).

Definition set_pc (i : nat) (p : pc) (s : state) : list thread :=
  alter (fun t => Thread (th_source t) p) i (threads s).

(** The statement at the program point of thread [i]. *)
Definition step (cooldown : Z) (i : nat) (s : state) : option state :=
  match th_pc <$> threads s !! i with
  | Some AtEntry =>
      Some (State (lock s) (last_run_epoch s) (clock s)
                  (set_pc i (AtCheck (clock s)) s))
  | Some (AtCheck now) =>
      if now - last_run_epoch s <? Z.max 0 cooldown
      then Some (State (lock s) (last_run_epoch s) (clock s)
                       (set_pc i (Returned (Ret (true, "cooldown"))) s))
      else Some (State (lock s) (last_run_epoch s) (clock s)
                       (set_pc i AtAcquire s))
  | Some AtAcquire =>
      if lock s
      then Some (State (lock s) (last_run_epoch s) (clock s)
                       (set_pc i (Returned (Ret (true, "in_progress"))) s))
      else Some (State true (last_run_epoch s) (clock s) (set_pc i InSync s))
  | Some (AtStamp synced) =>
      Some (State (lock s) (clock s) (clock s)
                  (set_pc i (AtRelease (Ret (synced, "done"))) s))
  | Some (AtRelease r) =>
      Some (State false (last_run_epoch s) (clock s) (set_pc i (Returned r) s))
  | Some InSync | Some (Returned _) | None => None
  end.

Definition exec (cooldown : Z) (a : action) (s : state) : option state :=
  match a with
  | Arrive source =>
      Some (State (lock s) (last_run_epoch s) (clock s)
                  (threads s ++ [Thread source AtEntry]))
  | Tick elapsed =>
      if 0 <=? elapsed
      then Some (State (lock s) (last_run_epoch s) (clock s + elapsed)
                       (threads s))
      else None
  | Step i => step cooldown i s
  | SyncReturns i synced =>
      match th_pc <$> threads s !! i with
      | Some InSync =>
          Some (State (lock s) (last_run_epoch s) (clock s)
                      (set_pc i (AtStamp synced) s))
      | _ => None
      end
  | SyncRaises i exc =>
      match th_pc <$> threads s !! i with
      | Some InSync =>
          Some (State (lock s) (last_run_epoch s) (clock s)
                      (set_pc i (AtRelease (Raise exc)) s))
      | _ => None
      end
  end.

Fixpoint run (cooldown : Z) (acts : list action) (s : state) : option state :=
  match acts with
  | [] => Some s
  | a :: acts' =>
      match exec cooldown a s with
      | Some s' => run cooldown acts' s'
      | None => None
      end
  end.

(** The process starts with the lock free, [_sync_last_run_epoch = 0.0] and
    no request. *)
Definition initial (t0 : Z) : state := State false 0 t0 [].

(** A thread is inside a reconciliation pass from the acquisition of the
    lock to its release. *)
Definition in_flight (t : thread) : bool :=
  match th_pc t with
  | InSync | AtStamp _ | AtRelease _ => true
  | _ => false
  end.

Definition passes_in_flight (s : state) : nat :=
  List.length (List.filter in_flight (threads s)).

(** The lock is held exactly while one thread is between its acquisition
    and its release. *)
Definition lock_invariant (s : state) : Prop :=
  passes_in_flight s = if lock s then 1%nat else 0%nat.

End Coordinator.

(** ** Vocabulary of the properties *)

Module Props.

Import Webhook.

(** The calls of a run: what [w'] has recorded beyond [w]. *)
Definition calls_since (w w' : world) : list call :=
  drop (List.length (trace w)) (trace w').

Definition is_create (c : call) : bool :=
  match c with
  | NotionCreatePage _ => true
  | DiscordApi method _ _ => String.eqb method "POST"
  | _ => false
  end.

Definition is_update (c : call) : bool :=
  match c with
  | NotionPatchPage _ _ => true
  | DiscordApi method _ _ => String.eqb method "PATCH"
  | _ => false
  end.

Definition is_archive (c : call) : bool :=
  match c with
  | NotionArchivePage _ => true
  | _ => false
  end.

Definition is_discord_call (c : call) : bool :=
  match c with
  | DiscordApi _ _ _ | DiscordListEvents _ => true
  | _ => false
  end.

(** A response that carries a page: a mirror exists in the document
    store. *)
Definition carries_page (r : response) : bool :=
  match r with
  | Http _ (BPage _) => true
  | Http _ (BResults (_ :: _)) => true
  | _ => false
  end.

(** The requests that look a mirror up in the document store. *)
Definition is_lookup (c : call) : bool :=
  match c with
  | NotionGetPage _ | NotionQuery _ _ _ => true
  | _ => false
  end.

(** No lookup finds a page: the event has no mirror in the document
    store. *)
Definition no_mirror (E : env) : Prop :=
  forall h c, is_lookup c = true -> carries_page (respond E h c) = false.

(** A create request to Notion is the one of the external database: it
    goes to [NOTION_EVENT_EXTERNAL_DB_ID] and carries no calendar id in
    its [GoogleイベントID] column (the create request of the internal
    database carries it). *)
Definition external_create_only (E : env) (c : call) : Prop :=
  match c with
  | NotionCreatePage data =>
      nc_database_id data = NOTION_EVENT_EXTERNAL_DB_ID (cfg E) /\
      nc_google_event_id data = None
  | _ => True
  end.

(** The request does not create a page in the database [db]. *)
Definition no_create_in (db : option string) (c : call) : Prop :=
  match c with
  | NotionCreatePage data => nc_database_id data <> db
  | _ => True
  end.

(** The three clipped fields of a Discord payload. *)
Definition clipped (C : config) (pl : discord_payload) : Prop :=
  (String.length (pl_name pl) <= Z.to_nat (DISCORD_NAME_LIMIT C))%nat /\
  (String.length (pl_description pl)
     <= Z.to_nat (DISCORD_DESCRIPTION_LIMIT C))%nat /\
  (String.length (pl_location pl) <= Z.to_nat (DISCORD_LOCATION_LIMIT C))%nat.

(** The requests to Discord carry clipped fields. *)
Definition clipped_call (C : config) (c : call) : Prop :=
  match c with
  | DiscordApi _ _ (Some pl) => clipped C pl
  | _ => True
  end.

(** The end time in the requests about an event that starts at [s]: the
    requests to Discord carry [s] plus one hour, those to Notion the
    date property that [build_notion_date] makes of the event. *)
Definition end_time_call (E : env) (ev : gevent) (s : datetime) (c : call)
    : Prop :=
  match c with
  | DiscordApi _ _ (Some pl) =>
      pl_scheduled_end_time pl
        = to_discord_iso E (dt_add s (timedelta_hours 1))
  | NotionCreatePage data => build_notion_date ev = Some (nc_date data)
  | NotionPatchPage _ props =>
      np_date props = None \/ np_date props = build_notion_date ev
  | _ => True
  end.

(** The end of the event is missing, or it is not after the start [s]. *)
Definition end_missing_or_not_after (E : env) (ev : gevent) (s : datetime)
    : Prop :=
  parse_part E (ev_end ev) true = None \/
  exists e, parse_part E (ev_end ev) true = Some e /\ dt_le e s = Some true.

(** The requests by which a cancellation reaches Discord: the listing of
    the marker scan and the delete request. *)
Definition cleanup_call (c : call) : Prop :=
  is_discord_call c = true /\ is_create c = false /\ is_update c = false.

(** The requests of a pass that reconciles no event: the listing of the
    calendar and the write of the cursor. *)
Definition is_listing (c : call) : bool :=
  match c with
  | GcalEventsList _ _ _ => true
  | _ => false
  end.

Definition is_listing_or_cursor (c : call) : bool :=
  match c with
  | GcalEventsList _ _ _ | SaveSyncState _ => true
  | _ => false
  end.

(** A listing without [updatedMin] that includes the deleted events. *)
Definition is_full_listing (c : call) : bool :=
  match c with
  | GcalEventsList None true _ => true
  | _ => false
  end.

(** Every listing of the calendar raises. *)
Definition listing_fails (E : env) : Prop :=
  forall h updated_min page_token,
    exists exc,
      respond E h (GcalEventsList updated_min true page_token) = Failed exc.

(** The write of the cursor to the state file succeeds. *)
Definition cursor_saved (E : env) : Prop :=
  forall h cursor exc, respond E h (SaveSyncState cursor) <> Failed exc.

(** The configuration that [sync_calendar] requires. *)
Definition sync_configured (C : config) : Prop :=
  Py.truthy_opt (NOTION_TOKEN C) = true /\
  Py.truthy_opt (NOTION_EVENT_INTERNAL_DB_ID C) = true /\
  Py.truthy_opt (GOOGLE_CALENDAR_ID C) = true.

(** The cooldown since the last completed pass has elapsed at the next
    reading of the clock. *)
Definition cooldown_elapsed (E : env) (w : world) : Prop :=
  Z.max 0 (SYNC_COOLDOWN_SECONDS (cfg E))
    <= clock E (trace w) (clock_reads w) - sync_last_run_epoch w.

(** The error of the calendar for a cursor that is too old. *)
Definition cursor_too_old (exc : string) : bool :=
  Py.contains "updatedMinTooLongAgo" exc || Py.contains " 410 " exc.

(** Discord is configured ([discord_sync_available] returns [True]). *)
Definition discord_configured (C : config) : Prop :=
  DISCORD_SYNC_ENABLED C = true /\
  Py.truthy_opt (DISCORD_TOKEN C) = true /\
  Py.truthy_opt (DISCORD_GUILD_ID C) = true.

(** No request raises: every request gets a status and a body. *)
Definition answers (E : env) : Prop :=
  forall h c exc, respond E h c <> Failed exc.

(** [register_message_id] applied to the tokens in turn. *)
Fixpoint register_each (E : env) (tokens : list string) (w : world) : world :=
  match tokens with
  | [] => w
  | t :: tokens' => register_each E tokens' (register_message_id E t w).2
  end.

(** The globals of the duplicate guard are consistent: the set holds the
    elements of the deque, which has no duplicate and respects its
    bound. *)
Definition dedupe_consistent (E : env) (w : world) : Prop :=
  NoDup (processed_message_ids w) /\
  (forall t, t ∈ processed_message_set w <-> t ∈ processed_message_ids w) /\
  (List.length (processed_message_ids w) <= maxlen E)%nat.

End Props.

(** ** Concrete environments, used to run the code on examples *)

Module Fixtures.

Import Webhook.

(** A configuration with both Notion databases and Discord enabled. The
    duplicate guard is configured below the floor of 100 ids. *)
Definition cfg0 : config :=
  Config (Some "secret") (Some "db-internal") (Some "db-external")
         (Some "calendar") (Some "token") (Some "guild") true
         5 2000000 "message_id" "google_event_id"
         1000 100 100 "Google Calendar" false.

Definition world0 : world :=
  World ∅ ∅ ∅ [] ∅ None false 0 0 [] [].

(** Days since 1970-01-01 of a civil date, and back (proleptic Gregorian
    calendar). *)
Definition days_from_civil (y m d : Z) : Z :=
  let y' := if m <=? 2 then y - 1 else y in
  let era := y' / 400 in
  let yoe := y' - era * 400 in
  let mp := (m + 9) mod 12 in
  let doy := (153 * mp + 2) / 5 + d - 1 in
  let doe := yoe * 365 + yoe / 4 - yoe / 100 + doy in
  era * 146097 + doe - 719468.

Definition civil_from_days (z : Z) : Z * Z * Z :=
  let z := z + 719468 in
  let era := z / 146097 in
  let doe := z - era * 146097 in
  let yoe := (doe - doe / 1460 + doe / 36524 - doe / 146096) / 365 in
  let doy := doe - (365 * yoe + yoe / 4 - yoe / 100) in
  let mp := (5 * doy + 2) / 153 in
  let d := doy - (153 * mp + 2) / 5 + 1 in
  let m := if mp <? 10 then mp + 3 else mp - 9 in
  let y := yoe + era * 400 + (if m <=? 2 then 1 else 0) in
  (y, m, d).

Definition pad2 (n : Z) : string :=
  if n <? 10 then "0" +:+ pretty n else pretty n.

Definition pad4 (n : Z) : string :=
  if n <? 10 then "000" +:+ pretty n
  else if n <? 100 then "00" +:+ pretty n
  else if n <? 1000 then "0" +:+ pretty n
  else pretty n.

(** [datetime.isoformat] for a value whose microsecond field is zero and
    whose offset is a whole number of minutes. *)
Definition isoformat_seconds (dt : datetime) : string :=
  let secs := dt_wall dt / 1000000 in
  let '(y, m, d) := civil_from_days (secs / 86400) in
  let sod := secs mod 86400 in
  let base :=
    pad4 y +:+ "-" +:+ pad2 m +:+ "-" +:+ pad2 d +:+ "T" +:+
    pad2 (sod / 3600) +:+ ":" +:+ pad2 (sod mod 3600 / 60) +:+ ":" +:+
    pad2 (sod mod 60) in
  match dt_utcoffset dt with
  | None => base
  | Some o =>
      let mins := Z.abs o / 60000000 in
      base +:+ (if o <? 0 then "-" else "+") +:+ pad2 (mins / 60) +:+ ":"
           +:+ pad2 (mins mod 60)
  end.

Definition digit (c : ascii) : option Z :=
  let n := Z.of_nat (Ascii.nat_of_ascii c) in
  if (48 <=? n) && (n <=? 57) then Some (n - 48) else None.

Fixpoint digits (cs : list ascii) (acc : Z) : option Z :=
  match cs with
  | [] => Some acc
  | c :: cs' =>
      match digit c with
      | Some v => digits cs' (10 * acc + v)
      | None => None
      end
  end.

(** Decimal field of [len] characters at position [pos]. *)
Definition field (s : string) (pos len : nat) : option Z :=
  let cs := take len (drop pos (String.list_ascii_of_string s)) in
  if (List.length cs =? len)%nat then digits cs 0 else None.

Definition char_at (s : string) (pos : nat) : option ascii :=
  String.list_ascii_of_string s !! pos.

(** [datetime.fromisoformat] on the texts of the form
    [YYYY-MM-DDTHH:MM:SS+HH:MM] (the form in which the Calendar API
    reports times); other texts are not needed by the examples and are
    rejected. *)
Definition fromisoformat_seconds (s : string) : option datetime :=
  if negb (String.length s =? 25)%nat then None
  else
    y ← field s 0 4; m ← field s 5 2; d ← field s 8 2;
    hh ← field s 11 2; mm ← field s 14 2; ss ← field s 17 2;
    oh ← field s 20 2; om ← field s 23 2;
    sign ← char_at s 19;
    let off := (oh * 60 + om) * 60000000 in
    let wall :=
      (days_from_civil y m d * 86400 + hh * 3600 + mm * 60 + ss) * 1000000 in
    if Ascii.eqb sign "+" then Some (DateTime wall (Some off))
    else if Ascii.eqb sign "-" then Some (DateTime wall (Some (- off)))
    else None.

(** [datetime.strptime(s, "%Y-%m-%d")] on texts of the form
    [YYYY-MM-DD]. *)
Definition strptime_date (s : string) : option Z :=
  if negb (String.length s =? 10)%nat then None
  else
    y ← field s 0 4; m ← field s 5 2; d ← field s 8 2;
    Some (days_from_civil y m d * 86400 * 1000000).

(** The environment of the examples: the oracle [r] and a clock that
    always reads [t]. *)
Definition env_of (r : list call -> call -> response) (t : Z) : env :=
  Env cfg0 r (fun _ _ => t) true fromisoformat_seconds strptime_date
      isoformat_seconds 0.

(** 2024-02-25T00:00:00Z and 2024-04-01T00:00:00Z. *)
Definition feb_25 : Z := 1708819200 * 1000000.
Definition apr_1 : Z := 1711929600 * 1000000.

(** No mirror exists anywhere and every request succeeds: a created page
    is named after its database, a created Discord event is
    ["discord-1"]. *)
Definition respond_fresh (h : list call) (c : call) : response :=
  match c with
  | NotionGetPage _ => Http 404 BEmpty
  | NotionQuery _ _ _ => Http 200 (BResults [])
  | NotionCreatePage data =>
      Http 200 (BPage (Page ("page-in-" +:+ fmt (nc_database_id data)) ∅))
  | NotionPatchPage _ _ => Http 200 BEmpty
  | NotionArchivePage _ => Http 200 BEmpty
  | DiscordApi method _ _ =>
      if String.eqb method "DELETE" then Http 204 BEmpty
      else Http 200 (BDiscordEvent (Some "discord-1"))
  | DiscordListEvents _ => Http 200 (BDiscordEvents [])
  | GcalEventsList _ _ _ => Http 200 (BGcalEvents [] None)
  | SaveSyncState _ => Http 200 BEmpty
  end.

(** As [respond_fresh], but Discord rejects every request. *)
Definition respond_discord_down (h : list call) (c : call) : response :=
  match c with
  | DiscordApi _ _ _ => Http 500 BEmpty
  | _ => respond_fresh h c
  end.

Definition env0 : env := env_of respond_fresh feb_25.

(** The event of the scenario of the specification: it starts on
    2024-03-01 at 10:00 (+09:00) and has no end. *)
Definition sprint_review : gevent :=
  GEvent (Some "evt-1") (Some "confirmed") (Some "Sprint Review") None None
         (Some "https://calendar.example/evt-1") (Some "alice@example.com")
         (GTime (Some "2024-03-01T10:00:00+09:00") None) (GTime None None)
         (Some "2024-02-20T00:00:00+00:00").

(** An event whose title has 2001 characters. *)
Definition long_title : string :=
  String.string_of_list_ascii (replicate 2001 "x"%char).

Definition long_title_event : gevent :=
  GEvent (Some "evt-2") (Some "confirmed") (Some long_title) None None
         None None
         (GTime (Some "2024-03-01T10:00:00+09:00") None)
         (GTime (Some "2024-03-01T12:00:00+09:00") None) None.

(** An event that ended on 2024-03-01 at 11:00 (+09:00). *)
Definition finished_event : gevent :=
  GEvent (Some "evt-3") (Some "confirmed") (Some "Retrospective") None None
         None None
         (GTime (Some "2024-03-01T10:00:00+09:00") None)
         (GTime (Some "2024-03-01T11:00:00+09:00") None) None.

(** [sprint_review] after its cancellation. *)
Definition cancelled_review : gevent :=
  GEvent (Some "evt-1") (Some "cancelled") (Some "Sprint Review") None None
         (Some "https://calendar.example/evt-1") (Some "alice@example.com")
         (GTime (Some "2024-03-01T10:00:00+09:00") None) (GTime None None)
         (Some "2024-02-26T00:00:00+00:00").

(** The two Notion pages of [sprint_review]; the internal one records the
    Discord event in its message-id column. *)
Definition internal_page : page :=
  Page "page-int" {[ "message_id" := [RichNode (Some "discord-1") None] ]}.

Definition external_page : page := Page "page-ext" ∅.

(** As [respond_fresh], but the two pages exist. *)
Definition respond_mirrored (h : list call) (c : call) : response :=
  match c with
  | NotionGetPage page_id =>
      if String.eqb page_id "page-int" then Http 200 (BPage internal_page)
      else if String.eqb page_id "page-ext" then Http 200 (BPage external_page)
      else Http 404 BEmpty
  | _ => respond_fresh h c
  end.

(** The correlation maps know the three mirrors of [sprint_review]. *)
Definition world_mirrored : world :=
  World {[ "evt-1" := "page-int" ]} {[ "evt-1" := "page-ext" ]}
        {[ "evt-1" := "discord-1" ]} [] ∅ None false 0 0 [] [].

(** The correlation map knows the Discord event of [sprint_review]. *)
Definition world_mapped : world :=
  World ∅ ∅ {[ "evt-1" := "discord-1" ]} [] ∅ None false 0 0 [] [].

(** Tokens of the push notifications of one channel. *)
Definition token (n : nat) : string := "goog:channel:" +:+ pretty n.

Definition tokens (start len : nat) : list string := token <$> seq start len.

(** As [respond_fresh], but every listing of the calendar fails with a
    server error. *)
Definition respond_listing_down (h : list call) (c : call) : response :=
  match c with
  | GcalEventsList _ _ _ =>
      Failed "<HttpError 500 when requesting events returned Backend Error>"
  | _ => respond_fresh h c
  end.

(** As [respond_mirrored], but the calendar rejects the cursor as too old,
    and its full listing holds the cancelled event. *)
Definition respond_expired (h : list call) (c : call) : response :=
  match c with
  | GcalEventsList (Some _) _ _ =>
      Failed "<HttpError 410 when requesting events returned updatedMinTooLongAgo>"
  | GcalEventsList None _ _ => Http 200 (BGcalEvents [cancelled_review] None)
  | _ => respond_mirrored h c
  end.

(** [world_mirrored] with the cursor of an earlier pass. *)
Definition world_cursor : world :=
  set_sync_state_file (Some "2024-01-01T00:00:00+00:00") world_mirrored.

(** The bot is logged in as user 42; every request of the bot succeeds. *)
Definition bot_respond (h : list Bot.call) (c : Bot.call) : Bot.response :=
  match c with
  | Bot.GoogleInsert _ => Bot.Http 200 (Bot.BGoogleEvent (Some "evt-9"))
  | Bot.NotionCreatePage data =>
      Bot.Http 200 (Bot.BPage (Page ("page-in-" +:+ Bot.na_database_id data) ∅))
  | Bot.NotionQueryAll _ => Bot.Http 200 (Bot.BResults [])
  | _ => Bot.Http 200 Bot.BNone
  end.

Definition bot_env : Bot.env :=
  Bot.Env (Bot.Config (Some "db-external") (Some "db-internal"))
          (Some (Bot.User 42)) true bot_respond isoformat_seconds.

Definition bot_world0 : Bot.world := Bot.World [] [].

(** A scheduled event created by [creator], starting on 2024-03-01 at
    01:00 UTC. *)
Definition scheduled (creator : Z) : Bot.scheduled_event :=
  Bot.ScheduledEvent 1001 "Sprint Review" None
    (DateTime 1709254800000000 (Some 0)) None (Some creator) None None
    (Some 7) None None.

(** A webhook trigger enters the pass; a manual trigger arrives meanwhile
    and is about to try the lock. The cooldown is two seconds and the
    process is ten seconds old. *)
Definition burst : list Coordinator.action :=
  [ Coordinator.Arrive "webhook"; Coordinator.Arrive "manual";
    Coordinator.Step 0; Coordinator.Step 0; Coordinator.Step 0;
    Coordinator.Step 1; Coordinator.Step 1 ].

Definition after_burst : Coordinator.state :=
  Coordinator.State true 0 10000000
    [ Coordinator.Thread "webhook" Coordinator.InSync;
      Coordinator.Thread "manual" Coordinator.AtAcquire ].

End Fixtures.

(** ** A program logic for the traces of requests: definitions *)

Module Logic.

Import Webhook.

(** A relation between the globals before and after a run that every
    request, log line and clock reading preserves. *)
Record frame := Frame {
  fr_rel :> world -> world -> Prop;
  fr_refl : forall w, fr_rel w w;
  fr_trans : forall w1 w2 w3, fr_rel w1 w2 -> fr_rel w2 w3 -> fr_rel w1 w3;
  fr_call : forall w c, fr_rel w (push_call c w);
  fr_log : forall w l, fr_rel w (push_log l w);
  fr_tick : forall w, fr_rel w (tick_clock w);
}.

(** [w'] follows [w]: the requests recorded since [w] satisfy [P], and the
    globals are related by [F]. *)
Definition follows (P : call -> Prop) (F : frame) (w w' : world) : Prop :=
  (exists new, trace w' = trace w ++ new /\ Forall P new) /\ F w w'.

(** [sat P F m Q]: from every world, the requests of [m] satisfy [P], its
    effect on the globals is within [F], and a returned value satisfies
    [Q]. *)
Definition sat {A} (P : call -> Prop) (F : frame) (m : M A) (Q : A -> Prop)
    : Prop :=
  forall w, follows P F w (m w).2 /\ forall a, (m w).1 = Ret a -> Q a.

(** The frame that allows every change of the globals. *)
Definition any_frame : frame.
Proof. by refine (Frame (fun _ _ => True) _ _ _ _ _). Defined.

(** The frame that keeps the two Notion correlation maps. *)
Definition notion_frame : frame.
Proof.
  refine (Frame (fun w w' =>
                   gcal_notion_internal w' = gcal_notion_internal w /\
                   gcal_notion_external w' = gcal_notion_external w)
                _ _ _ _ _).
  - done.
  - intros w1 w2 w3 [? ?] [? ?]. split; congruence.
  - done.
  - done.
  - done.
Defined.

(** The frame that keeps [_sync_lock]. *)
Definition lock_frame : frame.
Proof.
  refine (Frame (fun w w' => sync_lock w' = sync_lock w) _ _ _ _ _).
  - done.
  - intros w1 w2 w3 ? ?. congruence.
  - done.
  - done.
  - done.
Defined.

(** [m] returns from every world: it never raises. *)
Definition total {A} (m : M A) : Prop :=
  forall w, exists a, (m w).1 = Ret a.

End Logic.

(** ** Vocabulary of the properties of the correlation maps, the duplicate
    guard and the handlers of the bot *)

Module Vocabulary.

Import Webhook Logic.

(** The marker that [build_discord_description] appends and that
    [find_discord_event_id_by_google_marker] searches for. *)
Definition origin_marker (google_event_id : string) : string :=
  DISCORD_ORIGIN_MARKER_PREFIX +:+ google_event_id +:+ "]".

(** The key under which [gcal_webhook] registers a notification. *)
Definition dedupe_key (goog_channel goog_message_num : option string)
    : string :=
  "goog:" +:+ default "" goog_channel +:+ ":" +:+ default "" goog_message_num.

(** [discord_sync_available] returns [False]. *)
Definition discord_disabled (C : config) : Prop :=
  DISCORD_SYNC_ENABLED C = false \/
  Py.truthy_opt (DISCORD_TOKEN C) = false \/
  Py.truthy_opt (DISCORD_GUILD_ID C) = false.

(** A correlation map relates non-empty ids only. *)
Definition ids_nonempty (m : gmap string string) : Prop :=
  forall k v, m !! k = Some v -> k <> "" /\ v <> "".

Definition maps_hold_ids (w : world) : Prop :=
  ids_nonempty (gcal_notion_internal w) /\
  ids_nonempty (gcal_notion_external w) /\
  ids_nonempty (gcal_discord_map w).

(** The frame that keeps the duplicate guard. *)
Definition dedupe_frame : frame.
Proof.
  refine (Frame (fun w w' =>
                   processed_message_ids w' = processed_message_ids w /\
                   processed_message_set w' = processed_message_set w)
                _ _ _ _ _).
  - done.
  - intros w1 w2 w3 [? ?] [? ?]. split; congruence.
  - done.
  - done.
  - done.
Defined.

(** The frame that keeps the correlation map of Discord. *)
Definition discord_frame : frame.
Proof.
  refine (Frame (fun w w' => gcal_discord_map w' = gcal_discord_map w)
                _ _ _ _ _).
  - done.
  - intros w1 w2 w3 ? ?. congruence.
  - done.
  - done.
  - done.
Defined.

(** The frame of the runs that keep the correlation maps free of empty
    ids. *)
Definition ids_frame : frame.
Proof.
  refine (Frame (fun w w' => maps_hold_ids w -> maps_hold_ids w') _ _ _ _ _).
  - done.
  - intros w1 w2 w3 H12 H23 H1. by apply H23, H12.
  - done.
  - done.
  - done.
Defined.

End Vocabulary.

Module BotVocabulary.

Import Webhook (page, pg_id, pg_rich_text, text_content).

(** The requests of a run of the bot satisfy [P]. *)
Definition emits {A} (P : Bot.call -> Prop) (m : Bot.M A) : Prop :=
  forall w, exists new,
    Bot.trace (m w).2 = Bot.trace w ++ new /\ Forall P new.

(** The requests that address the external database by its id. *)
Definition to_external_db (C : Bot.config) (c : Bot.call) : Prop :=
  match c with
  | Bot.NotionCreatePage data =>
      Some (Bot.na_database_id data) = Bot.NOTION_EVENT_EXTERNAL_DB_ID C
  | Bot.NotionQueryAll db => Some db = Bot.NOTION_EVENT_EXTERNAL_DB_ID C
  | _ => False
  end.

(** The three kinds of write requests of the bot. *)
Definition creates (c : Bot.call) : bool :=
  match c with
  | Bot.GoogleInsert _ | Bot.NotionCreatePage _ => true
  | _ => false
  end.

Definition patches (c : Bot.call) : bool :=
  match c with
  | Bot.GooglePatch _ _ | Bot.NotionPatchPage _ _ => true
  | _ => false
  end.

Definition removes (c : Bot.call) : bool :=
  match c with
  | Bot.GoogleDelete _ | Bot.NotionArchivePage _ => true
  | _ => false
  end.

(** Every insert into the calendar raises. *)
Definition calendar_down (E : Bot.env) : Prop :=
  forall h body, exists exc,
    Bot.respond E h (Bot.GoogleInsert body) = Bot.Failed exc.

(** The text of the [メッセージID] column of a page, as [find_event_page]
    reads it. *)
Definition message_id_of (p : page) : option string :=
  match default [] (pg_rich_text p !! "メッセージID") with
  | [] => None
  | node :: _ => text_content node
  end.

End BotVocabulary.

(** ** Further scenarios *)

Module Scenarios.

Import Webhook Fixtures.

(** [cfg0] with the origin marker switched on. *)
Definition cfg_marker : config :=
  Config (Some "secret") (Some "db-internal") (Some "db-external")
         (Some "calendar") (Some "token") (Some "guild") true
         5 2000000 "message_id" "google_event_id"
         1000 100 100 "Google Calendar" true.

(** [cfg0] with the synchronisation to Discord switched off. *)
Definition cfg_no_discord : config :=
  Config (Some "secret") (Some "db-internal") (Some "db-external")
         (Some "calendar") (Some "token") (Some "guild") false
         5 2000000 "message_id" "google_event_id"
         1000 100 100 "Google Calendar" false.

(** [cfg0] without the token of Notion. *)
Definition cfg_no_token : config :=
  Config None (Some "db-internal") (Some "db-external")
         (Some "calendar") (Some "token") (Some "guild") true
         5 2000000 "message_id" "google_event_id"
         1000 100 100 "Google Calendar" false.

Definition env_with (C : config) (r : list call -> call -> response) (t : Z)
    : env :=
  Env C r (fun _ _ => t) true fromisoformat_seconds strptime_date
      isoformat_seconds 0.

(** The calendar lists [sprint_review]; every query of Notion times
    out. *)
Definition respond_notion_down (h : list call) (c : call) : response :=
  match c with
  | GcalEventsList _ _ _ => Http 200 (BGcalEvents [sprint_review] None)
  | NotionQuery _ _ _ => Failed "ReadTimeout"
  | _ => respond_fresh h c
  end.

(** The calendar lists [sprint_review], which has no mirror yet. *)
Definition respond_one_event (h : list call) (c : call) : response :=
  match c with
  | GcalEventsList _ _ _ => Http 200 (BGcalEvents [sprint_review] None)
  | _ => respond_fresh h c
  end.

(** The correlation map of the internal database names a page that no
    longer exists. *)
Definition world_stale : world :=
  World {[ "evt-1" := "page-gone" ]} ∅ ∅ [] ∅ None false 0 0 [] [].

(** An event without start. *)
Definition undated_event : gevent :=
  GEvent (Some "evt-4") (Some "confirmed") (Some "To be scheduled") None None
         None None (GTime None None) (GTime None None) None.

(** The Discord event of [sprint_review] as Discord lists it, with the
    description that [build_discord_description] gave it. *)
Definition listed_review : discord_item :=
  DiscordItem (Some "discord-1")
              (Some ("Agenda" +:+ newline +:+ newline +:+ "[gcal-id:evt-1]")).

Definition respond_listed (h : list call) (c : call) : response :=
  match c with
  | DiscordListEvents _ =>
      Http 200 (BDiscordEvents [DiscordItem (Some "discord-0") None;
                                listed_review])
  | _ => respond_fresh h c
  end.

(** A regular meeting (the name holds the excluded word), created by user
    77. *)
Definition regular_meeting : Bot.scheduled_event :=
  Bot.ScheduledEvent 1002 "第3回 定例会" None
    (DateTime 1709254800000000 (Some 0)) None (Some 77) None None
    (Some 7) None None.

(** As [bot_respond], but the calendar rejects every insert. *)
Definition bot_respond_calendar_down (h : list Bot.call) (c : Bot.call)
    : Bot.response :=
  match c with
  | Bot.GoogleInsert _ => Bot.Failed "HttpError 403"
  | _ => bot_respond h c
  end.

Definition bot_env_calendar_down : Bot.env :=
  Bot.Env (Bot.Config (Some "db-external") (Some "db-internal"))
          (Some (Bot.User 42)) true bot_respond_calendar_down
          isoformat_seconds.

(** Two pages of the internal database; the second one mirrors the
    scheduled event 1001. *)
Definition page_of (page_id message_id : string) : page :=
  Page page_id {[ "メッセージID" := [RichNode None (Some message_id)] ]}.

Definition bot_respond_listed (h : list Bot.call) (c : Bot.call)
    : Bot.response :=
  match c with
  | Bot.NotionQueryAll _ =>
      Bot.Http 200 (Bot.BResults [page_of "page-a" "1000";
                                  page_of "page-b" "1001"])
  | _ => bot_respond h c
  end.

Definition bot_env_listed : Bot.env :=
  Bot.Env (Bot.Config (Some "db-external") (Some "db-internal"))
          (Some (Bot.User 42)) true bot_respond_listed isoformat_seconds.

End Scenarios.

From Stdlib Require Import Sorted.

(** ** Environment variables ([getenv_clean])

    The same function opens [webhook.py] (lines 23-39), [bot.py]
    (lines 19-24), [register.py] and [renew.py] (lines 17-33).  The
    process environment is a map from names to strings; the default is
    [None] or a string. *)

Module Environ.

(** [os.getenv(name, default)]. *)
Definition getenv (environ : gmap string string) (name : string)
    (default : option string) : option string :=
  match environ !! name with
  | Some value => Some value
  | None => default
  end.

Definition getenv_clean (environ : gmap string string) (name : string)
    (default : option string) : option string :=
  match getenv environ name default with
  | Some value =>
      let value := Py.strip value in
      if Py.truthy value then Some value else default
  | None => None
  end.

End Environ.

(** ** The state-and-exception monad over any record of globals *)

Module Effects.

Import Webhook (outcome, Ret, Raise).

Section Monad.

Context {W : Type}.

Definition M (A : Type) : Type := W -> outcome A * W.

Definition ret {A} (a : A) : M A := fun w => (Ret a, w).

Definition raise {A} (exc : string) : M A := fun w => (Raise exc, w).

Definition bind {A B} (m : M A) (k : A -> M B) : M B :=
  fun w =>
    match m w with
    | (Ret a, w') => k a w'
    | (Raise exc, w') => (Raise exc, w')
    end.

(** [try: m except Exception as exc: h(exc)]. *)
Definition try_except {A} (m : M A) (h : string -> M A) : M A :=
  fun w =>
    match m w with
    | (Ret a, w') => (Ret a, w')
    | (Raise exc, w') => h exc w'
    end.

Definition modify (f : W -> W) : M unit := fun w => (Ret tt, f w).

End Monad.

End Effects.

(** ** The periodic tasks of the bot ([src/services/bot/bot.py])

    [auto_clean] archives old pages of the two event databases and
    [auto_check_qa] numbers the questions of the Q&A database and detects
    the pages that changed since the last check. *)

Module Tasks.

Import Webhook (level, INFO, WARNING, ERROR, log_entry, Log,
                outcome, Ret, Raise, fmt).
Import Effects.

Record config := Config {
  NOTION_QA_DB_ID : option string;
  NOTION_EVENT_EXTERNAL_DB_ID : option string;
  NOTION_EVENT_INTERNAL_DB_ID : option string;
}.

(** The [date] of the [日時] property, with its keys [start] and [end]
    ([None] for a JSON [null]). *)
Record date_value := DateValue {
  dv_start : option string;
  dv_end : option string;
}.

(** A Notion page, with the keys the tasks read.  [page_date] is
    [page["properties"]["日時"]["date"]] and [page_number] is
    [page["properties"]["質問番号"]["number"]]: [None] for a page without
    the property (the subscript raises [KeyError]) and [Some None] for a
    [null].  [page_created_time] is [None] for a page without the key. *)
Record page := Page {
  page_id : string;
  page_created_time : option string;
  page_last_edited_time : string;
  page_date : option (option date_value);
  page_number : option (option Z);
}.

(** A value of [notion_cache.json]: the edit time of a page, or the
    first-run flag that [save_cache] stores under ["_first_qa_run"]. *)
Inductive cache_value :=
| CTime (last_edited_time : string)
| CFlag (first_run : bool).

(** Requests leaving the process, and the write of the cache file. *)
Inductive call :=
| NotionQueryAll (database_id : string)
| NotionArchivePage (page_id : string)
| NotionSetNumber (page_id : string) (number : Z)
| WriteCache (cache : gmap string cache_value).

(** The [data] of [notion_request]: [BNone] is an answer without JSON or
    with a falsy JSON value ([not data]); [BResults] is an object, with
    its ["results"] ([[]] for an object without that key). *)
Inductive body :=
| BNone
| BResults (results : list page).

(** The request raises ([aiohttp] error, [OSError] of the write) or
    yields a status and a body. *)
Inductive response :=
| Failed (exc : string)
| Http (status : Z) (data : body).

Record env := Env {
  cfg : config;
  (** answer to a request, given the requests issued before it *)
  respond : list call -> call -> response;
  (** system clock in microseconds since the epoch, given the requests
      issued so far and the number of earlier readings *)
  clock : list call -> nat -> Z;
  (** [datetime.fromisoformat], [None] when it raises *)
  fromisoformat : string -> option datetime;
  (** [str] of a [date], given as its day number, and of a [datetime] *)
  date_str : Z -> string;
  datetime_str : datetime -> string;
}.

Record world := World {
  (** the object stored in [notion_cache.json]; [None] when the file is
      missing or cannot be decoded *)
  cache_file : option (gmap string cache_value);
  clock_reads : nat;
  trace : list call;
  logs : list log_entry;
}.

Definition set_cache_file (v : option (gmap string cache_value)) (w : world)
    : world :=
  World v (clock_reads w) (trace w) (logs w).

Definition M (A : Type) : Type := Effects.M (W := world) A.

Notation "'let!' x ':=' m 'in' k" := (bind m (fun x => k))
  (at level 10, x binder, m at level 100, k at level 200).
Notation "'run!' m 'in' k" := (bind m (fun _ => k))
  (at level 10, m at level 100, k at level 200).

Definition log (l : level) (fmt : string) (args : list string) : M unit :=
  fun w => (Ret tt, World (cache_file w) (clock_reads w) (trace w)
                          (logs w ++ [Log l fmt args])).

Section Code.

Context (E : env).

(** [notion_request], and the write of a file. *)
Definition perform (c : call) : M (Z * body) :=
  fun w =>
    let w' := World (cache_file w) (clock_reads w) (trace w ++ [c]) (logs w) in
    match respond E (trace w) c with
    | Failed exc => (Raise exc, w')
    | Http status data => (Ret (status, data), w')
    end.

Definition read_clock : M Z :=
  fun w => (Ret (clock E (trace w) (clock_reads w)),
            World (cache_file w) (S (clock_reads w)) (trace w) (logs w)).

(** *** Cleanup of the event databases (lines 510-614, 1569-1586) *)

Definition JST : Z := timedelta_hours 9.

(** [datetime.now(JST)]. *)
Definition now_jst : M datetime :=
  let! t := read_clock in
  ret (DateTime (t + JST) (Some JST)).

(** [dt.date()], as the number of the day since the epoch;
    [(a - b).days] of two dates is the difference of their numbers. *)
Definition date_of (dt : datetime) : Z := dt_wall dt `div` timedelta_days 1.

(** The [for] loop of [delete_past_events_for_db]. *)
Fixpoint archive_past (today : Z) (pages : list page) : M unit :=
  match pages with
  | [] => ret tt
  | page :: rest =>
      match page_date page with
      | None => raise "KeyError"
      | Some None => archive_past today rest
      | Some (Some date_prop) =>
          match dv_start date_prop with
          | None => raise "TypeError"
          | Some start =>
              match fromisoformat E start with
              | None => raise "ValueError"
              | Some parsed =>
                  let dt := date_of parsed in
                  run! (if today - dt >=? 30
                        then
                          run! perform (NotionArchivePage (page_id page)) in
                          log INFO "[AUTO DELETE] %s をアーカイブ（削除）しました (%s)"
                              [page_id page; date_str E dt]
                        else ret tt) in
                  archive_past today rest
              end
          end
      end
  end.

Definition delete_past_events_for_db (db_id : option string)
    : M unit :=
  if negb (Py.truthy_opt db_id) then ret tt
  else
    let! r := perform (NotionQueryAll (default "" db_id)) in
    if negb (r.1 =? 200) then ret tt
    else
      match r.2 with
      | BNone => ret tt
      | BResults results =>
          let! now := now_jst in
          archive_past (date_of now) results
      end.

(** The [for] loop of [delete_finished_events_for_db]. *)
Fixpoint archive_finished (now : datetime) (pages : list page)
    : M unit :=
  match pages with
  | [] => ret tt
  | page :: rest =>
      match page_date page with
      | None => raise "KeyError"
      | Some None => archive_finished now rest
      | Some (Some date_prop) =>
          let end_iso := Py.or_opt (dv_end date_prop) (dv_start date_prop) in
          if negb (Py.truthy_opt end_iso) then archive_finished now rest
          else
            match fromisoformat E (default "" end_iso) with
            | None => raise "ValueError"
            | Some end_dt =>
                match dt_le end_dt now with
                | None => raise "TypeError"
                | Some finished =>
                    run! (if finished
                          then
                            run! perform (NotionArchivePage (page_id page)) in
                            log INFO "[AUTO DELETE] %s を終了時刻によりアーカイブしました (%s)"
                                [page_id page; datetime_str E end_dt]
                          else ret tt) in
                    archive_finished now rest
                end
            end
      end
  end.

Definition delete_finished_events_for_db (db_id : option string)
    : M unit :=
  if negb (Py.truthy_opt db_id) then ret tt
  else
    let! r := perform (NotionQueryAll (default "" db_id)) in
    if negb (r.1 =? 200) then ret tt
    else
      match r.2 with
      | BNone => ret tt
      | BResults results =>
          let! now := now_jst in
          archive_finished now results
      end.

Definition delete_past_events : M unit :=
  run! delete_past_events_for_db (NOTION_EVENT_EXTERNAL_DB_ID (cfg E)) in
  delete_finished_events_for_db (NOTION_EVENT_INTERNAL_DB_ID (cfg E)).

Definition auto_clean : M unit := delete_past_events.

(** *** The Q&A database (lines 777-916, 1009-1053) *)

(** [fetch_qa_db]: the decoded answer, [None] (here [BNone]) unless the
    status is 200. *)
Definition fetch_qa_db : M body :=
  let! r := perform (NotionQueryAll (fmt (NOTION_QA_DB_ID (cfg E)))) in
  ret (if r.1 =? 200 then r.2 else BNone).

(** [load_cache]: [{}] for a missing or undecodable file. *)
Definition load_cache : M (gmap string cache_value) :=
  fun w => (Ret (default ∅ (cache_file w)), w).

(** [save_cache]: the write may raise. *)
Definition save_cache (cache : gmap string cache_value)
    (first_run_flag : option bool) : M unit :=
  let cache :=
    match first_run_flag with
    | Some flag => <["_first_qa_run" := CFlag flag]> cache
    | None => cache
    end in
  run! perform (WriteCache cache) in
  modify (set_cache_file (Some cache)).

(** The kind of a change: ["new"] or ["update"]. *)
Inductive change := New | Update.

(** [cache[pid] != last]. *)
Definition differs (v : cache_value) (last : string) : bool :=
  match v with
  | CTime s => negb (String.eqb s last)
  | CFlag _ => true
  end.

(** The [for] loop of [get_qa_changes], from the values of [new_cache]
    and [changes] before it. *)
Fixpoint qa_diff (cache : gmap string cache_value) (pages : list page)
    (new_cache : gmap string cache_value) (changes : list (change * page))
    : gmap string cache_value * list (change * page) :=
  match pages with
  | [] => (new_cache, changes)
  | page :: rest =>
      let pid := page_id page in
      let last := page_last_edited_time page in
      let new_cache := <[pid := CTime last]> new_cache in
      let changes :=
        match cache !! pid with
        | None => changes ++ [(New, page)]
        | Some v =>
            if differs v last then changes ++ [(Update, page)] else changes
        end in
      qa_diff cache rest new_cache changes
  end.

Definition get_qa_changes : M (list (change * page)) :=
  let! data := fetch_qa_db in
  match data with
  | BNone => ret []
  | BResults results =>
      let! cache := load_cache in
      let '(new_cache, changes) := qa_diff cache results ∅ [] in
      run! save_cache new_cache None in
      ret changes
  end.

(** The numbers of the pages, [None] when a subscript raises. *)
Definition numbers_of (pages : list page) : option (list (option Z)) :=
  mapM page_number pages.

(** [max] of a non-empty list. *)
Definition list_max (x : Z) (xs : list Z) : Z := foldl Z.max x xs.

(** [p.get("created_time", "")]. *)
Definition created_key (p : page) : string :=
  default "" (page_created_time p).

(** [list.sort(key=...)] is a stable sort by [<] on the keys: each page
    goes behind the pages placed before it whose key is not larger. *)
Fixpoint insert_by_created (p : page) (sorted : list page) : list page :=
  match sorted with
  | [] => [p]
  | q :: rest =>
      if String.ltb (created_key p) (created_key q)
      then p :: sorted
      else q :: insert_by_created p rest
  end.

Definition sort_by_created (pages : list page) : list page :=
  foldl (fun sorted p => insert_by_created p sorted) [] pages.

(** The [for] loop of [ensure_question_numbers]. *)
Fixpoint number_pages (next_num : Z) (pages : list page)
    : M unit :=
  match pages with
  | [] => ret tt
  | page :: rest =>
      run! perform (NotionSetNumber (page_id page) next_num) in
      number_pages (next_num + 1) rest
  end.

Definition ensure_question_numbers : M unit :=
  let! data := fetch_qa_db in
  match data with
  | BNone => ret tt
  | BResults pages =>
      match numbers_of pages with
      | None => raise "KeyError"
      | Some numbers =>
          let existing_numbers := omap id numbers in
          let next_num :=
            match existing_numbers with
            | x :: xs => list_max x xs + 1
            | [] => 1
            end in
          let missing_pages :=
            sort_by_created
              (List.filter
                 (fun p => bool_decide (page_number p = Some None)) pages) in
          run! number_pages next_num missing_pages in
          match missing_pages with
          | [] => ret tt
          | _ :: _ =>
              log INFO "新たに %s 件の質問番号を採番しました。"
                  [pretty (List.length missing_pages)]
          end
      end
  end.

End Code.

End Tasks.

(** ** The watch channel of the calendar
    ([src/services/watcher/register.py], [src/services/watcher/renew.py])

    Both scripts register a watch channel that delivers the change
    notifications of the calendar to the webhook, and store the answer in
    [gcal_watch_state.json]; [renew.py] first stops the channel that the
    file names. *)

Module Watcher.

Import Webhook (level, INFO, WARNING, ERROR, log_entry, Log,
                outcome, Ret, Raise).
Import Effects.

Record config := Config {
  GOOGLE_CALENDAR_ID : option string;
  GCAL_WEBHOOK_URL : option string;
  WATCH_CHANNEL_ID : option string;
}.

(** The object stored in [gcal_watch_state.json]. *)
Record watch_state := WatchState {
  channel_id : option string;
  resource_id : option string;
  expiration : option string;
  calendar_id : option string;
  created_at : string;
}.

(** The body built by [build_watch_request]; its ["type"] is always
    ["web_hook"]. *)
Record watch_request := WatchRequest {
  wr_id : string;
  wr_address : string;
}.

(** The answer of [events().watch], with the keys the code reads. *)
Record watch_response := WatchResponse {
  resp_id : option string;
  resp_resourceId : option string;
  resp_expiration : option string;
}.

(** Requests to the calendar, and the write of the state file. *)
Inductive call :=
| ChannelsStop (id resourceId : string)
| EventsWatch (calendarId : string) (body : watch_request)
| SaveState (payload : watch_state).

(** The request raises, or is answered; the answer of a call other than
    [EventsWatch] is not read. *)
Inductive response :=
| Failed (exc : string)
| Answer (r : watch_response).

Record env := Env {
  cfg : config;
  (** [get_calendar_service()]: it raises, returns [None] ([false]) or
      returns a service *)
  get_calendar_service : outcome bool;
  respond : list call -> call -> response;
  (** [datetime.now(timezone.utc)], given the requests issued so far *)
  clock : list call -> Z;
  isoformat : datetime -> string;
  (** [str(uuid.uuid4())] *)
  uuid4 : string;
}.

Record world := World {
  (** the object stored in [gcal_watch_state.json]; [None] when the file
      is missing or cannot be decoded *)
  state_file : option watch_state;
  trace : list call;
  logs : list log_entry;
}.

Definition M (A : Type) : Type := Effects.M (W := world) A.

Notation "'let!' x ':=' m 'in' k" := (bind m (fun x => k))
  (at level 10, x binder, m at level 100, k at level 200).
Notation "'run!' m 'in' k" := (bind m (fun _ => k))
  (at level 10, m at level 100, k at level 200).

Definition log (l : level) (fmt : string) (args : list string) : M unit :=
  fun w => (Ret tt, World (state_file w) (trace w) (logs w ++ [Log l fmt args])).

Section Code.

Context (E : env).

Definition perform (c : call) : M watch_response :=
  fun w =>
    let w' := World (state_file w) (trace w ++ [c]) (logs w) in
    match respond E (trace w) c with
    | Failed exc => (Raise exc, w')
    | Answer r => (Ret r, w')
    end.

(** [datetime.now(timezone.utc).isoformat()]. *)
Definition utc_now_iso : M string :=
  fun w => (Ret (isoformat E (utc_datetime (clock E (trace w)))), w).

(** [build_watch_request]. *)
Definition build_watch_request (channel_id : string)
    : M (option watch_request) :=
  if negb (Py.truthy_opt (GCAL_WEBHOOK_URL (cfg E))) then ret None
  else
    let url := default "" (GCAL_WEBHOOK_URL (cfg E)) in
    run! log INFO "watch delivery mode=direct_webhook url=%s" [url] in
    ret (Some (WatchRequest channel_id url)).

(** [load_state]: [{}] for a missing or undecodable file, of which
    [stop_old_channel] reads two keys. *)
Definition load_state : M (option string * option string) :=
  fun w =>
    (Ret match state_file w with
         | Some s => (channel_id s, resource_id s)
         | None => (None, None)
         end, w).

(** [save_state]: the write may raise. *)
Definition save_state (payload : watch_state) : M unit :=
  run! perform (SaveState payload) in
  modify (fun w => World (Some payload) (trace w) (logs w)).

(** [stop_old_channel]. *)
Definition stop_old_channel (state : option string * option string)
    : M unit :=
  let channel_id := state.1 in
  let resource_id := state.2 in
  if negb (Py.truthy_opt channel_id) || negb (Py.truthy_opt resource_id)
  then ret tt
  else
    try_except
      (run! perform (ChannelsStop (default "" channel_id)
                                  (default "" resource_id)) in
       log INFO "old watch stopped: %s" [default "" channel_id])
      (fun exc => log WARNING "failed to stop old channel: %s" [exc]).

(** [main] of [register.py] (lines 125-160). *)
Definition register_main : M unit :=
  if negb (Py.truthy_opt (GOOGLE_CALENDAR_ID (cfg E)))
  then raise "SystemExit: GOOGLE_CALENDAR_ID is required"
  else
    match get_calendar_service E with
    | Raise exc => raise exc
    | Ret false =>
        raise "SystemExit: Service account info not found or invalid"
    | Ret true =>
        let channel_id :=
          Py.or_str (WATCH_CHANNEL_ID (cfg E)) ("gcal-" +:+ uuid4 E) in
        let! body := build_watch_request channel_id in
        match body with
        | None => raise "SystemExit: GCAL_WEBHOOK_URL is required"
        | Some body =>
            let! response :=
              perform (EventsWatch (default "" (GOOGLE_CALENDAR_ID (cfg E)))
                                   body) in
            let! created_at := utc_now_iso in
            run! save_state (WatchState (resp_id response)
                                        (resp_resourceId response)
                                        (resp_expiration response)
                                        (GOOGLE_CALENDAR_ID (cfg E))
                                        created_at) in
            log INFO "watch registered: %s" []
        end
    end.

(** [main] of [renew.py] (lines 168-206). *)
Definition renew_main : M unit :=
  if negb (Py.truthy_opt (GOOGLE_CALENDAR_ID (cfg E)))
  then raise "SystemExit: GOOGLE_CALENDAR_ID is required"
  else
    match get_calendar_service E with
    | Raise exc => raise exc
    | Ret false =>
        raise "SystemExit: Service account info not found or invalid"
    | Ret true =>
        let! state := load_state in
        run! stop_old_channel state in
        let channel_id :=
          Py.or_str (WATCH_CHANNEL_ID (cfg E)) ("gcal-" +:+ uuid4 E) in
        let! body := build_watch_request channel_id in
        match body with
        | None => raise "SystemExit: GCAL_WEBHOOK_URL is required"
        | Some body =>
            let! response :=
              perform (EventsWatch (default "" (GOOGLE_CALENDAR_ID (cfg E)))
                                   body) in
            let! created_at := utc_now_iso in
            run! save_state (WatchState (resp_id response)
                                        (resp_resourceId response)
                                        (resp_expiration response)
                                        (GOOGLE_CALENDAR_ID (cfg E))
                                        created_at) in
            log INFO "watch renewed: %s" []
        end
    end.

End Code.

End Watcher.

(** ** The reminder of the day before ([src/services/bot/bot.py],
    lines 842-879, 1517-1563 and 1632-1690)

    Every ten minutes [auto_day_before_reminder] looks for the scheduled
    events that start in twenty-four hours and mentions a role for each of
    them, once: the ids of the events that were announced are kept in
    [reminder_cache.json]. *)

Module Reminder.

Import Webhook (level, INFO, WARNING, ERROR, log_entry, Log,
                outcome, Ret, Raise, newline).
Import Effects.

Record config := Config {
  REMINDER_CHANNEL_ID : Z;
  REMINDER_ROLE_ID : Z;
  REMINDER_WINDOW_MINUTES : Z;
}.

(** A guild of [bot.guilds]: its id and the events of its cache
    ([guild.scheduled_events]). *)
Record guild := Guild {
  guild_id : Z;
  scheduled_events : list Bot.scheduled_event;
}.

(** Requests to Discord, and the write of the cache file. *)
Inductive call :=
| FetchScheduledEvents (guild_id : Z)
| FetchChannel (channel_id : Z)
| ChannelSend (channel_id : Z) (msg : string)
| WriteReminderCache (cache : gmap string string).

(** The request raises, or is answered; [events] is the answer to
    [FetchScheduledEvents] and is not read for another call. *)
Inductive response :=
| Failed (exc : string)
| Answer (events : list Bot.scheduled_event).

Record env := Env {
  cfg : config;
  (** [bot.guilds] *)
  guilds : list guild;
  (** whether [bot.get_channel(REMINDER_CHANNEL_ID)] finds the channel in
      the cache of the client, given the requests issued so far *)
  channel_cached : list call -> bool;
  respond : list call -> call -> response;
  (** [datetime.now(timezone.utc)], given the requests issued so far *)
  clock : list call -> Z;
  (** the environment of the handlers, for [to_jst_iso] and [isoformat] *)
  bot : Bot.env;
  (** [format_display_date]: it raises or returns the text *)
  format_display_date : string -> outcome string;
}.

Record world := World {
  (** the object stored in [reminder_cache.json]; [None] when the file is
      missing, cannot be decoded or does not hold an object *)
  reminder_file : option (gmap string string);
  trace : list call;
  logs : list log_entry;
}.

Definition M (A : Type) : Type := Effects.M (W := world) A.

Notation "'let!' x ':=' m 'in' k" := (bind m (fun x => k))
  (at level 10, x binder, m at level 100, k at level 200).
Notation "'run!' m 'in' k" := (bind m (fun _ => k))
  (at level 10, m at level 100, k at level 200).

Definition log (l : level) (fmt : string) (args : list string) : M unit :=
  fun w => (Ret tt, World (reminder_file w) (trace w)
                          (logs w ++ [Log l fmt args])).

Section Code.

Context (E : env).

Definition perform (c : call) : M (list Bot.scheduled_event) :=
  fun w =>
    let w' := World (reminder_file w) (trace w ++ [c]) (logs w) in
    match respond E (trace w) c with
    | Failed exc => (Raise exc, w')
    | Answer events => (Ret events, w')
    end.

(** [load_reminder_cache]: [{}] for a file that is missing or does not
    hold an object. *)
Definition load_reminder_cache : M (gmap string string) :=
  fun w => (Ret (default ∅ (reminder_file w)), w).

(** [save_reminder_cache]: the write may raise. *)
Definition save_reminder_cache (cache : gmap string string) : M unit :=
  run! perform (WriteReminderCache cache) in
  modify (fun w => World (Some cache) (trace w) (logs w)).

(** [send_day_before_reminder]. *)
Definition send_day_before_reminder (event : Bot.scheduled_event) : M bool :=
  if (REMINDER_CHANNEL_ID (cfg E) =? 0) || (REMINDER_ROLE_ID (cfg E) =? 0)
  then ret false
  else
    let! cached := (fun w => (Ret (channel_cached E (trace w)), w)) in
    let! channel :=
      if cached then ret true
      else
        try_except
          (run! perform (FetchChannel (REMINDER_CHANNEL_ID (cfg E))) in
           ret true)
          (fun exc =>
             run! log WARNING "failed to fetch reminder channel: %s" [exc] in
             ret false) in
    if negb channel then ret false
    else
      let start_iso := Bot.to_jst_iso (bot E) (Bot.se_start_time event) in
      match format_display_date E start_iso with
      | Raise exc => raise exc
      | Ret display_date =>
          let event_url := Py.or_str (Bot.get_event_url event) "" in
          let msg :=
            "🔔 <@&" +:+ pretty (REMINDER_ROLE_ID (cfg E))
              +:+ "> 明日開催のイベントがあります 🔔" +:+ newline +:+ event_url in
          try_except
            (run! perform (ChannelSend (REMINDER_CHANNEL_ID (cfg E)) msg) in
             ret true)
            (fun exc =>
               run! log WARNING "failed to send day-before reminder: %s" [exc]
               in ret false)
      end.

(** The instant of a start time; a naive one is read as UTC
    ([start_time.replace(tzinfo=timezone.utc)]). *)
Definition start_instant (event : Bot.scheduled_event) : Z :=
  let start_time := Bot.se_start_time event in
  match dt_utcoffset start_time with
  | Some o => dt_wall start_time - o
  | None => dt_wall start_time
  end.

(** The loop over the events of a guild, from the values of [cache] and
    [cache_changed] before it.  A scheduled event always has a start
    time, so that the test [not start_time] of the loop never holds. *)
Fixpoint remind_events (window_start window_end : Z) (now_iso : string)
    (events : list Bot.scheduled_event)
    (cache : gmap string string) (cache_changed : bool)
    : M (gmap string string * bool) :=
  match events with
  | [] => ret (cache, cache_changed)
  | event :: rest =>
      let start_time := start_instant event in
      if negb ((window_start <=? start_time) && (start_time <? window_end))
      then remind_events window_start window_end now_iso rest
                         cache cache_changed
      else
        let event_id := pretty (Bot.se_id event) in
        match cache !! event_id with
        | Some _ =>
            remind_events window_start window_end now_iso rest
                          cache cache_changed
        | None =>
            let! sent := send_day_before_reminder event in
            if sent
            then remind_events window_start window_end now_iso rest
                               (<[event_id := now_iso]> cache) true
            else remind_events window_start window_end now_iso rest
                               cache cache_changed
        end
  end.

(** The loop over the guilds. *)
Fixpoint remind_guilds (window_start window_end : Z) (now_iso : string)
    (gs : list guild) (cache : gmap string string) (cache_changed : bool)
    : M (gmap string string * bool) :=
  match gs with
  | [] => ret (cache, cache_changed)
  | guild :: rest =>
      let! events :=
        try_except (perform (FetchScheduledEvents (guild_id guild)))
                   (fun _ => ret (scheduled_events guild)) in
      let! state :=
        remind_events window_start window_end now_iso events
                      cache cache_changed in
      remind_guilds window_start window_end now_iso rest state.1 state.2
  end.

(** [auto_day_before_reminder]. *)
Definition auto_day_before_reminder : M unit :=
  if (REMINDER_CHANNEL_ID (cfg E) =? 0) || (REMINDER_ROLE_ID (cfg E) =? 0)
  then ret tt
  else
    let! now_utc := (fun w => (Ret (clock E (trace w)), w)) in
    let window_start := now_utc + timedelta_hours 24 in
    let window_end :=
      window_start
        + timedelta_minutes (Z.max 1 (REMINDER_WINDOW_MINUTES (cfg E))) in
    let! cache := load_reminder_cache in
    let! state :=
      remind_guilds window_start window_end
                    (Bot.isoformat (bot E) (utc_datetime now_utc))
                    (guilds E) cache false in
    if state.2 then save_reminder_cache state.1 else ret tt.

End Code.

End Reminder.

(** ** Vocabulary of the properties of the periodic tasks and of the
    watch channel *)

Module TaskVocabulary.

Import Webhook (outcome, Ret, Raise).
Import Tasks.

(** The day on which a page starts, when its date can be read. *)
Definition start_day (E : env) (p : page) : option Z :=
  match page_date p with
  | Some (Some d) =>
      match dv_start d with
      | Some start => date_of <$> fromisoformat E start
      | None => None
      end
  | _ => None
  end.

(** The page started thirty days before [today], or earlier. *)
Definition expired (E : env) (today : Z) (p : page) : bool :=
  match start_day E p with
  | Some d => today - d >=? 30
  | None => false
  end.

(** The end of a page (its start for a page without end), when it is
    given and can be read. *)
Definition end_of (E : env) (p : page) : option datetime :=
  match page_date p with
  | Some (Some d) =>
      match Py.or_opt (dv_end d) (dv_start d) with
      | Some s => if Py.truthy s then fromisoformat E s else None
      | None => None
      end
  | _ => None
  end.

(** The page ended at [now] or before. *)
Definition finished (E : env) (now : datetime) (p : page) : bool :=
  match end_of E p with
  | Some end_dt => default false (dt_le end_dt now)
  | None => false
  end.

(** The page is read without error by the cleanup of finished events: it
    has no date, or no end and no start, or an end with a time zone. *)
Definition reads_aware (E : env) (p : page) : bool :=
  match page_date p with
  | Some None => true
  | Some (Some d) =>
      match Py.or_opt (dv_end d) (dv_start d) with
      | Some s =>
          negb (Py.truthy s) ||
          match fromisoformat E s with
          | Some dt => bool_decide (is_Some (dt_utcoffset dt))
          | None => false
          end
      | None => true
      end
  | None => false
  end.

(** Every request is answered: none raises. *)
Definition always_answers (E : env) : Prop :=
  forall h c, exists status data, respond E h c = Http status data.

Definition archive_of (p : page) : call := NotionArchivePage (page_id p).

(** The time [datetime.now(JST)] that a cleanup reads after its query. *)
Definition now_after (E : env) (w : world) (query : call) : datetime :=
  DateTime (clock E (trace w ++ [query]) (clock_reads w) + JST) (Some JST).

Definition unnumbered (p : page) : bool :=
  bool_decide (page_number p = Some None).

Definition number_request (p : page) (n : Z) : call :=
  NotionSetNumber (page_id p) n.

(** [b] is not created before [a]. *)
Definition created_in_order (a b : page) : Prop :=
  String.ltb (created_key b) (created_key a) = false.

(** What [get_qa_changes] reports of a page, for the cache it loaded. *)
Definition classify (cache : gmap string cache_value) (p : page)
    : option (change * page) :=
  match cache !! page_id p with
  | None => Some (New, p)
  | Some v =>
      if differs v (page_last_edited_time p) then Some (Update, p) else None
  end.

(** The query of the Q&A database. *)
Definition qa_query (E : env) : call :=
  NotionQueryAll (Webhook.fmt (NOTION_QA_DB_ID (cfg E))).

(** The cache [nc] after the edit times of [pages] have been recorded in
    it, one page after the other. *)
Definition recorded (nc : gmap string cache_value) (pages : list page)
    : gmap string cache_value :=
  foldl (fun m p => <[page_id p := CTime (page_last_edited_time p)]> m)
        nc pages.

End TaskVocabulary.

Module WatchVocabulary.

Import Webhook (outcome, Ret, Raise).
Import Watcher.

(** The calendar id is set and [get_calendar_service] returns a
    service. *)
Definition ready (E : env) : Prop :=
  Py.truthy_opt (GOOGLE_CALENDAR_ID (cfg E)) = true /\
  get_calendar_service E = Ret true.

(** The watch request of a run. *)
Definition watch_request_of (E : env) : call :=
  EventsWatch
    (default "" (GOOGLE_CALENDAR_ID (cfg E)))
    (WatchRequest
       (Py.or_str (WATCH_CHANNEL_ID (cfg E)) ("gcal-" +:+ uuid4 E))
       (default "" (GCAL_WEBHOOK_URL (cfg E)))).

(** The part of the two [main] that follows the checks of the calendar
    id and of the service (and, in [renew.py], the stop of the old
    channel); [done] is the format of the last log entry. *)
Definition registration (E : env) (done : string) : M unit :=
  Effects.bind
    (build_watch_request E
       (Py.or_str (WATCH_CHANNEL_ID (cfg E)) ("gcal-" +:+ uuid4 E)))
    (fun body =>
       match body with
       | None => Effects.raise "SystemExit: GCAL_WEBHOOK_URL is required"
       | Some body =>
           Effects.bind
             (perform E
                (EventsWatch (default "" (GOOGLE_CALENDAR_ID (cfg E))) body))
             (fun response =>
                Effects.bind (utc_now_iso E)
                  (fun created_at =>
                     Effects.bind
                       (save_state E
                          (WatchState (resp_id response)
                                      (resp_resourceId response)
                                      (resp_expiration response)
                                      (GOOGLE_CALENDAR_ID (cfg E))
                                      created_at))
                       (fun _ => log Webhook.INFO done [])))
       end).

End WatchVocabulary.

Module TaskScenarios.

Import Webhook (outcome, Ret, Raise).
Import Tasks.

Definition task_cfg : config :=
  Config (Some "db-qa") (Some "db-external") (Some "db-internal").

(** Microseconds of a day, and of 2024-05-31T03:00:00Z (noon in JST). *)
Definition day_us : Z := 86400000000.
Definition noon_0531 : Z := 19874 * day_us + 3 * 3600000000.

(** [fromisoformat] on the strings of the scenarios: a date alone gives a
    naive value. *)
Definition parse (s : string) : option datetime :=
  if String.eqb s "2024-04-01T10:00:00+09:00"
  then Some (DateTime (19814 * day_us + 10 * 3600000000) (Some (timedelta_hours 9)))
  else if String.eqb s "2024-05-20T10:00:00+09:00"
  then Some (DateTime (19863 * day_us + 10 * 3600000000) (Some (timedelta_hours 9)))
  else if String.eqb s "2024-05-01"
  then Some (DateTime (19844 * day_us) None)
  else None.

Definition dated (id start : string) : page :=
  Page id None "2024-05-01T00:00:00.000Z"
       (Some (Some (DateValue (Some start) None))) None.

Definition undated (id : string) : page :=
  Page id None "2024-05-01T00:00:00.000Z" (Some None) None.

Definition old_page : page := dated "page-old" "2024-04-01T10:00:00+09:00".
Definition recent_page : page := dated "page-recent" "2024-05-20T10:00:00+09:00".
Definition all_day_page : page := dated "page-all-day" "2024-05-01".

Definition event_listing : list page :=
  [old_page; undated "page-draft"; recent_page].

Definition respond_events (pages : list page) (h : list call) (c : call)
    : response :=
  match c with
  | NotionQueryAll _ => Http 200 (BResults pages)
  | _ => Http 200 BNone
  end.

Definition env_events (pages : list page) : env :=
  Env task_cfg (respond_events pages) (fun _ _ => noon_0531) parse
      (fun _ => "") (fun _ => "").

Definition world0 : world := World None 0 [] [].

(** Questions of the Q&A database: two numbered, two to number. *)
Definition question (id created : string) (number : option Z) : page :=
  Page id (Some created) created None (Some number).

Definition questions : list page :=
  [ question "q-a" "2024-05-03T00:00:00.000Z" None;
    question "q-b" "2024-05-01T00:00:00.000Z" (Some 4);
    question "q-c" "2024-05-02T00:00:00.000Z" None;
    question "q-d" "2024-04-30T00:00:00.000Z" (Some 7) ].

(** A cache that holds the first-run flag and an older edit of [q-b]. *)
Definition flagged_cache : gmap string cache_value :=
  <["_first_qa_run" := CFlag false]>
    (<["q-b" := CTime "2024-04-30T00:00:00.000Z"]> ∅).

Definition world_flagged : world := World (Some flagged_cache) 0 [] [].

End TaskScenarios.

Module WatchScenarios.

Import Webhook (outcome, Ret, Raise).
Import Watcher.

Definition watch_cfg (url : option string) : config :=
  Config (Some "cal@example.com") url None.

(** The calendar answers a watch request with a new channel; the request
    to stop a channel fails. *)
Definition respond_watch (h : list call) (c : call) : response :=
  match c with
  | ChannelsStop _ _ => Failed "HttpError 404"
  | EventsWatch _ body =>
      Answer (WatchResponse (Some (wr_id body)) (Some "res-1")
                            (Some "1717200000000"))
  | SaveState _ => Answer (WatchResponse None None None)
  end.

Definition env_watch (url : option string) : env :=
  Env (watch_cfg url) (Ret true) respond_watch (fun _ => 0) (fun _ => "")
      "0000-uuid".

Definition stored : watch_state :=
  WatchState (Some "gcal-old") (Some "res-old") None
             (Some "cal@example.com") "".

Definition world_stored : world := World (Some stored) [] [].
Definition world_fresh : world := World None [] [].

End WatchScenarios.

Module ReminderVocabulary.

Import Webhook (outcome, Ret, Raise).
Import Reminder.

(** The window of a run that reads the time [now_utc]. *)
Definition in_window (E : env) (now_utc : Z) (event : Bot.scheduled_event)
    : bool :=
  let window_start := now_utc + timedelta_hours 24 in
  let window_end :=
    window_start
      + timedelta_minutes (Z.max 1 (REMINDER_WINDOW_MINUTES (cfg E))) in
  (window_start <=? start_instant event)
  && (start_instant event <? window_end).

(** The event starts in the window and the cache does not hold its id. *)
Definition due (E : env) (now_utc : Z) (cache : gmap string string)
    (event : Bot.scheduled_event) : bool :=
  in_window E now_utc event
  && bool_decide (cache !! pretty (Bot.se_id event) = None).

Definition is_send (c : call) : bool :=
  match c with
  | ChannelSend _ _ => true
  | _ => false
  end.

(** The guild answers every listing with [events], or its listing always
    fails and [events] is its cache. *)
Definition lists (E : env) (g : guild) (events : list Bot.scheduled_event)
    : Prop :=
  (forall h, respond E h (FetchScheduledEvents (guild_id g)) = Answer events)
  \/ ((forall h, exists exc,
         respond E h (FetchScheduledEvents (guild_id g)) = Failed exc)
      /\ events = scheduled_events g).

End ReminderVocabulary.

Module ReminderScenarios.

Import Webhook (outcome, Ret, Raise).
Import Reminder.

(** 2024-05-31T03:00:00Z, and an event that starts a day and five
    minutes later. *)
Definition now0 : Z := TaskScenarios.noon_0531.

Definition meeting (id : Z) (start : Z) : Bot.scheduled_event :=
  Bot.ScheduledEvent id "Meetup" None (DateTime start (Some 0)) None
    (Some 77) None None (Some 7) None None.

Definition tomorrow : Z := now0 + timedelta_hours 24 + timedelta_minutes 5.

(** Three events: one in the window and announced before, one in the
    window, one next week. *)
Definition listed : list Bot.scheduled_event :=
  [ meeting 2001 tomorrow; meeting 2002 tomorrow;
    meeting 2003 (now0 + timedelta_days 7) ].

Definition respond_listed (h : list call) (c : call) : response :=
  match c with
  | FetchScheduledEvents _ => Answer listed
  | _ => Answer []
  end.

Definition env_reminder : env :=
  Env (Config 500 600 15) [Guild 7 []] (fun _ => true) respond_listed
      (fun _ => now0) Fixtures.bot_env (fun s => Ret s).

Definition world_announced : world :=
  World (Some {[ "2001" := "2024-05-31T02:50:00+00:00" ]}) [] [].

End ReminderScenarios.

(** * Properties *)

Import Webhook Props Logic.

(** ** Python values *)

Lemma truthy_true (s : string) : Py.truthy s = true <-> s <> "".
Proof.
  unfold Py.truthy. rewrite negb_true_iff.
  destruct (String.eqb_spec s ""); split; congruence.
Qed.

(** ** The duplicate guard *)

Section Dedupe.

Lemma maxlen_ge (E : env) : (100 <= maxlen E)%nat.
Proof. unfold maxlen. lia. Qed.

Lemma keep_last_app {A} (M : nat) (l ts : list A) :
  drop (List.length (drop (List.length l - M) l ++ ts) - M)
       (drop (List.length l - M) l ++ ts) =
  drop (List.length (l ++ ts) - M) (l ++ ts).
Proof.
  rewrite !drop_app, !length_app, !length_drop, drop_drop.
  f_equal; f_equal; lia.
Qed.

(** Registering a new token: it is appended, and the oldest token leaves
    when the deque is full. *)
Lemma register_fresh (E : env) (t : string) (w : world) :
  dedupe_consistent E w ->
  t <> "" ->
  t ∉ processed_message_set w ->
  (register_message_id E t w).1 = Ret false /\
  processed_message_ids (register_message_id E t w).2 =
    drop (List.length (processed_message_ids w ++ [t]) - maxlen E)
         (processed_message_ids w ++ [t]) /\
  dedupe_consistent E (register_message_id E t w).2.
Proof.
  intros (Hnd & Hset & Hlen) Ht Hfresh.
  unfold register_message_id.
  apply truthy_true in Ht as Htr. rewrite Htr. cbn [negb].
  rewrite bool_decide_eq_false_2 by done.
  cbn [fst snd]. split; [done|].
  pose proof (maxlen_ge E) as Hmax.
  unfold deque_append, dedupe_consistent.
  cbn [set_dedupe processed_message_ids processed_message_set].
  assert (Hnin : t ∉ processed_message_ids w)
    by (intros Hin; apply Hfresh, Hset, Hin).
  revert Hnd Hset Hlen Hnin.
  generalize (processed_message_ids w) as ids. intros ids Hnd Hset Hlen Hnin.
  rewrite length_app. cbn [List.length].
  destruct (Nat.eqb_spec (List.length ids) (maxlen E)) as [Hfull | Hroom].
  - destruct ids as [| oldest rest]; [cbn in Hfull; lia|].
    assert ((maxlen E <? List.length (oldest :: rest) + 1)%nat = true) as ->
      by (apply Nat.ltb_lt; lia).
    replace (List.length (oldest :: rest) + 1 - maxlen E)%nat with 1%nat by lia.
    split; [done|]. cbn [drop app]. rewrite ?drop_0.
    apply NoDup_cons in Hnd as [Hold Hnd].
    split; [| split].
    + apply NoDup_app. split; [done|]. split; [| apply NoDup_singleton].
      intros x Hx ->%list_elem_of_singleton. apply Hnin. by right.
    + intros x. rewrite elem_of_union, elem_of_difference, !elem_of_singleton.
      rewrite Hset, elem_of_app, elem_of_cons, list_elem_of_singleton.
      split.
      * intros [[[-> | Hx] Hne] | ->]; [done | by left | by right].
      * intros [Hx | ->]; [| by right]. left. split; [by right|].
        intros ->. done.
    + rewrite length_app. cbn [List.length] in *. lia.
  - assert ((maxlen E <? List.length ids + 1)%nat = false) as ->
      by (apply Nat.ltb_ge; lia).
    replace (List.length ids + 1 - maxlen E)%nat with 0%nat by lia.
    cbn [drop].
    split; [done|].
    split; [| split].
    + apply NoDup_app. split; [done|]. split; [| apply NoDup_singleton].
      intros x Hx ->%list_elem_of_singleton. done.
    + intros x. rewrite elem_of_union, elem_of_singleton, Hset, elem_of_app,
        list_elem_of_singleton. done.
    + rewrite length_app. cbn [List.length]. lia.
Qed.

(** Registering a token that is already known changes nothing. *)
Lemma register_seen (E : env) (t : string) (w : world) :
  t <> "" ->
  t ∈ processed_message_set w ->
  register_message_id E t w = (Ret true, w).
Proof.
  intros Ht Hin. unfold register_message_id.
  apply truthy_true in Ht as ->. cbn [negb].
  by rewrite bool_decide_eq_true_2.
Qed.

(** After new, pairwise distinct tokens are registered in turn, the deque
    holds the last [maxlen] elements of the old deque followed by the
    tokens. *)
Lemma register_each_fresh (E : env) (ts : list string) (w : world) :
  dedupe_consistent E w ->
  NoDup ts ->
  Forall (fun t => t <> "") ts ->
  (forall t, t ∈ ts -> t ∉ processed_message_set w) ->
  processed_message_ids (register_each E ts w) =
    drop (List.length (processed_message_ids w ++ ts) - maxlen E)
         (processed_message_ids w ++ ts) /\
  dedupe_consistent E (register_each E ts w).
Proof.
  revert w. induction ts as [| t ts IH]; intros w Hw Hnd Hne Hfresh.
  - cbn [register_each]. rewrite app_nil_r. split; [| done].
    destruct Hw as (_ & _ & Hlen).
    replace (List.length (processed_message_ids w) - maxlen E)%nat with 0%nat
      by lia.
    done.
  - cbn [register_each].
    apply NoDup_cons in Hnd as [Ht Hnd].
    apply Forall_cons in Hne as [Hte Hne].
    destruct (register_fresh E t w Hw Hte) as (_ & Hids & Hw').
    { apply Hfresh. by left. }
    destruct (IH _ Hw' Hnd Hne) as [IHids IHw].
    { intros x Hx. destruct Hw' as (_ & Hset' & _).
      rewrite Hset', Hids. intros Hin%subseteq_drop.
      apply elem_of_app in Hin as [Hin | ->%list_elem_of_singleton]; [| done].
      destruct Hw as (_ & Hset & _). apply Hset in Hin.
      apply (Hfresh x); [by right | done]. }
    split; [| done].
    rewrite IHids, Hids.
    rewrite (keep_last_app (maxlen E) (processed_message_ids w ++ [t]) ts).
    by rewrite <- (assoc_L (++) _ [t] ts).
Qed.

(** C5. The duplicate guard is a FIFO of capacity
    [N = maxlen = max(100, DEDUPE_MAX_IDS)]. When [N + 1] pairwise
    distinct, non-empty tokens that the guard does not hold are registered
    in turn, the first of them is evicted: registering it again reports it
    as not seen, while each of the [N] most recent tokens is reported as
    seen. *)
Theorem dedup_bound (E : env) (w : world) (first : string)
    (recent : list string) :
  dedupe_consistent E w ->
  List.length recent = maxlen E ->
  NoDup (first :: recent) ->
  Forall (fun t => t <> "") (first :: recent) ->
  (forall t, t ∈ first :: recent -> t ∉ processed_message_set w) ->
  let w' := register_each E (first :: recent) w in
  (register_message_id E first w').1 = Ret false /\
  (forall t, t ∈ recent -> (register_message_id E t w').1 = Ret true).
Proof.
  intros Hw Hlen Hnd Hne Hfresh w'.
  destruct (register_each_fresh E (first :: recent) w Hw Hnd Hne Hfresh)
    as [Hids Hw'].
  fold w' in Hids, Hw'.
  assert (Hids' : processed_message_ids w' = recent).
  { rewrite Hids. destruct Hw as (_ & _ & Hl).
    rewrite length_app. cbn [List.length]. rewrite Hlen.
    replace (List.length (processed_message_ids w) + S (maxlen E) - maxlen E)%nat
      with (S (List.length (processed_message_ids w))) by lia.
    rewrite (cons_middle first), (assoc_L (++)).
    apply drop_app_length'. rewrite length_app. cbn. lia. }
  apply NoDup_cons in Hnd as [Hfirst _].
  apply Forall_cons in Hne as [Hfe Hre].
  split.
  - apply register_fresh; [done | done |].
    destruct Hw' as (_ & Hset & _). rewrite Hset, Hids'. done.
  - intros t Ht. rewrite register_seen; [done | |].
    + rewrite Forall_forall in Hre. by apply Hre.
    + destruct Hw' as (_ & Hset & _). rewrite Hset, Hids'. done.
Qed.

(** The guard of [Fixtures.env0] is configured with [DEDUPE_MAX_IDS = 5]
    and holds 100 tokens: of 101 tokens, only the first is evicted. *)
Lemma dedup_bound_witness :
  let w' := register_each Fixtures.env0 (Fixtures.tokens 0 101)
              Fixtures.world0 in
  (register_message_id Fixtures.env0 (Fixtures.token 0) w').1 = Ret false /\
  (forall t, t ∈ Fixtures.tokens 1 100 ->
     (register_message_id Fixtures.env0 t w').1 = Ret true).
Proof.
  apply (dedup_bound Fixtures.env0 Fixtures.world0 (Fixtures.token 0)
           (Fixtures.tokens 1 100)).
  - split; [apply NoDup_nil_2 | split; [| cbn; lia]].
    intros t. cbn. rewrite elem_of_empty, elem_of_nil. done.
  - reflexivity.
  - apply (bool_decide_unpack _). vm_compute. exact I.
  - apply (bool_decide_unpack _). vm_compute. exact I.
  - intros t _. cbn. apply not_elem_of_empty.
Defined.

End Dedupe.

(** ** A program logic for the traces of requests *)

Section LogicRules.

Context (P : call -> Prop) (F : frame).

Lemma follows_refl w : follows P F w w.
Proof.
  split; [| apply fr_refl]. exists []. by rewrite app_nil_r.
Qed.

Lemma follows_trans w1 w2 w3 :
  follows P F w1 w2 -> follows P F w2 w3 -> follows P F w1 w3.
Proof.
  intros [(n1 & H1 & P1) F1] [(n2 & H2 & P2) F2].
  split; [| by eapply fr_trans].
  exists (n1 ++ n2). rewrite H2, H1, (assoc_L (++)). split; [done|].
  by apply Forall_app.
Qed.

Lemma follows_same_trace w w' :
  trace w' = trace w -> F w w' -> follows P F w w'.
Proof.
  intros Ht HF. split; [| done]. exists []. by rewrite app_nil_r.
Qed.

Lemma sat_ret {A} (a : A) (Q : A -> Prop) : Q a -> sat P F (ret a) Q.
Proof.
  intros HQ w. split; [apply follows_refl|]. by intros ? [= <-].
Qed.

Lemma sat_raise {A} exc (Q : A -> Prop) : sat P F (raise exc) Q.
Proof. intros w. split; [apply follows_refl | done]. Qed.

Lemma sat_bind {A B} (m : M A) (k : A -> M B) (Q1 : A -> Prop)
    (Q2 : B -> Prop) :
  sat P F m Q1 -> (forall a, Q1 a -> sat P F (k a) Q2) ->
  sat P F (bind m k) Q2.
Proof.
  intros Hm Hk w. unfold bind. destruct (Hm w) as [H1 HQ].
  destruct (m w) as [[a | exc] w1]; cbn [fst snd] in *.
  - destruct (Hk a (HQ a eq_refl) w1) as [H2 HQ2].
    split; [by eapply follows_trans | done].
  - split; [done | done].
Qed.

Lemma sat_try_except {A} (m : M A) (h : string -> M A) (Q : A -> Prop) :
  sat P F m Q -> (forall exc, sat P F (h exc) Q) ->
  sat P F (try_except m h) Q.
Proof.
  intros Hm Hh w. unfold try_except. destruct (Hm w) as [H1 HQ].
  destruct (m w) as [[a | exc] w1]; cbn [fst snd] in *.
  - done.
  - destruct (Hh exc w1) as [H2 HQ2].
    split; [by eapply follows_trans | done].
Qed.

Lemma sat_weaken {A} (m : M A) (Q Q' : A -> Prop) :
  sat P F m Q -> (forall a, Q a -> Q' a) -> sat P F m Q'.
Proof. intros Hm HQ w. destruct (Hm w). split; [done | eauto]. Qed.

Lemma sat_perform (E : env) (c : call) :
  P c ->
  sat P F (perform E c)
      (fun r => exists h, respond E h c = Http r.1 r.2).
Proof.
  intros Hc w. unfold perform.
  assert (follows P F w (push_call c w)).
  { split; [| apply fr_call]. exists [c]. split; [done|].
    by apply Forall_singleton. }
  destruct (respond E (trace w) c) eqn:Hr; cbn [fst snd].
  - done.
  - split; [done|]. intros a [= <-]. by exists (trace w).
Qed.

Lemma sat_log l fmt args (Q : unit -> Prop) :
  Q tt -> sat P F (log l fmt args) Q.
Proof.
  intros HQ w. split.
  - apply follows_same_trace; [reflexivity | apply fr_log].
  - by intros [] _.
Qed.

Lemma sat_modify (f : world -> world) (Q : unit -> Prop) :
  Q tt -> (forall w, trace (f w) = trace w) -> (forall w, F w (f w)) ->
  sat P F (modify f) Q.
Proof.
  intros HQ Ht HF w. split.
  - apply follows_same_trace; [apply Ht | apply HF].
  - by intros [] _.
Qed.

Lemma sat_read_clock (E : env) : sat P F (read_clock E) (fun _ => True).
Proof.
  intros w. split; [| done].
  apply follows_same_trace; [reflexivity | apply fr_tick].
Qed.

Lemma sat_get_world : sat P F get_world (fun _ => True).
Proof. intros w. split; [apply follows_refl | done]. Qed.

Lemma sat_top {A} (m : M A) (Q : A -> Prop) :
  sat P F m Q -> sat P F m (fun _ => True).
Proof. intros Hm. by eapply sat_weaken. Qed.

Lemma sat_bind_top {A B} (m : M A) (k : A -> M B) (Q : B -> Prop) :
  sat P F m (fun _ => True) -> (forall a, sat P F (k a) Q) ->
  sat P F (bind m k) Q.
Proof. intros Hm Hk. eapply sat_bind; [exact Hm | auto]. Qed.

Lemma sat_perform_top (E : env) (c : call) :
  P c -> sat P F (perform E c) (fun _ => True).
Proof. intros Hc. eapply sat_top. by apply sat_perform. Qed.

(** The functions written as state transformers. *)
Lemma sat_get_notion_page_id gid sc :
  sat P F (get_notion_page_id_by_google_id gid sc) (fun _ => True).
Proof. intros w. split; [apply follows_refl | done]. Qed.

Lemma sat_get_discord_event_id gid :
  sat P F (get_discord_event_id_by_google_id gid) (fun _ => True).
Proof. intros w. split; [apply follows_refl | done]. Qed.

End LogicRules.

Create HintDb sat.
Create HintDb total.

#[export] Hint Resolve sat_get_notion_page_id sat_get_discord_event_id : sat.

Ltac head_of t := lazymatch t with ?f _ => head_of f | _ => t end.

(** Side conditions: the predicate on a request, the frame on an update of
    the globals. *)
Ltac sat_side := first [ exact I | done | cbn; done ].

(** Proves [sat P F m (fun _ => True)] by following the structure of [m];
    [side] proves the side conditions. *)
Ltac sat_go_with side :=
  lazymatch goal with
  | |- sat _ _ (ret _) _ => apply sat_ret; side
  | |- sat _ _ (raise _) _ => apply sat_raise
  | |- sat _ _ (log _ _ _) _ => apply sat_log; side
  | |- sat _ _ (bind _ _) _ =>
      apply sat_bind_top; [sat_go_with side | intros ?; sat_go_with side]
  | |- sat _ _ (try_except _ _) _ =>
      apply sat_try_except; [sat_go_with side | intros ?; sat_go_with side]
  | |- sat _ _ (perform _ _) _ => apply sat_perform_top; side
  | |- sat _ _ (read_clock _) _ => apply sat_read_clock
  | |- sat _ _ get_world _ => apply sat_get_world
  | |- sat _ _ (modify _) _ =>
      apply sat_modify; [side | intros ?; side | intros ?; side]
  | |- sat _ _ (let _ := _ in _) _ => cbv zeta; sat_go_with side
  | |- sat _ _ (if ?b then _ else _) _ => destruct b eqn:?; sat_go_with side
  | |- sat _ _ (match ?x with _ => _ end) _ =>
      destruct x eqn:?; sat_go_with side
  | |- sat _ _ ?m _ =>
      first [ solve [eauto with sat]
            | let h := head_of m in unfold h; sat_go_with side ]
  end.

Ltac sat_go := sat_go_with sat_side.

(** ** Running the code step by step *)

Lemma bind_ret {A B} (m : M A) (k : A -> M B) (w w1 : world) (a : A) :
  m w = (Ret a, w1) -> bind m k w = k a w1.
Proof. intros H. unfold bind. by rewrite H. Qed.

Lemma bind_raise {A B} (m : M A) (k : A -> M B) (w w1 : world) exc :
  m w = (Raise exc, w1) -> bind m k w = (Raise exc, w1).
Proof. intros H. unfold bind. by rewrite H. Qed.

Lemma follows_calls_since P F w w' :
  follows P F w w' -> Forall P (calls_since w w').
Proof.
  intros [(new & Ht & HP) _]. unfold calls_since.
  by rewrite Ht, drop_app_length.
Qed.

Lemma calls_since_app w w' new :
  trace w' = trace w ++ new -> calls_since w w' = new.
Proof. intros Ht. unfold calls_since. by rewrite Ht, drop_app_length. Qed.

Lemma sat_follows {A} P F (m : M A) Q w :
  sat P F m Q -> follows P F w (m w).2.
Proof. intros H. apply H. Qed.

Lemma discord_sync_available_true (E : env) (w : world) :
  discord_configured (cfg E) ->
  discord_sync_available E w = (Ret true, w).
Proof.
  intros (He & Ht & Hg). unfold discord_sync_available.
  by rewrite He, Ht, Hg.
Qed.

(** ** Discord: a failed update of a known mirror *)

(** C10. When the Discord event id of an active calendar event is
    resolved, [sync_to_discord] issues no create request, whatever the
    update request answers; and when the update fails
    ([discord_update_event] returns [None]), it returns [None] right after
    the update, leaving the request trace and the correlation map as the
    update left them. *)
Theorem failed_update_never_creates (E : env) (ev : gevent) (gid d : string)
    (pg fb : option page) (w w1 : world) :
  discord_configured (cfg E) ->
  ev_id ev = Some gid -> gid <> "" ->
  ev_status ev <> Some "cancelled" ->
  resolve_discord_event_id E gid pg fb w = (Ret (Some d), w1) ->
  d <> "" ->
  Forall (fun c => is_create c = false)
         (calls_since w (sync_to_discord E ev pg fb w).2) /\
  (forall w2, discord_update_event E d ev w1 = (Ret None, w2) ->
     (sync_to_discord E ev pg fb w).1 = Ret None /\
     trace (sync_to_discord E ev pg fb w).2 = trace w2 /\
     gcal_discord_map (sync_to_discord E ev pg fb w).2 = gcal_discord_map w2).
Proof.
  intros Hcfg Hid Hgid Hst Hres Hd.
  assert (Hrun : sync_to_discord E ev pg fb w =
    bind (discord_update_event E d ev)
      (fun updated =>
         match updated with
         | Some obj =>
             let resolved_id := Py.or_str obj d in
             bind (set_discord_event_id_by_google_id gid resolved_id)
                  (fun _ => ret (Some resolved_id))
         | None =>
             bind (log WARNING
                     "Discord update failed for existing event_id=%s; skip create to avoid duplication"
                     [d])
                  (fun _ => ret None)
         end) w1).
  { unfold sync_to_discord.
    rewrite (bind_ret _ _ _ _ _ (discord_sync_available_true E w Hcfg)).
    cbn [negb]. rewrite Hid. cbn [Py.truthy_opt default from_option id].
    apply truthy_true in Hgid as ->. cbn [negb].
    rewrite (bind_ret _ _ _ _ _ Hres).
    rewrite bool_decide_eq_false_2 by done.
    cbn [Py.truthy_opt default from_option id]. apply truthy_true in Hd as ->. done. }
  split.
  - apply (follows_calls_since _ any_frame).
    eapply follows_trans.
    + pose proof (sat_follows (fun c => is_create c = false) any_frame
                    (resolve_discord_event_id E gid pg fb) (fun _ => True) w)
        as Hf.
      rewrite Hres in Hf. apply Hf. sat_go.
    + rewrite Hrun. apply (sat_follows _ _ _ (fun _ => True)). sat_go.
  - intros w2 Hup. rewrite Hrun, (bind_ret _ _ _ _ _ Hup). done.
Qed.

(** Discord rejects the update of the known event ["discord-1"]: the only
    Discord request is that update. *)
Lemma failed_update_never_creates_witness :
  let E := Fixtures.env_of Fixtures.respond_discord_down Fixtures.feb_25 in
  let w := Fixtures.world_mapped in
  Forall (fun c => is_create c = false)
         (calls_since w (sync_to_discord E Fixtures.sprint_review None None w).2) /\
  (forall w2,
     discord_update_event E "discord-1" Fixtures.sprint_review w = (Ret None, w2) ->
     (sync_to_discord E Fixtures.sprint_review None None w).1 = Ret None /\
     trace (sync_to_discord E Fixtures.sprint_review None None w).2 = trace w2 /\
     gcal_discord_map (sync_to_discord E Fixtures.sprint_review None None w).2
       = gcal_discord_map w2).
Proof.
  intros E w.
  apply (failed_update_never_creates E Fixtures.sprint_review "evt-1"
           "discord-1" None None w w).
  - by vm_compute.
  - reflexivity.
  - done.
  - done.
  - vm_compute. reflexivity.
  - done.
Defined.

(** ** Discord payloads: clipped fields and the synthesized end time *)

Lemma length_string_of_list_ascii (cs : list ascii) :
  String.length (String.string_of_list_ascii cs) = List.length cs.
Proof. induction cs as [| c cs IH]; cbn; congruence. Qed.

Lemma slice_to_length (s : string) (n : Z) :
  0 <= n -> (String.length (Py.slice_to s n) <= Z.to_nat n)%nat.
Proof.
  intros Hn. unfold Py.slice_to.
  assert ((n <? 0) = false) as -> by lia.
  rewrite length_string_of_list_ascii, length_take. lia.
Qed.

(** The two requests that carry a payload, for a property [Qpl] of the
    payload that [build_discord_payload] establishes. *)
Lemma discord_create_event_sat (E : env) P F (Qpl : discord_payload -> Prop)
    (ev : gevent) :
  sat P F (build_discord_payload E ev)
      (fun payload => forall pl, payload = Some pl -> Qpl pl) ->
  (forall method path pl, Qpl pl -> P (DiscordApi method path (Some pl))) ->
  sat P F (discord_create_event E ev) (fun _ => True).
Proof.
  intros Hbuild HP. unfold discord_create_event.
  eapply sat_bind; [exact Hbuild |].
  intros [pl|] Hpl; [| sat_go].
  unfold discord_api_request.
  apply sat_bind_top; [| intros ?; sat_go].
  apply sat_perform_top. apply HP. by apply Hpl.
Qed.

Lemma discord_update_event_sat (E : env) P F (Qpl : discord_payload -> Prop)
    (id : string) (ev : gevent) :
  sat P F (build_discord_payload E ev)
      (fun payload => forall pl, payload = Some pl -> Qpl pl) ->
  (forall method path pl, Qpl pl -> P (DiscordApi method path (Some pl))) ->
  sat P F (discord_update_event E id ev) (fun _ => True).
Proof.
  intros Hbuild HP. unfold discord_update_event.
  eapply sat_bind; [exact Hbuild |].
  intros [pl|] Hpl; [| sat_go].
  unfold discord_api_request.
  apply sat_bind_top; [| intros ?; sat_go].
  apply sat_perform_top. apply HP. by apply Hpl.
Qed.

Section Clipping.

Context (E : env).
Hypothesis name_limit : 0 <= DISCORD_NAME_LIMIT (cfg E).
Hypothesis description_limit : 0 <= DISCORD_DESCRIPTION_LIMIT (cfg E).
Hypothesis location_limit : 0 <= DISCORD_LOCATION_LIMIT (cfg E).

Lemma build_discord_payload_clipped (F : frame) (ev : gevent) :
  sat (clipped_call (cfg E)) F (build_discord_payload E ev)
      (fun payload => forall pl, payload = Some pl -> clipped (cfg E) pl).
Proof.
  unfold build_discord_payload.
  destruct (negb _); [by apply sat_ret|].
  eapply sat_bind; [apply (sat_top _ _ _ (fun _ => True)); sat_go |].
  intros [[start_dt|] [end_dt|]] _; try by apply sat_ret.
  apply sat_ret. intros pl [= <-]. unfold clipped. cbn.
  repeat split; by apply slice_to_length.
Qed.

Lemma discord_create_event_clipped (F : frame) (ev : gevent) :
  sat (clipped_call (cfg E)) F (discord_create_event E ev) (fun _ => True).
Proof.
  eapply discord_create_event_sat; [apply build_discord_payload_clipped |].
  intros method path pl Hpl. exact Hpl.
Qed.

Lemma discord_update_event_clipped (F : frame) (id : string) (ev : gevent) :
  sat (clipped_call (cfg E)) F (discord_update_event E id ev) (fun _ => True).
Proof.
  eapply discord_update_event_sat; [apply build_discord_payload_clipped |].
  intros method path pl Hpl. exact Hpl.
Qed.

Hint Resolve discord_create_event_clipped discord_update_event_clipped : sat.

Lemma upsert_event_clipped (ev : gevent) :
  sat (clipped_call (cfg E)) any_frame (upsert_event E ev) (fun _ => True).
Proof. sat_go. Qed.

End Clipping.




(** ** The synthesized end time *)

Lemma parse_times_synthesized (E : env) (ev : gevent) (s : datetime) :
  parse_part E (ev_start ev) false = Some s ->
  end_missing_or_not_after E ev s ->
  parse_google_event_times E ev
    = ret (Some s, Some (dt_add s (timedelta_hours 1))).
Proof.
  intros Hs [He | (e & He & Hle)]; unfold parse_google_event_times;
    rewrite Hs, He; [done|]. by rewrite Hle.
Qed.

Section EndTime.

Context (E : env) (ev : gevent) (s : datetime).
Hypothesis start_parsed : parse_part E (ev_start ev) false = Some s.
Hypothesis end_synthesized : end_missing_or_not_after E ev s.

Lemma build_discord_payload_end (F : frame) :
  sat (end_time_call E ev s) F (build_discord_payload E ev)
      (fun payload => forall pl, payload = Some pl ->
         pl_scheduled_end_time pl
           = to_discord_iso E (dt_add s (timedelta_hours 1))).
Proof.
  unfold build_discord_payload.
  destruct (negb _); [by apply sat_ret|].
  rewrite (parse_times_synthesized E ev s start_parsed end_synthesized).
  intros w. cbn. split; [apply follows_refl|].
  by intros pl [= <-] pl' [= <-].
Qed.

Lemma discord_create_event_end (F : frame) :
  sat (end_time_call E ev s) F (discord_create_event E ev) (fun _ => True).
Proof.
  eapply discord_create_event_sat; [apply build_discord_payload_end |].
  intros method path pl Hpl. exact Hpl.
Qed.

Lemma discord_update_event_end (F : frame) (id : string) :
  sat (end_time_call E ev s) F (discord_update_event E id ev)
      (fun _ => True).
Proof.
  eapply discord_update_event_sat; [apply build_discord_payload_end |].
  intros method path pl Hpl. exact Hpl.
Qed.

Hint Resolve discord_create_event_end discord_update_event_end : sat.

Lemma upsert_event_end :
  sat (end_time_call E ev s) any_frame (upsert_event E ev) (fun _ => True).
Proof.
  sat_go_with ltac:(first [ exact I | done | by left | by right
                          | cbn; first [ done | by left | by right ] ]).
Qed.

End EndTime.




(** ** Events that ended before the pass *)

Section NoMirror.

Context (E : env) (P : call -> Prop) (F : frame).
Hypothesis no_page : no_mirror E.
Hypothesis lookups : forall c, is_lookup c = true -> P c.

Lemma notion_get_page_none (page_id : string) :
  sat P F (notion_get_page E page_id) (fun pg => pg = None).
Proof.
  unfold notion_get_page. destruct (negb _); [by apply sat_ret|].
  eapply sat_bind; [apply sat_perform; by apply lookups |].
  intros [status b] (h & Hr). cbn [fst snd] in *.
  destruct (negb _); [by apply sat_ret|].
  destruct b; try apply sat_raise.
  specialize (no_page h (NotionGetPage page_id) eq_refl).
  by rewrite Hr in no_page.
Qed.

Lemma body_results_none (h : list call) (c : call) (status : Z) (b : body) :
  is_lookup c = true -> respond E h c = Http status b ->
  sat P F (body_results b) (fun results => results = []).
Proof.
  intros Hc Hr. specialize (no_page h c Hc). rewrite Hr in no_page.
  destruct b as [| | [|]| | | |]; try apply sat_raise; [by apply sat_ret|].
  done.
Qed.

Lemma notion_find_by_google_event_id_none (gid : string)
    (db_id : option string) :
  sat P F (notion_find_by_google_event_id E gid db_id) (fun pg => pg = None).
Proof.
  unfold notion_find_by_google_event_id. cbv zeta.
  destruct (negb _).
  { apply sat_bind_top; [sat_go | intros _; by apply sat_ret]. }
  eapply sat_bind; [apply sat_perform; by apply lookups |].
  intros [status b] (h & Hr). cbn [fst snd] in *.
  destruct (negb _).
  { apply sat_bind_top; [sat_go | intros _; by apply sat_ret]. }
  eapply sat_bind; [eapply body_results_none; [| exact Hr]; done |].
  intros results ->. by apply sat_ret.
Qed.

Lemma notion_find_by_message_id_none (mid : string) (db_id : option string) :
  sat P F (notion_find_by_message_id E mid db_id) (fun pg => pg = None).
Proof.
  unfold notion_find_by_message_id.
  destruct (_ || _); [by apply sat_ret|].
  eapply sat_bind; [apply sat_perform; by apply lookups |].
  intros [status b] (h & Hr). cbn [fst snd] in *.
  destruct (negb _).
  { apply sat_bind_top; [sat_go | intros _; by apply sat_ret]. }
  eapply sat_bind; [eapply body_results_none; [| exact Hr]; done |].
  intros results ->. by apply sat_ret.
Qed.

End NoMirror.

Lemma bind_ret_l {A B} (a : A) (k : A -> M B) : bind (ret a) k = k a.
Proof. reflexivity. Qed.

Lemma sat_read_clock_value P F (E : env) :
  sat P F (read_clock E) (fun t => exists h n, t = clock E h n).
Proof.
  intros w. split.
  - apply follows_same_trace; [reflexivity | apply fr_tick].
  - intros t [= <-]. eauto.
Qed.

Section Finished.

Context (E : env) (ev : gevent) (st : option datetime) (e : datetime).
Hypothesis no_page : no_mirror E.
Hypothesis times : parse_google_event_times E ev = ret (st, Some e).
Hypothesis ended :
  forall h n, dt_wall (astimezone_utc (local_utcoffset E) e) <= clock E h n.

Let P := external_create_only E.

Lemma lookups_external_create_only c : is_lookup c = true -> P c.
Proof. by destruct c. Qed.

Lemma resolve_internal_page_none (gid : string) :
  sat P any_frame (resolve_internal_page E gid) (fun pg => pg = None).
Proof.
  unfold resolve_internal_page.
  apply sat_bind_top; [sat_go | intros mapped].
  eapply (sat_bind _ _ _ _ (fun pg => pg = None)).
  { destruct (Py.truthy_opt mapped); [| by apply sat_ret].
    eapply sat_bind;
      [apply notion_get_page_none;
       [exact no_page | exact lookups_external_create_only] |].
    intros pg ->. apply sat_bind_top; [sat_go | intros _; by apply sat_ret]. }
  intros pg ->.
  eapply sat_bind;
    [apply notion_find_by_google_event_id_none;
     [exact no_page | exact lookups_external_create_only] |].
  intros pg ->. apply sat_bind_top; [sat_go | intros _; by apply sat_ret].
Qed.

(** The create request of [upsert_external] goes to the external
    database. *)
Ltac external_side :=
  first [ exact I | done
        | cbn; unfold Py.or_opt;
          repeat match goal with
                 | H : negb ?b = false |- _ =>
                     apply negb_false_iff in H; rewrite H
                 end; done ].

Lemma upsert_active_finished (gid : string) (external_page : option page) :
  sat P any_frame (upsert_active E ev gid None external_page) (fun _ => True).
Proof.
  unfold upsert_active. cbv zeta. rewrite times, bind_ret_l.
  eapply sat_bind; [apply sat_read_clock_value |].
  intros now (h & n & ->). cbn [snd].
  assert (skip_internal_create E None (Some e) (clock E h n) = true) as ->.
  { unfold skip_internal_create. rewrite bool_decide_eq_true_2 by done.
    cbn [andb]. apply Z.leb_le. apply ended. }
  destruct (build_notion_date ev) as [dp|]; [| by apply sat_ret].
  unfold upsert_internal. cbn [negb].
  apply sat_bind_top.
  { apply sat_bind_top; [sat_go | intros _; by apply sat_ret]. }
  intros step. sat_go_with external_side.
Qed.

Lemma upsert_event_finished :
  sat P any_frame (upsert_event E ev) (fun _ => True).
Proof.
  unfold upsert_event. destruct (negb _); [by apply sat_ret|]. cbv zeta.
  eapply sat_bind; [apply resolve_internal_page_none |].
  intros pg ->.
  apply sat_bind_top; [sat_go | intros external_page].
  destruct (bool_decide _); [sat_go |].
  apply upsert_active_finished.
Qed.

End Finished.

(** C1 (amended). When no lookup finds a mirror in the document store and
    the end of the event is not after any reading of the clock, a
    reconciliation of the event creates no page in the internal database:
    every create request sent to Notion is the one of the external
    database (it goes to [NOTION_EVENT_EXTERNAL_DB_ID] and carries no
    calendar id), so with two distinct databases none goes to
    [NOTION_EVENT_INTERNAL_DB_ID]. (The external page and the Discord
    event are still created.) *)
Theorem stale_event_skips_internal_create (E : env) (ev : gevent)
    (st : option datetime) (e : datetime) (w : world) :
  no_mirror E ->
  parse_google_event_times E ev = ret (st, Some e) ->
  (forall h n, dt_wall (astimezone_utc (local_utcoffset E) e) <= clock E h n) ->
  let calls := calls_since w (upsert_event E ev w).2 in
  Forall (external_create_only E) calls /\
  (NOTION_EVENT_EXTERNAL_DB_ID (cfg E) <> NOTION_EVENT_INTERNAL_DB_ID (cfg E) ->
   Forall (no_create_in (NOTION_EVENT_INTERNAL_DB_ID (cfg E))) calls).
Proof.
  intros Hno Htimes Hend calls.
  assert (Hcalls : Forall (external_create_only E) calls).
  { apply (follows_calls_since _ any_frame).
    apply (sat_follows _ _ _ (fun _ => True)).
    by eapply upsert_event_finished. }
  split; [done|]. intros Hne.
  eapply Forall_impl; [exact Hcalls|].
  intros [] Hc; try done. cbn in *. destruct Hc as [-> _]. done.
Qed.

(** No lookup of [Fixtures.respond_fresh] finds a page. *)
Lemma respond_fresh_no_mirror (t : Z) :
  no_mirror (Fixtures.env_of Fixtures.respond_fresh t).
Proof. intros h c Hc. by destruct c. Qed.

(** [Fixtures.finished_event] ended a month before the pass. *)
Lemma stale_event_skips_internal_create_witness :
  let E := Fixtures.env_of Fixtures.respond_fresh Fixtures.apr_1 in
  let calls := calls_since Fixtures.world0
                 (upsert_event E Fixtures.finished_event Fixtures.world0).2 in
  Forall (external_create_only E) calls /\
  (NOTION_EVENT_EXTERNAL_DB_ID (cfg E) <> NOTION_EVENT_INTERNAL_DB_ID (cfg E) ->
   Forall (no_create_in (NOTION_EVENT_INTERNAL_DB_ID (cfg E))) calls).
Proof.
  intros E.
  apply (stale_event_skips_internal_create E Fixtures.finished_event
           (Some (DateTime 1709287200000000 (Some (timedelta_hours 9))))
           (DateTime 1709290800000000 (Some (timedelta_hours 9)))
           Fixtures.world0).
  - apply respond_fresh_no_mirror.
  - by vm_compute.
  - intros h n. by vm_compute.
Defined.

(** C1 (as stated) fails for the external database and for Discord.
    [Fixtures.finished_event] is active, has no mirror anywhere and ended
    on 2024-03-01, a month before the pass of 2024-04-01; the pass skips
    the page of the internal database but creates the page of the
    external database and the Discord event. *)
Lemma stale_event_creates_external_and_discord :
  let E := Fixtures.env_of Fixtures.respond_fresh Fixtures.apr_1 in
  let w := Fixtures.world0 in
  let calls := calls_since w (upsert_event E Fixtures.finished_event w).2 in
  ev_status Fixtures.finished_event = Some "confirmed" /\
  skip_internal_create E None
    (Some (DateTime 1709290800000000 (Some (timedelta_hours 9))))
    Fixtures.apr_1 = true /\
  filter (fun c => is_create c = true) calls =
    [ NotionCreatePage
        (NotionCreate (Some "db-external") "Retrospective" "(no content)"
           (DateProp "2024-03-01T10:00:00+09:00"
                     (Some "2024-03-01T11:00:00+09:00"))
           "evt-3" "unknown" "" None None None);
      DiscordApi "POST" "/guilds/guild/scheduled-events"
        (Some (DiscordPayload "Retrospective" "" 2 3
                 "2024-03-01T01:00:00Z" "2024-03-01T02:00:00Z"
                 "Google Calendar")) ].
Proof. by vm_compute. Qed.

(** ** Runs that do not raise *)

Section Total.

Context (E : env).
Hypothesis no_failure : answers E.

Lemma total_ret {A} (a : A) : total (ret a).
Proof. intros w. by exists a. Qed.

Lemma total_bind {A B} (m : M A) (k : A -> M B) :
  total m -> (forall a, total (k a)) -> total (bind m k).
Proof.
  intros Hm Hk w. unfold bind. destruct (Hm w) as [a Ha].
  destruct (m w) as [r w1]. cbn in Ha. subst r. apply Hk.
Qed.

Lemma total_log l fmt args : total (log l fmt args).
Proof. intros w. by exists tt. Qed.

Lemma total_modify f : total (modify f).
Proof. intros w. by exists tt. Qed.

Lemma total_perform (c : call) : total (perform E c).
Proof.
  intros w. unfold perform.
  destruct (respond E (trace w) c) as [exc | status b] eqn:Hr.
  - by destruct (no_failure _ _ _ Hr).
  - by eexists.
Qed.

Lemma total_get_notion_page_id gid sc :
  total (get_notion_page_id_by_google_id gid sc).
Proof. intros w. by eexists. Qed.

Lemma total_get_discord_event_id gid :
  total (get_discord_event_id_by_google_id gid).
Proof. intros w. by eexists. Qed.

End Total.

#[export] Hint Resolve total_get_notion_page_id total_get_discord_event_id
  : total.

(** Proves [total m] by following the structure of [m]; the hypothesis
    [answers E] has to be in the context. *)
Ltac total_go :=
  lazymatch goal with
  | |- total (ret _) => apply total_ret
  | |- total (log _ _ _) => apply total_log
  | |- total (modify _) => apply total_modify
  | |- total (bind _ _) => apply total_bind; [total_go | intros ?; total_go]
  | |- total (perform _ _) => apply total_perform; assumption
  | |- total (let _ := _ in _) => cbv zeta; total_go
  | |- total (if ?b then _ else _) => destruct b eqn:?; total_go
  | |- total (match ?x with _ => _ end) => destruct x eqn:?; total_go
  | |- total ?m =>
      first [ solve [eauto with total]
            | let h := head_of m in unfold h; total_go ]
  end.

Lemma total_run {A} (m : M A) (w : world) :
  total m -> exists a w', m w = (Ret a, w').
Proof.
  intros Hm. destruct (Hm w) as [a Ha]. exists a, (m w).2.
  destruct (m w). cbn in *. by subst.
Qed.

(** ** Cancellation *)

Lemma calls_since_follows P F w w' :
  follows P F w w' ->
  trace w' = trace w ++ calls_since w w' /\ Forall P (calls_since w w').
Proof.
  intros [(new & Ht & HP) _]. unfold calls_since.
  by rewrite Ht, drop_app_length.
Qed.

Section Cancelled.

Context (E : env) (ev : gevent) (gid : string).
Hypothesis configured : discord_configured (cfg E).
Hypothesis no_failure : answers E.
Hypothesis event_id : ev_id ev = Some gid.
Hypothesis id_truthy : gid <> "".
Hypothesis cancelled : ev_status ev = Some "cancelled".

Lemma sync_to_discord_cancelled_run (pg fb : option page) (w : world) :
  sync_to_discord E ev pg fb w =
    bind (resolve_discord_event_id E gid pg fb)
      (fun d =>
         bind (delete_step E gid d)
           (fun _ => bind (remove_discord_event_id_by_google_id gid)
                       (fun _ => ret None))) w.
Proof.
  unfold sync_to_discord.
  rewrite (bind_ret _ _ _ _ _ (discord_sync_available_true E w configured)).
  cbn [negb]. rewrite event_id. cbn [Py.truthy_opt default from_option id].
  apply truthy_true in id_truthy as ->. cbn [negb].
  by rewrite cancelled, bool_decide_eq_true_2.
Qed.

Lemma sync_to_discord_cancelled (pg fb : option page) (w : world) :
  exists w',
    sync_to_discord E ev pg fb w = (Ret None, w') /\
    gcal_discord_map w' !! gid = None /\
    follows cleanup_call notion_frame w w'.
Proof.
  rewrite sync_to_discord_cancelled_run.
  destruct (total_run (resolve_discord_event_id E gid pg fb) w)
    as (d & w1 & Hres); [total_go|].
  pose proof (sat_follows cleanup_call notion_frame
                (resolve_discord_event_id E gid pg fb) (fun _ => True) w) as H1.
  rewrite Hres in H1. cbn [snd] in H1.
  rewrite (bind_ret _ _ _ _ _ Hres).
  destruct (total_run (delete_step E gid d) w1) as ([] & w2 & Hdel);
    [unfold delete_step; total_go|].
  pose proof (sat_follows cleanup_call notion_frame (delete_step E gid d)
                (fun _ => True) w1) as H2.
  rewrite Hdel in H2. cbn [snd] in H2.
  rewrite (bind_ret _ _ _ _ _ Hdel).
  unfold remove_discord_event_id_by_google_id.
  apply truthy_true in id_truthy as ->. cbn [negb].
  eexists. split; [reflexivity|]. split.
  - cbn. apply lookup_delete_eq.
  - eapply follows_trans; [apply H1; sat_go |].
    eapply follows_trans; [apply H2; unfold delete_step; sat_go |].
    apply follows_same_trace; [done | done].
Qed.

End Cancelled.

Lemma bind_assoc {A B C} (m : M A) (k1 : A -> M B) (k2 : B -> M C) w :
  bind (bind m k1) k2 w = bind m (fun a => bind (k1 a) k2) w.
Proof. unfold bind. by destruct (m w) as [[] ?]. Qed.

Lemma bind_modify {B} (f : world -> world) (k : unit -> M B) w :
  bind (modify f) k w = k tt (f w).
Proof. reflexivity. Qed.

Lemma filter_none {A} (P Q : A -> Prop) `{forall x, Decision (Q x)}
    (l : list A) :
  Forall P l -> (forall x, P x -> ~ Q x) -> filter Q l = [].
Proof.
  intros Hl HPQ. induction Hl as [| x l Hx Hl IH]; [done|].
  rewrite filter_cons_False; auto.
Qed.

Lemma notion_archive_page_run (E : env) (p : page) (w : world) :
  answers E ->
  exists b w',
    notion_archive_page E (Some p) w = (Ret b, w') /\
    trace w' = trace w ++ [NotionArchivePage (pg_id p)] /\
    gcal_notion_internal w' = gcal_notion_internal w /\
    gcal_notion_external w' = gcal_notion_external w /\
    gcal_discord_map w' = gcal_discord_map w.
Proof.
  intros Hans. unfold notion_archive_page, bind, perform.
  destruct (respond E (trace w) (NotionArchivePage (pg_id p)))
    as [exc | status b] eqn:Hr; [by destruct (Hans _ _ _ Hr)|].
  cbn [fst snd]. destruct (negb _); cbn; by eexists _, _.
Qed.

Lemma lookups_only_internal (E : env) (gid : string) :
  sat (fun c => is_lookup c = true) any_frame (resolve_internal_page E gid)
      (fun _ => True).
Proof. sat_go. Qed.

Lemma lookups_only_external (E : env) (gid : string) :
  sat (fun c => is_lookup c = true) any_frame (resolve_external_page E gid)
      (fun _ => True).
Proof. sat_go. Qed.

Lemma resolve_discord_no_create (E : env) (gid : string)
    (pg fb : option page) :
  sat (fun c => is_create c = false) any_frame
      (resolve_discord_event_id E gid pg fb) (fun _ => True).
Proof. sat_go. Qed.


Lemma respond_mirrored_answers (t : Z) :
  answers (Fixtures.env_of Fixtures.respond_mirrored t).
Proof. intros h c exc. destruct c; cbn; repeat case_match; done. Qed.


(** The requests of that pass. *)
Example cancellation_trace :
  calls_since Fixtures.world_mirrored
    (upsert_event (Fixtures.env_of Fixtures.respond_mirrored Fixtures.feb_25)
       Fixtures.cancelled_review Fixtures.world_mirrored).2 =
  [ NotionGetPage "page-int"; NotionGetPage "page-ext";
    NotionArchivePage "page-int"; NotionArchivePage "page-ext";
    DiscordApi "DELETE" "/guilds/guild/scheduled-events/discord-1" None ].
Proof. by vm_compute. Qed.

(** ** Loop prevention in the bot *)

Section OriginFilter.

Lemma is_bot_created_true (E : Bot.env) (u : Bot.user) (event : Bot.scheduled_event) :
  Bot.bot_user E = Some u ->
  (Bot.se_creator_id event = Some (Bot.user_id u) \/
   exists creator, Bot.se_creator event = Some creator /\
                   Bot.user_id creator = Bot.user_id u) ->
  Bot.is_bot_created_scheduled_event E event = true.
Proof.
  intros Hu Hc. unfold Bot.is_bot_created_scheduled_event. rewrite Hu.
  destruct Hc as [-> | (creator & -> & ->)].
  - by rewrite Z.eqb_refl.
  - rewrite Z.eqb_refl. destruct (Bot.se_creator_id event) as [c|]; [| done].
    by destruct (c =? Bot.user_id u).
Qed.

(** C3. When the bot is logged in as [u] and the creator of a scheduled
    event is [u] (by its [creator_id] or by its [creator] object), the
    create, update and delete handlers return at once: the list of
    requests is unchanged, so no request reaches the calendar or the
    document store. *)
Theorem bot_created_event_is_skipped (E : Bot.env) (u : Bot.user)
    (before event : Bot.scheduled_event) (w : Bot.world) :
  Bot.bot_user E = Some u ->
  (Bot.se_creator_id event = Some (Bot.user_id u) \/
   exists creator, Bot.se_creator event = Some creator /\
                   Bot.user_id creator = Bot.user_id u) ->
  ((Bot.on_scheduled_event_create E event w).1 = Ret tt /\
   Bot.trace (Bot.on_scheduled_event_create E event w).2 = Bot.trace w) /\
  ((Bot.on_scheduled_event_update E before event w).1 = Ret tt /\
   Bot.trace (Bot.on_scheduled_event_update E before event w).2 = Bot.trace w) /\
  ((Bot.on_scheduled_event_delete E event w).1 = Ret tt /\
   Bot.trace (Bot.on_scheduled_event_delete E event w).2 = Bot.trace w).
Proof.
  intros Hu Hc. pose proof (is_bot_created_true E u event Hu Hc) as Hbot.
  unfold Bot.on_scheduled_event_create, Bot.on_scheduled_event_update,
    Bot.on_scheduled_event_delete.
  cbv zeta. rewrite Hbot. done.
Qed.

(** The bot is user 42 and created the event. *)
Lemma bot_created_event_is_skipped_witness :
  let E := Fixtures.bot_env in
  let event := Fixtures.scheduled 42 in
  let w := Fixtures.bot_world0 in
  ((Bot.on_scheduled_event_create E event w).1 = Ret tt /\
   Bot.trace (Bot.on_scheduled_event_create E event w).2 = Bot.trace w) /\
  ((Bot.on_scheduled_event_update E event event w).1 = Ret tt /\
   Bot.trace (Bot.on_scheduled_event_update E event event w).2 = Bot.trace w) /\
  ((Bot.on_scheduled_event_delete E event w).1 = Ret tt /\
   Bot.trace (Bot.on_scheduled_event_delete E event w).2 = Bot.trace w).
Proof.
  intros E event w.
  apply (bot_created_event_is_skipped E (Bot.User 42) event event w).
  - reflexivity.
  - left. reflexivity.
Defined.

(** The same event created by user 77 is mirrored: the create handler
    inserts it into the calendar and creates a page in each database
    (each followed by the update that stores the page id). *)
Example user_created_event_is_mirrored :
  map (fun c => (Bot.is_calendar_call c, Bot.is_document_store_call c))
      (Bot.trace (Bot.on_scheduled_event_create Fixtures.bot_env
                (Fixtures.scheduled 77) Fixtures.bot_world0).2) =
  [ (true, false); (false, true); (false, true); (false, true);
    (false, true) ].
Proof. by vm_compute. Qed.

End OriginFilter.

(** ** Run coordination *)

Section SingleFlight.

Import Coordinator.

Lemma filter_alter_length {A} (f : A -> bool) (g : A -> A) (l : list A)
    (i : nat) (x : A) :
  l !! i = Some x ->
  (List.length (List.filter f (alter g i l)) + (if f x then 1 else 0) =
   List.length (List.filter f l) + (if f (g x) then 1 else 0))%nat.
Proof.
  revert i. induction l as [| y l IH]; intros [| i] Hi; try done.
  - injection Hi as ->. cbn. destruct (f x), (f (g x)); cbn; lia.
  - cbn in Hi. cbn. specialize (IH i Hi).
    destruct (f y); cbn; lia.
Qed.

Lemma in_flight_set_pc (s : state) (i : nat) (t : thread) (p : pc) :
  threads s !! i = Some t ->
  (List.length (List.filter in_flight (set_pc i p s))
     + (if in_flight t then 1 else 0) =
   passes_in_flight s + (if in_flight (Thread (th_source t) p) then 1 else 0))%nat.
Proof.
  intros Hi.
  exact (filter_alter_length in_flight (fun t => Thread (th_source t) p)
           (threads s) i t Hi).
Qed.

Lemma set_pc_lookup (s : state) (i : nat) (t : thread) (p : pc) :
  threads s !! i = Some t ->
  set_pc i p s !! i = Some (Thread (th_source t) p).
Proof.
  intros Hi. unfold set_pc. by rewrite list_lookup_alter_eq, Hi.
Qed.

Lemma exec_invariant (cooldown : Z) (a : action) (s s' : state) :
  lock_invariant s -> exec cooldown a s = Some s' -> lock_invariant s'.
Proof.
  unfold lock_invariant. intros Hinv Hexec.
  destruct a as [source | elapsed | i | i synced | i exc]; cbn in Hexec.
  - injection Hexec as <-. unfold passes_in_flight in *. cbn.
    rewrite List.filter_app, length_app. cbn. lia.
  - destruct (0 <=? elapsed); [| done]. by injection Hexec as <-.
  - unfold step in Hexec.
    destruct (threads s !! i) as [t|] eqn:Hi; [| done]. cbn in Hexec.
    destruct t as [source p].
    destruct p as [| now | | | synced | r | r]; cbn in Hexec; try done.
    + injection Hexec as <-. unfold passes_in_flight at 1. cbn.
      pose proof (in_flight_set_pc s i _ (AtCheck (clock s)) Hi). cbn in *. lia.
    + destruct (_ <? _); injection Hexec as <-;
        unfold passes_in_flight at 1; cbn.
      * pose proof (in_flight_set_pc s i _ (Returned (Ret (true, "cooldown"))) Hi).
        cbn in *. lia.
      * pose proof (in_flight_set_pc s i _ AtAcquire Hi). cbn in *. lia.
    + destruct (lock s) eqn:Hl; injection Hexec as <-;
        unfold passes_in_flight at 1; cbn; rewrite ?Hl.
      * pose proof (in_flight_set_pc s i _
                      (Returned (Ret (true, "in_progress"))) Hi).
        cbn in *. lia.
      * pose proof (in_flight_set_pc s i _ InSync Hi). cbn in *. lia.
    + injection Hexec as <-. unfold passes_in_flight at 1. cbn.
      pose proof (in_flight_set_pc s i _ (AtRelease (Ret (synced, "done"))) Hi).
      cbn in *. lia.
    + injection Hexec as <-. unfold passes_in_flight at 1. cbn.
      pose proof (in_flight_set_pc s i _ (Returned r) Hi).
      cbn in *. destruct (lock s); lia.
  - destruct (threads s !! i) as [t|] eqn:Hi; [| done]. cbn in Hexec.
    destruct t as [source p]. destruct p; try done.
    injection Hexec as <-. unfold passes_in_flight at 1. cbn.
    pose proof (in_flight_set_pc s i _ (AtStamp synced) Hi). cbn in *. lia.
  - destruct (threads s !! i) as [t|] eqn:Hi; [| done]. cbn in Hexec.
    destruct t as [source p]. destruct p; try done.
    injection Hexec as <-. unfold passes_in_flight at 1. cbn.
    pose proof (in_flight_set_pc s i _ (AtRelease (Raise exc)) Hi).
    cbn in *. lia.
Qed.

Lemma run_invariant (cooldown : Z) (acts : list action) (s s' : state) :
  lock_invariant s -> run cooldown acts s = Some s' -> lock_invariant s'.
Proof.
  revert s. induction acts as [| a acts IH]; intros s Hinv Hrun; cbn in Hrun.
  - by injection Hrun as <-.
  - destruct (exec cooldown a s) as [s1|] eqn:Hexec; [| done].
    eapply IH; [| exact Hrun]. by eapply exec_invariant.
Qed.

(** The two ways in which [run_sync_guarded] turns a trigger away. *)
Lemma run_sync_guarded_cooldown (E : env) (fuel : nat) (source : string)
    (w : world) :
  Webhook.clock E (trace w) (clock_reads w) - sync_last_run_epoch w
    < Z.max 0 (SYNC_COOLDOWN_SECONDS (cfg E)) ->
  run_sync_guarded E fuel source w =
    (Ret (Some (true, "cooldown")),
     push_log (Log INFO "Sync skipped source=%s reason=cooldown cool=%.3fs"
                   [source]) (tick_clock w)).
Proof.
  intros Hcool. unfold run_sync_guarded, bind, read_clock, get_world.
  cbn [fst snd tick_clock sync_last_run_epoch].
  apply Z.ltb_lt in Hcool. by rewrite Hcool.
Qed.

Lemma run_sync_guarded_in_progress (E : env) (fuel : nat) (source : string)
    (w : world) :
  Z.max 0 (SYNC_COOLDOWN_SECONDS (cfg E))
    <= Webhook.clock E (trace w) (clock_reads w) - sync_last_run_epoch w ->
  sync_lock w = true ->
  run_sync_guarded E fuel source w =
    (Ret (Some (true, "in_progress")),
     push_log (Log INFO "Sync skipped source=%s reason=in_progress" [source])
              (tick_clock w)).
Proof.
  intros Hcool Hlock. unfold run_sync_guarded, bind, read_clock, get_world.
  cbn [fst snd tick_clock sync_last_run_epoch].
  apply Z.ltb_ge in Hcool. rewrite Hcool.
  unfold acquire_nonblocking. cbn [sync_lock tick_clock]. by rewrite Hlock.
Qed.



(** The manual trigger is then dropped, and a trigger that arrives one
    second after the pass has finished is skipped by the cooldown. *)
Example burst_is_smoothed :
  threads <$>
    run 2000000
      [ Step 1; SyncReturns 0 true; Tick 500000; Step 0; Step 0;
        Tick 1000000; Arrive "webhook"; Step 2; Step 2 ]
      Fixtures.after_burst =
  Some [ Thread "webhook" (Returned (Ret (true, "done")));
         Thread "manual" (Returned (Ret (true, "in_progress")));
         Thread "webhook" (Returned (Ret (true, "cooldown"))) ].
Proof. reflexivity. Qed.

End SingleFlight.

(** ** A reconciliation pass *)

Section PassRules.

Context (E : env) (P : call -> Prop) (F : frame).

Lemma sat_list_pages (fuel : nat) (updated_min page_token : option string)
    (events : list gevent) :
  (forall tok, P (GcalEventsList updated_min true tok)) ->
  sat P F (list_pages E fuel updated_min page_token events) (fun _ => True).
Proof.
  intros HP. revert page_token events.
  induction fuel as [| fuel IH]; intros page_token events; cbn [list_pages].
  - by apply sat_ret.
  - apply sat_bind_top; [by apply sat_perform_top |].
    intros r. destruct r.2; try apply sat_raise.
    destruct (negb _); [by apply sat_ret | apply IH].
Qed.

Lemma sat_upsert_all (events : list gevent) (had_error : bool) :
  (forall ev, sat P F (upsert_event E ev) (fun _ => True)) ->
  sat P F (upsert_all E events had_error) (fun _ => True).
Proof.
  intros Hev. revert had_error.
  induction events as [| ev events IH]; intros had_error; cbn [upsert_all].
  - by apply sat_ret.
  - apply sat_bind_top; [| intros ?; apply IH].
    apply sat_try_except.
    + apply sat_bind_top; [apply Hev | intros _; by apply sat_ret].
    + intros exc. sat_go.
Qed.

Lemma sat_dt_max (cur : datetime) (rest : list datetime) :
  sat P F (dt_max cur rest) (fun _ => True).
Proof.
  revert cur. induction rest as [| d rest IH]; intros cur; cbn [dt_max].
  - by apply sat_ret.
  - destruct (dt_gt d cur) as [[|]|]; [apply IH | apply IH | apply sat_raise].
Qed.

End PassRules.

#[export] Hint Resolve sat_dt_max : sat.

(** [sync_calendar] does not touch the lock. *)
Lemma sync_calendar_keeps_lock (E : env) (fuel : nat) :
  sat (fun _ => True) lock_frame (sync_calendar E fuel) (fun _ => True).
Proof.
  assert (Hev : forall ev,
            sat (fun _ => True) lock_frame (upsert_event E ev) (fun _ => True))
    by (intros ev; sat_go).
  assert (Hall : forall evs b,
            sat (fun _ => True) lock_frame (upsert_all E evs b) (fun _ => True))
    by (intros; by apply sat_upsert_all).
  assert (Hpages : forall fuel um tok evs,
            sat (fun _ => True) lock_frame (list_pages E fuel um tok evs)
                (fun _ => True))
    by (intros; by apply sat_list_pages).
  sat_go.
Qed.

Lemma bind_log {B} l fmt args (k : unit -> M B) (w : world) :
  bind (log l fmt args) k w = k tt (push_log (Log l fmt args) w).
Proof. reflexivity. Qed.

Lemma total_read_clock (E : env) : total (read_clock E).
Proof. intros w. by eexists. Qed.

#[export] Hint Resolve total_read_clock : total.

Lemma list_updated_events_listing_only (E : env) (F : frame) (fuel : nat)
    (updated_min : option string) :
  sat (fun c => is_listing c = true) F
      (list_updated_events E fuel updated_min) (fun _ => True).
Proof.
  assert (Hpages : forall fuel um tok evs,
            sat (fun c => is_listing c = true) F (list_pages E fuel um tok evs)
                (fun _ => True))
    by (intros; by apply sat_list_pages).
  sat_go.
Qed.

(** The steps of [sync_calendar] once its configuration is checked. *)
Lemma sync_calendar_steps (E : env) (fuel : nat) (w : world) :
  sync_configured (cfg E) ->
  sync_calendar E fuel w =
    bind (list_updated_events E fuel (sync_state_file w))
      (fun listed =>
         match listed with
         | None => ret None
         | Some events =>
             bind (log INFO "Google events fetched: %d" [])
               (fun _ =>
                  bind (upsert_all E events false)
                    (fun had_error =>
                       bind
                         (match omap (fun e => parse_rfc3339 E (ev_updated e))
                                     events with
                          | d :: rest =>
                              bind (dt_max d rest)
                                   (fun m => ret (isoformat E m))
                          | [] =>
                              bind (read_clock E)
                                   (fun now =>
                                      ret (isoformat E (utc_datetime now)))
                          end)
                         (fun next_cursor =>
                            bind (save_sync_state E next_cursor)
                              (fun _ =>
                                 bind
                                   (log INFO
                                      "Sync completed next_updated_min=%s events=%d had_error=%s"
                                      [next_cursor])
                                   (fun _ => ret (Some (negb had_error)))))))
         end)
      (push_log (Log INFO "Sync start updated_min=%s"
                     [fmt (sync_state_file w)]) w).
Proof.
  intros (Ht & Hi & Hc).
  unfold sync_calendar. rewrite Ht, Hi, Hc. reflexivity.
Qed.

(** *** When the listing of the calendar fails *)

Section ListingFails.

Context (E : env) (n : nat).
Hypothesis failing : listing_fails E.

Lemma list_pages_raises (updated_min page_token : option string)
    (events : list gevent) (w : world) :
  exists exc,
    list_pages E (S n) updated_min page_token events w =
      (Raise exc, push_call (GcalEventsList updated_min true page_token) w).
Proof.
  destruct (failing (trace w) updated_min page_token) as [exc Hexc].
  exists exc. cbn [list_pages]. unfold bind, perform. by rewrite Hexc.
Qed.

Lemma list_updated_events_empty (updated_min : option string) (w : world) :
  (list_updated_events E (S n) updated_min w).1 = Ret (Some []).
Proof.
  unfold list_updated_events. destruct (_ || _); [done|].
  destruct (total_run (effective_updated_min E updated_min) w)
    as (um & w0 & Heff); [total_go|].
  rewrite (bind_ret _ _ _ _ _ Heff). unfold try_except.
  destruct (list_pages_raises (Some um) None [] w0) as [exc ->].
  destruct (_ || _); [| done].
  unfold fetch_all_without_updated_min.
  rewrite bind_log.
  destruct (list_pages_raises None None []
              (push_log (Log WARNING
                 "Retrying without updatedMin due to 410 updatedMinTooLongAgo"
                 []) (push_call (GcalEventsList (Some um) true None) w0)))
    as [exc2 ->].
  done.
Qed.

Lemma list_updated_events_fails (F : frame) (updated_min : option string) :
  sat (fun c => is_listing_or_cursor c = true) F
      (list_updated_events E (S n) updated_min) (fun r => r = Some []).
Proof.
  intros w. split.
  - destruct (list_updated_events_listing_only E F (S n) updated_min w)
      as [[(new & Ht & Hnew) HF] _].
    split; [| done]. exists new. split; [done|].
    eapply Forall_impl; [exact Hnew|]. by intros [].
  - intros a Ha. rewrite list_updated_events_empty in Ha. congruence.
Qed.

Hypothesis configured : sync_configured (cfg E).


(** The pass lists, reconciles nothing and writes the cursor. *)
Lemma sync_calendar_listing_fails :
  sat (fun c => is_listing_or_cursor c = true) lock_frame
      (sync_calendar E (S n)) (fun r => r = Some true).
Proof.
  destruct configured as (Ht & Hi & Hc).
  unfold sync_calendar. rewrite Ht, Hi, Hc. cbn [andb negb].
  apply sat_bind_top; [sat_go | intros w0].
  apply sat_bind_top; [sat_go | intros _].
  eapply sat_bind; [apply list_updated_events_fails |].
  intros listed ->. cbn [upsert_all omap list_omap].
  apply sat_bind_top; [sat_go | intros _].
  rewrite bind_ret_l.
  apply sat_bind_top; [sat_go | intros next_cursor].
  apply sat_bind_top; [sat_go | intros _].
  apply sat_bind_top; [sat_go | intros _].
  by apply sat_ret.
Qed.

Lemma sync_calendar_succeeds (w : world) :
  cursor_saved E -> (sync_calendar E (S n) w).1 = Ret (Some true).
Proof.
  intros Hsave. rewrite (sync_calendar_steps _ _ _ configured).
  set (w0 := push_log _ w).
  pose proof (list_updated_events_empty (sync_state_file w) w0) as Hl.
  destruct (list_updated_events E (S n) (sync_state_file w) w0)
    as [r w1] eqn:Hlist.
  cbn [fst] in Hl. subst r.
  rewrite (bind_ret _ _ _ _ _ Hlist).
  rewrite bind_log. cbn [upsert_all omap list_omap]. rewrite bind_ret_l.
  cbv beta iota delta [bind read_clock ret save_sync_state perform modify log
                        fst snd].
  match goal with
  | |- context [respond E ?h ?c] =>
      destruct (respond E h c) as [exc | status b] eqn:Hr
  end.
  - by destruct (Hsave _ _ _ Hr).
  - reflexivity.
Qed.

End ListingFails.

(** *** The coordinator and the HTTP surface *)

(** The body of the [try] block of [run_sync_guarded]. *)
Lemma run_sync_guarded_pass (E : env) (fuel : nat) (source : string)
    (w : world) :
  cooldown_elapsed E w ->
  sync_lock w = false ->
  run_sync_guarded E fuel source w =
    try_finally
      (bind (sync_calendar E fuel)
         (fun synced =>
            match synced with
            | None => ret None
            | Some synced =>
                bind (read_clock E)
                  (fun t =>
                     bind (modify (set_sync_last_run_epoch t))
                          (fun _ => ret (Some (synced, "done"))))
            end))
      release (set_sync_lock true (tick_clock w)).
Proof.
  intros Hcool Hlock. unfold run_sync_guarded, bind at 1, read_clock at 1.
  unfold bind at 1, get_world. cbn [sync_last_run_epoch tick_clock].
  apply Z.ltb_ge in Hcool. rewrite Hcool.
  unfold bind at 1, acquire_nonblocking. cbn [sync_lock tick_clock].
  by rewrite Hlock.
Qed.

Lemma run_sync_guarded_done (E : env) (fuel : nat) (source : string)
    (w w2 : world) (synced : bool) :
  cooldown_elapsed E w ->
  sync_lock w = false ->
  sync_calendar E fuel (set_sync_lock true (tick_clock w))
    = (Ret (Some synced), w2) ->
  run_sync_guarded E fuel source w =
    (Ret (Some (synced, "done")),
     set_sync_lock false
       (set_sync_last_run_epoch (Webhook.clock E (trace w2) (clock_reads w2))
          (tick_clock w2))).
Proof.
  intros Hcool Hlock Hsync. rewrite run_sync_guarded_pass by done.
  unfold try_finally. by rewrite (bind_ret _ _ _ _ _ Hsync).
Qed.

Lemma run_sync_guarded_raises (E : env) (fuel : nat) (source : string)
    (w w2 : world) (exc : string) :
  cooldown_elapsed E w ->
  sync_lock w = false ->
  sync_calendar E fuel (set_sync_lock true (tick_clock w)) = (Raise exc, w2) ->
  run_sync_guarded E fuel source w = (Raise exc, set_sync_lock false w2).
Proof.
  intros Hcool Hlock Hsync. rewrite run_sync_guarded_pass by done.
  unfold try_finally. by rewrite (bind_raise _ _ _ _ _ Hsync).
Qed.

Lemma run_sync_guarded_running (E : env) (fuel : nat) (source : string)
    (w w2 : world) :
  cooldown_elapsed E w ->
  sync_lock w = false ->
  sync_calendar E fuel (set_sync_lock true (tick_clock w)) = (Ret None, w2) ->
  run_sync_guarded E fuel source w = (Ret None, w2).
Proof.
  intros Hcool Hlock Hsync. rewrite run_sync_guarded_pass by done.
  unfold try_finally. by rewrite (bind_ret _ _ _ _ _ Hsync).
Qed.

(** A trigger is either turned away or runs a pass. *)
Lemma cooldown_cases (E : env) (w : world) :
  Webhook.clock E (trace w) (clock_reads w) - sync_last_run_epoch w
    < Z.max 0 (SYNC_COOLDOWN_SECONDS (cfg E))
  \/ cooldown_elapsed E w.
Proof. unfold cooldown_elapsed. lia. Qed.

(** Guaranteed cleanup: a trigger that finds the lock free leaves it
    free, whether the pass returns or raises. *)
Lemma run_sync_guarded_releases (E : env) (fuel : nat) (source : string)
    (w : world) :
  sync_lock w = false ->
  (run_sync_guarded E fuel source w).1 <> Ret None ->
  sync_lock (run_sync_guarded E fuel source w).2 = false.
Proof.
  intros Hlock Hret.
  destruct (cooldown_cases E w) as [Hcool | Hcool].
  - by rewrite run_sync_guarded_cooldown.
  - destruct (sync_calendar E fuel (set_sync_lock true (tick_clock w)))
      as [[[synced|] | exc] w2] eqn:Hsync.
    + by rewrite (run_sync_guarded_done _ _ _ _ _ _ Hcool Hlock Hsync).
    + by rewrite (run_sync_guarded_running _ _ _ _ _ Hcool Hlock Hsync) in Hret.
    + by rewrite (run_sync_guarded_raises _ _ _ _ _ _ Hcool Hlock Hsync).
Qed.

(** The duplicate check touches the duplicate guard and the log only. *)
Lemma check_duplicate_run (E : env) (channel number : option string)
    (w : world) :
  exists duplicate w',
    check_duplicate E channel number w = (Ret duplicate, w') /\
    trace w' = trace w /\ clock_reads w' = clock_reads w /\
    sync_lock w' = sync_lock w /\
    sync_last_run_epoch w' = sync_last_run_epoch w.
Proof.
  unfold check_duplicate. destruct (_ && _); [| by eexists _, _].
  cbv zeta. unfold bind, register_message_id.
  destruct (negb _); [by eexists _, _|].
  destruct (bool_decide _); by eexists _, _.
Qed.

(** The status of [gcal_webhook] for a pass that is turned away or that
    succeeds, and of [manual_sync]. *)
Lemma gcal_webhook_status (E : env) (fuel : nat)
    (channel number state : option string) (w : world) :
  (forall w', trace w' = trace w -> clock_reads w' = clock_reads w ->
     sync_lock w' = sync_lock w ->
     sync_last_run_epoch w' = sync_last_run_epoch w ->
     exists reason w'',
       run_sync_guarded E fuel "webhook" w' = (Ret (Some (true, reason)), w'')) ->
  (gcal_webhook E fuel channel number state w).1 = Ret (Some ("", 204)).
Proof.
  intros Hrun. unfold gcal_webhook.
  destruct (check_duplicate_run E channel number w)
    as (duplicate & w' & Hdup & Ht & Hc & Hl & He).
  rewrite (bind_ret _ _ _ _ _ Hdup).
  destruct duplicate; [done|]. rewrite bind_log.
  destruct (Hrun (push_log
                    (Log INFO "Webhook received mode=direct ch=%s state=%s msg=%s"
                         [fmt channel; fmt state; fmt number]) w'))
    as (reason & w'' & Hr); try done.
  rewrite (bind_ret _ _ _ _ _ Hr). by destruct (String.eqb reason "done").
Qed.

Lemma manual_sync_status (E : env) (fuel : nat) (w w' : world)
    (reason : string) :
  run_sync_guarded E fuel "manual" w = (Ret (Some (true, reason)), w') ->
  (manual_sync E fuel w).1 = Ret (Some ("ok", 200)).
Proof.
  intros Hr. unfold manual_sync. by rewrite (bind_ret _ _ _ _ _ Hr).
Qed.

(** A trigger that is turned away is answered with success. *)
Lemma skipped_pass_status (E : env) (fuel : nat)
    (channel number state : option string) (w : world) :
  (Webhook.clock E (trace w) (clock_reads w) - sync_last_run_epoch w
     < Z.max 0 (SYNC_COOLDOWN_SECONDS (cfg E))
   \/ sync_lock w = true) ->
  (gcal_webhook E fuel channel number state w).1 = Ret (Some ("", 204)) /\
  (manual_sync E fuel w).1 = Ret (Some ("ok", 200)).
Proof.
  intros Hskip.
  assert (Hturned : forall source w',
            trace w' = trace w -> clock_reads w' = clock_reads w ->
            sync_lock w' = sync_lock w ->
            sync_last_run_epoch w' = sync_last_run_epoch w ->
            exists reason w'',
              run_sync_guarded E fuel source w'
                = (Ret (Some (true, reason)), w'')).
  { intros source w' Ht Hc Hl He.
    destruct (cooldown_cases E w') as [Hcool | Hcool].
    - eexists _, _. by apply run_sync_guarded_cooldown.
    - eexists _, _. apply run_sync_guarded_in_progress; [done|].
      destruct Hskip as [Hlt | Hheld]; [| congruence].
      unfold cooldown_elapsed in Hcool. rewrite Ht, Hc, He in Hcool. lia. }
  split.
  - apply gcal_webhook_status. apply Hturned.
  - destruct (Hturned "manual" w) as (reason & w'' & Hr); try done.
    by eapply manual_sync_status.
Qed.

(** C6 (amended). When every listing of the calendar raises,
    [list_updated_events] swallows the error and returns no event; an
    attempted pass then sends nothing but listing requests and the write
    of the cursor (no event is reconciled), the lock is free when
    [run_sync_guarded] returns or raises, and the pass counts as a
    success: [run_sync_guarded] returns [(True, "done")] unless the write
    of the cursor raises, the webhook answers 204 and the manual endpoint
    200. In every environment a trigger that finds the lock free leaves it
    free (the [finally] clause), and a trigger that is turned away by the
    cooldown or by a running pass is answered with success (204, 200). *)
Theorem failed_listing_pass (E : env) (n : nat) :
  sync_configured (cfg E) ->
  listing_fails E ->
  (forall updated_min w,
     (list_updated_events E (S n) updated_min w).1 = Ret (Some [])) /\
  (forall source w,
     sync_lock w = false -> cooldown_elapsed E w ->
     let r := run_sync_guarded E (S n) source w in
     Forall (fun c => is_listing_or_cursor c = true) (calls_since w r.2) /\
     sync_lock r.2 = false /\
     (r.1 = Ret (Some (true, "done")) \/ exists exc, r.1 = Raise exc) /\
     (cursor_saved E -> r.1 = Ret (Some (true, "done")))) /\
  (forall channel number state w,
     sync_lock w = false -> cooldown_elapsed E w -> cursor_saved E ->
     (gcal_webhook E (S n) channel number state w).1 = Ret (Some ("", 204)) /\
     (manual_sync E (S n) w).1 = Ret (Some ("ok", 200))) /\
  (forall (E' : env) fuel source w,
     sync_lock w = false ->
     (run_sync_guarded E' fuel source w).1 <> Ret None ->
     sync_lock (run_sync_guarded E' fuel source w).2 = false) /\
  (forall (E' : env) fuel channel number state w,
     (Webhook.clock E' (trace w) (clock_reads w) - sync_last_run_epoch w
        < Z.max 0 (SYNC_COOLDOWN_SECONDS (cfg E'))
      \/ sync_lock w = true) ->
     (gcal_webhook E' fuel channel number state w).1 = Ret (Some ("", 204)) /\
     (manual_sync E' fuel w).1 = Ret (Some ("ok", 200))).
Proof.
  intros Hcfg Hfail.
  assert (Hpass : forall source w,
            sync_lock w = false -> cooldown_elapsed E w ->
            let r := run_sync_guarded E (S n) source w in
            Forall (fun c => is_listing_or_cursor c = true)
                   (calls_since w r.2) /\
            sync_lock r.2 = false /\
            (r.1 = Ret (Some (true, "done")) \/ exists exc, r.1 = Raise exc) /\
            (cursor_saved E -> r.1 = Ret (Some (true, "done")))).
  { intros source w Hlock Hcool r. subst r.
    set (w1 := set_sync_lock true (tick_clock w)).
    destruct (sync_calendar_listing_fails E n Hfail Hcfg w1) as [Hf HQ].
    pose proof (sync_calendar_succeeds E n Hfail Hcfg w1) as Hok.
    destruct (sync_calendar E (S n) w1) as [[[synced|] | exc] w2] eqn:Hsync;
      cbn [fst snd] in *.
    - specialize (HQ _ eq_refl). injection HQ as ->.
      rewrite (run_sync_guarded_done _ _ _ _ _ _ Hcool Hlock Hsync).
      cbn [fst snd]. split; [| by eauto].
      destruct Hf as [(new & Ht & Hnew) _].
      by rewrite (calls_since_app w _ new).
    - by specialize (HQ _ eq_refl).
    - rewrite (run_sync_guarded_raises _ _ _ _ _ _ Hcool Hlock Hsync).
      cbn [fst snd]. split; [| split; [done | split; [by eauto |]]].
      + destruct Hf as [(new & Ht & Hnew) _].
        by rewrite (calls_since_app w _ new).
      + intros Hsave. by specialize (Hok Hsave). }
  split; [| split; [exact Hpass | split; [| split]]].
  - intros updated_min w. by apply list_updated_events_empty.
  - intros channel number state w Hlock Hcool Hsave. split.
    + apply gcal_webhook_status. intros w' Ht Hc Hl He.
      destruct (Hpass "webhook" w') as (_ & _ & _ & Hdone).
      * congruence.
      * unfold cooldown_elapsed in *. by rewrite Ht, Hc, He.
      * specialize (Hdone Hsave).
        destruct (run_sync_guarded E (S n) "webhook" w') as [r w''].
        cbn in Hdone. subst r. by eexists _, _.
    + destruct (Hpass "manual" w Hlock Hcool) as (_ & _ & _ & Hdone).
      specialize (Hdone Hsave).
      destruct (run_sync_guarded E (S n) "manual" w) as [r w''] eqn:Hr.
      cbn in Hdone. subst r. by eapply manual_sync_status.
  - intros E' fuel source w. apply run_sync_guarded_releases.
  - intros E' fuel channel number state w. apply skipped_pass_status.
Qed.

Lemma respond_listing_down_fails (t : Z) :
  listing_fails (Fixtures.env_of Fixtures.respond_listing_down t).
Proof. intros h updated_min page_token. by eexists. Qed.

(** The calendar answers every listing with a server error; the process
    has never run a pass, and its clock reads 2024-02-25. *)
Lemma failed_listing_pass_witness :
  let E := Fixtures.env_of Fixtures.respond_listing_down Fixtures.feb_25 in
  (gcal_webhook E 5 (Some "channel") (Some "1") (Some "exists")
                Fixtures.world0).1 = Ret (Some ("", 204)) /\
  (manual_sync E 5 Fixtures.world0).1 = Ret (Some ("ok", 200)).
Proof.
  intros E.
  destruct (failed_listing_pass E 4) as (_ & _ & Hstatus & _).
  - by vm_compute.
  - apply respond_listing_down_fails.
  - apply Hstatus.
    + reflexivity.
    + by vm_compute.
    + intros h cursor exc. done.
Defined.

(** C6 (as stated) fails for the status of a pass whose listing failed.
    The only listing request of the pass raises; the pass reconciles
    nothing, writes the cursor, and is reported as a success:
    [run_sync_guarded] returns [(True, "done")], the webhook answers 204
    and the manual endpoint 200. *)
Lemma failed_listing_returns_success :
  let E := Fixtures.env_of Fixtures.respond_listing_down Fixtures.feb_25 in
  let w := Fixtures.world0 in
  (list_pages E 5 (Some "2024-01-26T00:00:00+00:00") None [] w).1 =
    Raise "<HttpError 500 when requesting events returned Backend Error>" /\
  calls_since w (run_sync_guarded E 5 "webhook" w).2 =
    [ GcalEventsList (Some "2024-01-26T00:00:00+00:00") true None;
      SaveSyncState "2024-02-25T00:00:00+00:00" ] /\
  (run_sync_guarded E 5 "webhook" w).1 = Ret (Some (true, "done")) /\
  (gcal_webhook E 5 (Some "channel") (Some "1") (Some "exists") w).1 =
    Ret (Some ("", 204)) /\
  (manual_sync E 5 w).1 = Ret (Some ("ok", 200)).
Proof. by vm_compute. Qed.

(** ** Recovery of the cursor *)

Section Monotone.

Context (P : call -> Prop) (F : frame).

Lemma bind_snd_follows {A B} (m : M A) (k : A -> M B) (w : world) :
  (forall a, sat P F (k a) (fun _ => True)) ->
  follows P F (m w).2 (bind m k w).2.
Proof.
  intros Hk. unfold bind. destruct (m w) as [[a | exc] w1]; cbn [snd].
  - apply Hk.
  - apply follows_refl.
Qed.

Lemma try_except_snd_follows {A} (m : M A) (h : string -> M A) (w : world) :
  (forall exc, sat P F (h exc) (fun _ => True)) ->
  follows P F (m w).2 (try_except m h w).2.
Proof.
  intros Hh. unfold try_except. destruct (m w) as [[a | exc] w1]; cbn [snd].
  - apply follows_refl.
  - apply Hh.
Qed.

Lemma follows_elem_of (c : call) (w w' : world) :
  follows P F w w' -> c ∈ trace w -> c ∈ trace w'.
Proof.
  intros [(new & -> & _) _] Hc. apply elem_of_app. by left.
Qed.

End Monotone.

Lemma perform_snd (E : env) (c : call) (w : world) :
  (perform E c w).2 = push_call c w.
Proof. unfold perform. by destruct (respond E (trace w) c). Qed.

Lemma upsert_event_any (E : env) (ev : gevent) :
  sat (fun _ => True) any_frame (upsert_event E ev) (fun _ => True).
Proof. sat_go. Qed.

Lemma upsert_all_any (E : env) (events : list gevent) (had_error : bool) :
  sat (fun _ => True) any_frame (upsert_all E events had_error)
      (fun _ => True).
Proof. apply sat_upsert_all. apply upsert_event_any. Qed.

Lemma list_pages_any (E : env) fuel um tok evs :
  sat (fun _ => True) any_frame (list_pages E fuel um tok evs) (fun _ => True).
Proof. by apply sat_list_pages. Qed.

#[export] Hint Resolve upsert_all_any list_pages_any : sat.

(** The loop over the events never raises. *)
Lemma upsert_all_total (E : env) (events : list gevent) (had_error : bool) :
  total (upsert_all E events had_error).
Proof.
  revert had_error.
  induction events as [| ev events IH]; intros had_error; cbn [upsert_all].
  - apply total_ret.
  - apply total_bind; [| intros ?; apply IH].
    intros w. unfold try_except, bind.
    destruct (upsert_event E ev w) as [[[] | exc] w1]; by eexists.
Qed.

Lemma bind_ext {A B} (m : M A) (k1 k2 : A -> M B) (w : world) :
  (forall a w', k1 a w' = k2 a w') -> bind m k1 w = bind m k2 w.
Proof. intros Hk. unfold bind. by destruct (m w) as [[] ?]. Qed.

Lemma upsert_all_app (E : env) (l1 l2 : list gevent) (had_error : bool)
    (w : world) :
  upsert_all E (l1 ++ l2) had_error w =
    bind (upsert_all E l1 had_error) (fun b => upsert_all E l2 b) w.
Proof.
  revert had_error w.
  induction l1 as [| ev l1 IH]; intros had_error w; cbn [app upsert_all].
  - done.
  - rewrite bind_assoc. apply bind_ext. intros failed w1. apply IH.
Qed.


Section Recovery.

Context (E : env).
Hypothesis service : calendar_service E = true.
Hypothesis calendar : Py.truthy_opt (GOOGLE_CALENDAR_ID (cfg E)) = true.

(** The handler of [list_updated_events] for an error of the listing. *)
Lemma list_updated_events_run (fuel : nat) (updated_min : option string)
    (um : string) (w w0 : world) :
  effective_updated_min E updated_min w = (Ret um, w0) ->
  list_updated_events E fuel updated_min w =
    try_except (list_pages E fuel (Some um) None [])
      (fun exc =>
         if Py.contains "updatedMinTooLongAgo" exc || Py.contains " 410 " exc
         then
           try_except (fetch_all_without_updated_min E fuel)
             (fun retry_exc =>
                bind (log ERROR "Google event list retry failed: %s"
                          [retry_exc])
                     (fun _ => ret (Some [])))
         else
           bind (log ERROR "Google event list failed: %s" [exc])
                (fun _ => ret (Some []))) w0.
Proof.
  intros Heff. unfold list_updated_events. rewrite service, calendar.
  cbn [negb orb]. by rewrite (bind_ret _ _ _ _ _ Heff).
Qed.

(** Without a cursor, the first request is a listing of the changes of
    the last thirty days. *)
Lemma first_run_lookback (n : nat) (updated_min : option string) (w : world) :
  Py.truthy_opt updated_min = false ->
  exists rest,
    calls_since w (list_updated_events E (S n) updated_min w).2 =
      GcalEventsList
        (Some (isoformat E
                 (dt_add (utc_datetime
                            (Webhook.clock E (trace w) (clock_reads w)))
                         (- timedelta_days 30))))
        true None :: rest.
Proof.
  intros Hum.
  set (um := isoformat E _).
  assert (Heff : effective_updated_min E updated_min w = (Ret um, tick_clock w)).
  { unfold effective_updated_min. by rewrite Hum. }
  rewrite (list_updated_events_run _ _ _ _ _ Heff).
  set (c := GcalEventsList (Some um) true None).
  match goal with
  | |- context [try_except (list_pages _ _ _ _ _) ?h0] => set (h := h0)
  end.
  assert (Hh : forall exc, sat (fun _ => True) any_frame (h exc) (fun _ => True))
    by (intros exc; subst h; cbv beta; sat_go).
  pose proof (try_except_snd_follows (fun _ => True) any_frame
                (list_pages E (S n) (Some um) None []) h (tick_clock w) Hh)
    as H1.
  cbn [list_pages] in H1 |- *. fold c in H1 |- *.
  assert (H2 : follows (fun _ => True) any_frame
                 (perform E c (tick_clock w)).2
                 ((bind (perform E c)
                     (fun r =>
                        match r.2 with
                        | BGcalEvents items next_page_token =>
                            if negb (Py.truthy_opt next_page_token)
                            then ret (Some ([] ++ items))
                            else list_pages E n (Some um) next_page_token
                                   ([] ++ items)
                        | _ => raise "AttributeError"
                        end)) (tick_clock w)).2).
  { apply bind_snd_follows. intros r. sat_go. }
  rewrite perform_snd in H2.
  pose proof (follows_trans _ _ _ _ _ H2 H1) as [(rest & Ht & _) _].
  exists rest. apply calls_since_app. rewrite Ht. cbn [push_call trace tick_clock].
  by rewrite <- (assoc_L (++)).
Qed.

(** When the calendar rejects the cursor as too old, the result of the
    full listing is the result of [list_updated_events]. *)
Lemma cursor_too_old_fallback (fuel : nat) (cur : option string) (um : string)
    (w w0 w1 w2 : world) (exc : string) (evs : list gevent) :
  effective_updated_min E cur w = (Ret um, w0) ->
  list_pages E fuel (Some um) None [] w0 = (Raise exc, w1) ->
  cursor_too_old exc = true ->
  fetch_all_without_updated_min E fuel w1 = (Ret (Some evs), w2) ->
  list_updated_events E fuel cur w = (Ret (Some evs), w2) /\
  Forall (fun c => is_full_listing c = true) (calls_since w1 w2).
Proof.
  intros Heff Hlist Hold Hfull. split.
  - rewrite (list_updated_events_run _ _ _ _ _ Heff).
    unfold try_except at 1. rewrite Hlist.
    unfold cursor_too_old in Hold. rewrite Hold.
    unfold try_except. by rewrite Hfull.
  - assert (Hsat : sat (fun c => is_full_listing c = true) any_frame
                     (fetch_all_without_updated_min E fuel) (fun _ => True)).
    { unfold fetch_all_without_updated_min.
      apply sat_bind_top; [sat_go | intros _]. by apply sat_list_pages. }
    pose proof (sat_follows _ _ _ _ w1 Hsat) as Hf. rewrite Hfull in Hf.
    by eapply follows_calls_since.
Qed.

End Recovery.

(** The archive request is the first request of [notion_archive_page]. *)
Lemma notion_archive_page_first (E : env) (p : page) (w : world) :
  trace (notion_archive_page E (Some p) w).2 =
    trace w ++ [NotionArchivePage (pg_id p)].
Proof.
  unfold notion_archive_page, bind, perform.
  destruct (respond E (trace w) (NotionArchivePage (pg_id p))); [done|].
  cbn [fst snd]. by destruct (negb _).
Qed.

(** A cancelled event of the listing whose page of the internal database
    is resolved has that page archived by the pass. *)
Lemma cancelled_in_listing_is_archived (E : env) (fuel : nat)
    (w w1 wb wc : world) (l1 l2 : list gevent) (ev : gevent) (gid : string)
    (p : page) (q : option page) :
  sync_configured (cfg E) ->
  list_updated_events E fuel (sync_state_file w)
    (push_log (Log INFO "Sync start updated_min=%s" [fmt (sync_state_file w)])
              w)
    = (Ret (Some (l1 ++ ev :: l2)), w1) ->
  ev_id ev = Some gid -> gid <> "" ->
  ev_status ev = Some "cancelled" ->
  resolve_internal_page E gid
    (upsert_all E l1 false
       (push_log (Log INFO "Google events fetched: %d" []) w1)).2
    = (Ret (Some p), wb) ->
  resolve_external_page E gid wb = (Ret q, wc) ->
  NotionArchivePage (pg_id p) ∈ trace (sync_calendar E fuel w).2.
Proof.
  intros Hcfg Hlist Hid Hgid Hst Hint Hext.
  rewrite (sync_calendar_steps _ _ _ Hcfg), (bind_ret _ _ _ _ _ Hlist), bind_log.
  set (w1' := push_log _ w1) in *.
  eapply follows_elem_of.
  { apply (bind_snd_follows (fun _ => True) any_frame). intros had_error. sat_go. }
  rewrite upsert_all_app.
  destruct (total_run (upsert_all E l1 false) w1' (upsert_all_total _ _ _))
    as (b1 & wa & Hl1).
  rewrite Hl1 in Hint. cbn [snd] in Hint.
  rewrite (bind_ret _ _ _ _ _ Hl1). cbn [upsert_all].
  eapply follows_elem_of.
  { apply (bind_snd_follows (fun _ => True) any_frame). intros failed.
    apply upsert_all_any. }
  eapply follows_elem_of.
  { apply (try_except_snd_follows (fun _ => True) any_frame). intros exc. sat_go. }
  eapply follows_elem_of.
  { apply (bind_snd_follows (fun _ => True) any_frame). intros []. sat_go. }
  assert (Hrun : upsert_event E ev wa =
                 upsert_cancelled E ev gid (Some p) q wc).
  { unfold upsert_event. rewrite Hid. cbn [Py.truthy_opt default from_option id].
    apply truthy_true in Hgid as ->. cbn [negb].
    rewrite (bind_ret _ _ _ _ _ Hint), (bind_ret _ _ _ _ _ Hext).
    by rewrite Hst, bool_decide_eq_true_2. }
  rewrite Hrun. unfold upsert_cancelled.
  eapply follows_elem_of.
  { apply (bind_snd_follows (fun _ => True) any_frame). intros []. sat_go. }
  eapply follows_elem_of.
  { apply (bind_snd_follows (fun _ => True) any_frame). intros b. sat_go. }
  rewrite notion_archive_page_first. apply elem_of_app. right.
  apply list_elem_of_singleton. done.
Qed.



(** The requests of that pass. *)
Example cursor_recovery_trace :
  trace (sync_calendar
           (Fixtures.env_of Fixtures.respond_expired Fixtures.feb_25) 5
           Fixtures.world_cursor).2 =
  [ GcalEventsList (Some "2023-12-31T23:58:00+00:00") true None;
    GcalEventsList None true None;
    NotionGetPage "page-int"; NotionGetPage "page-ext";
    NotionArchivePage "page-int"; NotionArchivePage "page-ext";
    DiscordApi "DELETE" "/guilds/guild/scheduled-events/discord-1" None;
    SaveSyncState "2024-02-26T00:00:00+00:00" ].
Proof. by vm_compute. Qed.


(** * Further properties of the webhook service *)

Import Vocabulary.

Lemma bind_inv {A B} (m : M A) (k : A -> M B) (w w' : world) (b : B) :
  bind m k w = (Ret b, w') ->
  exists a w1, m w = (Ret a, w1) /\ k a w1 = (Ret b, w').
Proof.
  unfold bind. destruct (m w) as [[a | exc] w1]; [| done]. by exists a, w1.
Qed.

(** ** The correlation maps *)

(** X1. The correlation map of a Notion database is a map: once a page id
    is recorded for a calendar event ([set_notion_page_id_by_google_id],
    both ids non-empty), the lookup returns it; the entries of the other
    events and of the other database, and the map of Discord, are
    untouched; and after [remove_notion_page_id_by_google_id] the lookup
    returns [None]. *)
Theorem notion_map_round_trip (gid pid : string) (sc : scope) (w : world) :
  gid <> "" -> pid <> "" ->
  let w1 := (set_notion_page_id_by_google_id gid pid sc w).2 in
  (get_notion_page_id_by_google_id gid sc w1).1 = Ret (Some pid) /\
  (forall gid' sc', (gid', sc') <> (gid, sc) ->
     (get_notion_page_id_by_google_id gid' sc' w1).1 =
     (get_notion_page_id_by_google_id gid' sc' w).1) /\
  (get_notion_page_id_by_google_id gid sc
     (remove_notion_page_id_by_google_id gid sc w1).2).1 = Ret None /\
  gcal_discord_map w1 = gcal_discord_map w.
Proof.
  intros Hg Hp w1. subst w1.
  apply truthy_true in Hg, Hp.
  unfold set_notion_page_id_by_google_id, get_notion_page_id_by_google_id,
    remove_notion_page_id_by_google_id.
  rewrite Hg, Hp. cbn [negb orb modify snd fst].
  repeat split.
  - destruct sc; cbn; by rewrite lookup_insert_eq.
  - intros gid' sc' Hne. destruct (negb (Py.truthy gid')); [done|].
    f_equal.
    destruct sc, sc'; cbn; try done;
      (rewrite lookup_insert_ne; [done | congruence]).
  - destruct sc; cbn; by rewrite lookup_delete_eq.
  - by destruct sc.
Qed.

(** The page ["page-int"] of the event ["evt-1"] in the internal
    database. *)
Lemma notion_map_round_trip_witness :
  let w := Fixtures.world0 in
  let w1 := (set_notion_page_id_by_google_id "evt-1" "page-int" internal w).2 in
  (get_notion_page_id_by_google_id "evt-1" internal w1).1
    = Ret (Some "page-int") /\
  (forall gid' sc', (gid', sc') <> ("evt-1", internal) ->
     (get_notion_page_id_by_google_id gid' sc' w1).1 =
     (get_notion_page_id_by_google_id gid' sc' w).1) /\
  (get_notion_page_id_by_google_id "evt-1" internal
     (remove_notion_page_id_by_google_id "evt-1" internal w1).2).1
    = Ret None /\
  gcal_discord_map w1 = gcal_discord_map w.
Proof.
  apply (notion_map_round_trip "evt-1" "page-int" internal Fixtures.world0);
    done.
Defined.

(** X2. The correlation map of Discord is a map as well: a recorded
    Discord event id is returned by the lookup, the other entries are
    untouched, and the entry is gone after
    [remove_discord_event_id_by_google_id]. An empty id on either side is
    never recorded, and the empty calendar id is never looked up or
    removed. *)
Theorem discord_map_round_trip (gid d : string) (w : world) :
  gid <> "" -> d <> "" ->
  let w1 := (set_discord_event_id_by_google_id gid d w).2 in
  (get_discord_event_id_by_google_id gid w1).1 = Ret (Some d) /\
  (forall gid', gid' <> gid ->
     (get_discord_event_id_by_google_id gid' w1).1 =
     (get_discord_event_id_by_google_id gid' w).1) /\
  (get_discord_event_id_by_google_id gid
     (remove_discord_event_id_by_google_id gid w1).2).1 = Ret None /\
  (forall x, set_discord_event_id_by_google_id x "" w = (Ret tt, w) /\
             set_discord_event_id_by_google_id "" x w = (Ret tt, w) /\
             remove_discord_event_id_by_google_id "" w = (Ret tt, w) /\
             (get_discord_event_id_by_google_id "" w).1 = Ret None).
Proof.
  intros Hg Hd w1. subst w1.
  apply truthy_true in Hg, Hd.
  unfold set_discord_event_id_by_google_id, get_discord_event_id_by_google_id,
    remove_discord_event_id_by_google_id.
  rewrite Hg, Hd. cbn [negb orb modify snd fst].
  repeat split.
  - cbn. by rewrite lookup_insert_eq.
  - intros gid' Hne. destruct (negb (Py.truthy gid')); [done|].
    cbn. by rewrite lookup_insert_ne.
  - cbn. by rewrite lookup_delete_eq.
  - cbn. by rewrite orb_true_r.
Qed.

(** The Discord event ["discord-1"] of the event ["evt-1"]. *)
Lemma discord_map_round_trip_witness :
  let w := Fixtures.world0 in
  let w1 := (set_discord_event_id_by_google_id "evt-1" "discord-1" w).2 in
  (get_discord_event_id_by_google_id "evt-1" w1).1 = Ret (Some "discord-1") /\
  (forall gid', gid' <> "evt-1" ->
     (get_discord_event_id_by_google_id gid' w1).1 =
     (get_discord_event_id_by_google_id gid' w).1) /\
  (get_discord_event_id_by_google_id "evt-1"
     (remove_discord_event_id_by_google_id "evt-1" w1).2).1 = Ret None /\
  (forall x, set_discord_event_id_by_google_id x "" w = (Ret tt, w) /\
             set_discord_event_id_by_google_id "" x w = (Ret tt, w) /\
             remove_discord_event_id_by_google_id "" w = (Ret tt, w) /\
             (get_discord_event_id_by_google_id "" w).1 = Ret None).
Proof.
  apply (discord_map_round_trip "evt-1" "discord-1" Fixtures.world0); done.
Defined.

(** ** Rules for the coordinator *)

Section Coordination.

Context (E : env) (P : call -> Prop) (F : frame).
Hypothesis lock_ok : forall w b, F w (set_sync_lock b w).
Hypothesis epoch_ok : forall w t, F w (set_sync_last_run_epoch t w).

Lemma sat_try_finally {A} (m : M (option A)) (f : M unit) :
  sat P F m (fun _ => True) -> sat P F f (fun _ => True) ->
  sat P F (try_finally m f) (fun _ => True).
Proof.
  intros Hm Hf w. split; [| done]. unfold try_finally.
  destruct (Hm w) as [H1 _]. destruct (m w) as [r w1]. cbn [snd] in H1.
  assert (H2 : follows P F w (f w1).2).
  { eapply follows_trans; [exact H1 | apply Hf]. }
  destruct r as [[a|] | exc]; [| done |]; by destruct (f w1) as [[[] | ?] ?].
Qed.

Lemma sat_acquire_nonblocking : sat P F acquire_nonblocking (fun _ => True).
Proof.
  intros w. split; [| done]. unfold acquire_nonblocking.
  destruct (sync_lock w); [apply follows_refl|].
  apply follows_same_trace; [done | apply lock_ok].
Qed.

(** What holds of the requests and of the globals of a pass holds of the
    guarded run. *)
Lemma sat_run_sync_guarded (fuel : nat) (source : string) :
  sat P F (sync_calendar E fuel) (fun _ => True) ->
  sat P F (run_sync_guarded E fuel source) (fun _ => True).
Proof.
  intros Hsync. pose proof sat_acquire_nonblocking as Hacq.
  unfold run_sync_guarded.
  apply sat_bind_top; [apply sat_read_clock | intros now].
  apply sat_bind_top; [apply sat_get_world | intros w0].
  destruct (_ <? _); [sat_go|].
  apply sat_bind_top; [exact Hacq | intros locked].
  destruct (negb locked); [sat_go|].
  apply sat_try_finally.
  - apply sat_bind_top; [exact Hsync | intros [synced|]]; [| sat_go].
    apply sat_bind_top; [apply sat_read_clock | intros t].
    apply sat_bind_top; [| intros _; by apply sat_ret].
    apply sat_modify; [done | done | intros w; apply epoch_ok].
  - unfold release. apply sat_modify; [done | done | intros w; apply lock_ok].
Qed.

End Coordination.

(** ** The correlation maps hold no empty id *)

Lemma ids_nonempty_insert (m : gmap string string) (k v : string) :
  Py.truthy k = true -> Py.truthy v = true ->
  ids_nonempty m -> ids_nonempty (<[k := v]> m).
Proof.
  intros Hk Hv Hm k' v'. destruct (decide (k = k')) as [<- |].
  - rewrite lookup_insert_eq. intros [= <-]. split; by apply truthy_true.
  - rewrite lookup_insert_ne by done. apply Hm.
Qed.

Lemma ids_nonempty_delete (m : gmap string string) (k : string) :
  ids_nonempty m -> ids_nonempty (delete k m).
Proof.
  intros Hm k' v'. destruct (decide (k = k')) as [<- |].
  - by rewrite lookup_delete_eq.
  - rewrite lookup_delete_ne by done. apply Hm.
Qed.

Lemma set_notion_keeps_ids gid pid sc :
  sat (fun _ => True) ids_frame (set_notion_page_id_by_google_id gid pid sc)
      (fun _ => True).
Proof.
  unfold set_notion_page_id_by_google_id.
  destruct (_ || _) eqn:Hb; [by apply sat_ret|].
  apply orb_false_iff in Hb as [Hk%negb_false_iff Hv%negb_false_iff].
  apply sat_modify; [done | by destruct sc |].
  intros w (Hi & He & Hd).
  destruct sc; (split; [| split]); try done; by apply ids_nonempty_insert.
Qed.

Lemma remove_notion_keeps_ids gid sc :
  sat (fun _ => True) ids_frame (remove_notion_page_id_by_google_id gid sc)
      (fun _ => True).
Proof.
  unfold remove_notion_page_id_by_google_id.
  destruct (negb _); [by apply sat_ret|].
  apply sat_modify; [done | by destruct sc |].
  intros w (Hi & He & Hd).
  destruct sc; (split; [| split]); try done; by apply ids_nonempty_delete.
Qed.

Lemma set_discord_keeps_ids gid d :
  sat (fun _ => True) ids_frame (set_discord_event_id_by_google_id gid d)
      (fun _ => True).
Proof.
  unfold set_discord_event_id_by_google_id.
  destruct (_ || _) eqn:Hb; [by apply sat_ret|].
  apply orb_false_iff in Hb as [Hk%negb_false_iff Hv%negb_false_iff].
  apply sat_modify; [done | done |].
  intros w (Hi & He & Hd). (split; [| split]); try done.
  by apply ids_nonempty_insert.
Qed.

Lemma remove_discord_keeps_ids gid :
  sat (fun _ => True) ids_frame (remove_discord_event_id_by_google_id gid)
      (fun _ => True).
Proof.
  unfold remove_discord_event_id_by_google_id.
  destruct (negb _); [by apply sat_ret|].
  apply sat_modify; [done | done |].
  intros w (Hi & He & Hd). (split; [| split]); try done.
  by apply ids_nonempty_delete.
Qed.

Lemma sync_calendar_keeps_ids (E : env) (fuel : nat) :
  sat (fun _ => True) ids_frame (sync_calendar E fuel) (fun _ => True).
Proof.
  pose proof set_notion_keeps_ids as H1.
  pose proof remove_notion_keeps_ids as H2.
  pose proof set_discord_keeps_ids as H3.
  pose proof remove_discord_keeps_ids as H4.
  assert (Hev : forall ev,
            sat (fun _ => True) ids_frame (upsert_event E ev) (fun _ => True))
    by (intros ev; sat_go).
  assert (Hall : forall evs b,
            sat (fun _ => True) ids_frame (upsert_all E evs b) (fun _ => True))
    by (intros; by apply sat_upsert_all).
  assert (Hpages : forall fuel um tok evs,
            sat (fun _ => True) ids_frame (list_pages E fuel um tok evs)
                (fun _ => True))
    by (intros; by apply sat_list_pages).
  sat_go.
Qed.

(** X3. Invariant of the correlation maps: when the three maps relate
    non-empty ids only, they still do after a guarded run
    ([run_sync_guarded]), whatever the services answer and however the run
    ends. So an entry that a lookup returns is always a usable id. *)
Theorem pass_keeps_ids_nonempty (E : env) (fuel : nat) (source : string)
    (w : world) :
  maps_hold_ids w -> maps_hold_ids (run_sync_guarded E fuel source w).2.
Proof.
  pose proof (sat_run_sync_guarded E (fun _ => True) ids_frame
                ltac:(by intros; cbn) ltac:(by intros; cbn) fuel source
                (sync_calendar_keeps_ids E fuel) w) as [[_ Hf] _].
  exact Hf.
Qed.

Lemma ids_nonempty_singleton (k v : string) :
  k <> "" -> v <> "" -> ids_nonempty {[ k := v ]}.
Proof.
  intros Hk Hv k' v' Hl. apply lookup_singleton_Some in Hl as [<- <-]. done.
Qed.

(** A pass over [sprint_review], whose mirrors exist and are recorded. *)
Lemma pass_keeps_ids_nonempty_witness :
  maps_hold_ids
    (run_sync_guarded
       (Scenarios.env_with Fixtures.cfg0 Scenarios.respond_one_event
                           Fixtures.feb_25)
       5 "webhook" Fixtures.world_mirrored).2.
Proof.
  apply (pass_keeps_ids_nonempty
           (Scenarios.env_with Fixtures.cfg0 Scenarios.respond_one_event
                               Fixtures.feb_25)
           5 "webhook" Fixtures.world_mirrored).
  split; [| split]; by apply ids_nonempty_singleton.
Defined.

(** ** A correlation entry whose page has vanished *)

(** The lookups in the document store leave the correlation maps as they
    are. *)
Lemma lookup_keeps_maps {A} (m : M A) (w w' : world) (a : A) :
  sat (fun _ => True) notion_frame m (fun _ => True) ->
  m w = (Ret a, w') ->
  gcal_notion_internal w' = gcal_notion_internal w /\
  gcal_notion_external w' = gcal_notion_external w.
Proof.
  intros Hsat Hrun. destruct (Hsat w) as [[_ Hf] _].
  rewrite Hrun in Hf. exact Hf.
Qed.

Lemma scope_map_keeps (sc : scope) (w w' : world) :
  gcal_notion_internal w' = gcal_notion_internal w /\
  gcal_notion_external w' = gcal_notion_external w ->
  scope_map sc w' = scope_map sc w.
Proof. intros [? ?]. by destruct sc. Qed.

Lemma scope_map_set (sc : scope) f (w : world) :
  scope_map sc (set_scope_map sc f w) = f (scope_map sc w).
Proof. by destruct sc. Qed.

(** The query that follows a failed lookup by id: when it finds nothing,
    the correlation map is left as it is. *)
Lemma query_none_keeps (gid : string) (sc : scope) (find : M (option page))
    (w w' : world) :
  sat (fun _ => True) notion_frame find (fun _ => True) ->
  (let! pg := find in
   run! (match pg with
         | Some p => set_notion_page_id_by_google_id gid (pg_id p) sc
         | None => ret tt
         end) in
   ret pg) w = (Ret None, w') ->
  scope_map sc w' = scope_map sc w.
Proof.
  intros Hfind Hrun.
  apply bind_inv in Hrun as (found & w2 & Hq & Hrun).
  apply lookup_keeps_maps in Hq; [| done].
  apply scope_map_keeps with (sc := sc) in Hq.
  destruct found as [p|].
  - apply bind_inv in Hrun as (? & ? & _ & Hrun). done.
  - rewrite bind_ret_l in Hrun. injection Hrun as <-. done.
Qed.

(** The resolution of the page of one database, for [resolve_internal_page]
    and [resolve_external_page] alike: [tail] is the query that follows a
    failed lookup by id. *)
Lemma resolve_none_forgets (E : env) (gid : string) (sc : scope)
    (tail : M (option page)) (w w' : world) :
  gid <> "" ->
  (forall v, scope_map sc w !! gid = Some v -> v <> "") ->
  (forall w1 w2, tail w1 = (Ret None, w2) ->
     scope_map sc w2 = scope_map sc w1) ->
  (let! mapped := get_notion_page_id_by_google_id gid sc in
   let! pg :=
     (if Py.truthy_opt mapped
      then
        let! pg := notion_get_page E (default "" mapped) in
        run! (if bool_decide (pg = None)
              then remove_notion_page_id_by_google_id gid sc
              else ret tt) in
        ret pg
      else ret None) in
   match pg with
   | Some _ => ret pg
   | None => tail
   end) w = (Ret None, w') ->
  scope_map sc w' !! gid = None.
Proof.
  intros Hg Hval Htail Hrun. pose proof Hg as Hgt. apply truthy_true in Hgt.
  apply bind_inv in Hrun as (mapped & w0 & Hget & Hrun).
  unfold get_notion_page_id_by_google_id in Hget. rewrite Hgt in Hget.
  cbn [negb] in Hget. injection Hget as <- <-.
  apply bind_inv in Hrun as (pg & w1 & Hfirst & Hrun).
  assert (Hw1 : pg = None /\ scope_map sc w1 !! gid = None).
  { destruct (Py.truthy_opt (scope_map sc w !! gid)) eqn:Hm.
    - apply bind_inv in Hfirst as (pg0 & w2 & Hpage & Hfirst).
      apply lookup_keeps_maps in Hpage; [| sat_go].
      apply scope_map_keeps with (sc := sc) in Hpage.
      destruct pg0 as [p|].
      + rewrite bool_decide_eq_false_2 in Hfirst by done.
        rewrite bind_ret_l in Hfirst. injection Hfirst as <- <-.
        exfalso. unfold ret in Hrun. discriminate Hrun.
      + rewrite bool_decide_eq_true_2 in Hfirst by done.
        unfold remove_notion_page_id_by_google_id in Hfirst.
        rewrite Hgt in Hfirst. cbn [negb] in Hfirst.
        rewrite bind_modify in Hfirst. injection Hfirst as <- <-.
        split; [done|]. rewrite scope_map_set. apply lookup_delete_eq.
    - injection Hfirst as <- <-. split; [done|].
      destruct (scope_map sc w !! gid) as [v|]; [| done].
      specialize (Hval v eq_refl). apply truthy_true in Hval.
      cbn in Hm. congruence. }
  destruct Hw1 as [-> Hw1].
  apply Htail in Hrun. by rewrite Hrun.
Qed.

(** X4. A correlation entry does not outlive its page: when the
    resolution of the page of a database ([resolve_internal_page],
    [resolve_external_page]) ends without a page ([None]), the correlation
    map of that database has no entry for the event any more. A recorded
    page id that Notion no longer returns is dropped by the lookup itself
    (lines 1099-1100 and 1111-1112). *)
Theorem vanished_page_is_forgotten (E : env) (gid : string) (w w' : world) :
  gid <> "" ->
  (forall v, gcal_notion_internal w !! gid = Some v -> v <> "") ->
  (forall v, gcal_notion_external w !! gid = Some v -> v <> "") ->
  (resolve_internal_page E gid w = (Ret None, w') ->
   gcal_notion_internal w' !! gid = None) /\
  (Py.truthy_opt (NOTION_EVENT_EXTERNAL_DB_ID (cfg E)) = true ->
   resolve_external_page E gid w = (Ret None, w') ->
   gcal_notion_external w' !! gid = None).
Proof.
  intros Hg Hint Hext. split.
  - intros Hrun.
    unfold resolve_internal_page in Hrun.
    eapply resolve_none_forgets in Hrun; [exact Hrun | done | done |].
    intros w1 w2. apply query_none_keeps. sat_go.
  - intros Hdb Hrun. unfold resolve_external_page in Hrun.
    rewrite Hdb in Hrun. cbn [negb] in Hrun.
    eapply resolve_none_forgets in Hrun; [exact Hrun | done | done |].
    intros w1 w2 Ht. rewrite <- bind_assoc in Ht.
    revert Ht. apply query_none_keeps. sat_go.
Qed.

(** The map records the page ["page-gone"], which Notion answers with 404;
    the query finds no page either. *)
Lemma vanished_page_is_forgotten_witness :
  let E := Fixtures.env0 in
  let w := Scenarios.world_stale in
  let w' := (resolve_internal_page E "evt-1" w).2 in
  gcal_notion_internal w !! "evt-1" = Some "page-gone" /\
  resolve_internal_page E "evt-1" w = (Ret None, w') /\
  gcal_notion_internal w' !! "evt-1" = None.
Proof.
  intros E w w'.
  assert (Hrun : resolve_internal_page E "evt-1" w = (Ret None, w'))
    by (vm_compute; reflexivity).
  split; [reflexivity|]. split; [exact Hrun|].
  refine (proj1 (vanished_page_is_forgotten E "evt-1" w w' _ _ _) Hrun).
  - done.
  - intros v Hv. cbn in Hv. apply lookup_singleton_Some in Hv as [_ <-].
    done.
  - intros v Hv. done.
Defined.

(** ** The duplicate guard *)

(** X5. Invariant of the duplicate guard: [register_message_id] keeps the
    deque and the set consistent (the set holds the elements of the
    deque, which has no duplicate and respects its bound), it reports a
    duplicate exactly for a non-empty id that the guard holds, a
    non-empty id is held afterwards, and no request is issued. *)
Theorem register_message_id_invariant (E : env) (t : string) (w : world) :
  dedupe_consistent E w ->
  let r := register_message_id E t w in
  dedupe_consistent E r.2 /\
  r.1 = Ret (bool_decide (t <> "" /\ t ∈ processed_message_ids w)) /\
  (t <> "" -> t ∈ processed_message_ids r.2) /\
  trace r.2 = trace w.
Proof.
  intros Hw r. subst r.
  assert (Htrace : trace (register_message_id E t w).2 = trace w).
  { unfold register_message_id. destruct (negb _); [done|].
    by destruct (bool_decide _). }
  destruct (decide (t = "")) as [-> | Hne].
  { cbn. split; [done|]. split; [| done].
    rewrite bool_decide_eq_false_2; [done | by intros [? _]]. }
  destruct (decide (t ∈ processed_message_set w)) as [Hin | Hout].
  - rewrite register_seen by done. cbn [fst snd].
    destruct Hw as (Hnd & Hset & Hlen).
    split; [done|]. split; [| split; [| done]].
    + rewrite bool_decide_eq_true_2; [done|]. split; [done | by apply Hset].
    + intros _. by apply Hset.
  - destruct (register_fresh E t w Hw Hne Hout) as (Hr & Hids & Hw').
    split; [done|]. split; [| split; [| done]].
    + rewrite Hr. rewrite bool_decide_eq_false_2; [done|].
      intros [_ Hin]. apply Hout. destruct Hw as (_ & Hset & _).
      by apply Hset.
    + intros _. rewrite Hids.
      pose proof (maxlen_ge E). destruct Hw as (_ & _ & Hlen).
      rewrite length_app. cbn [List.length].
      rewrite drop_app_le by lia.
      set_solver.
Qed.

(** The first notification of a channel, registered in the empty guard. *)
Lemma register_message_id_invariant_witness :
  let r := register_message_id Fixtures.env0 (Fixtures.token 1)
             Fixtures.world0 in
  dedupe_consistent Fixtures.env0 r.2 /\
  r.1 = Ret (bool_decide
               (Fixtures.token 1 <> "" /\
                Fixtures.token 1 ∈ processed_message_ids Fixtures.world0)) /\
  (Fixtures.token 1 <> "" -> Fixtures.token 1 ∈ processed_message_ids r.2) /\
  trace r.2 = trace Fixtures.world0.
Proof.
  apply (register_message_id_invariant Fixtures.env0 (Fixtures.token 1)
           Fixtures.world0).
  split; [apply NoDup_nil_2 | split; [| cbn; lia]].
  intros t. cbn. rewrite elem_of_empty, elem_of_nil. done.
Defined.

Lemma sync_calendar_keeps_dedupe (E : env) (fuel : nat) :
  sat (fun _ => True) dedupe_frame (sync_calendar E fuel) (fun _ => True).
Proof.
  assert (Hev : forall ev,
            sat (fun _ => True) dedupe_frame (upsert_event E ev) (fun _ => True))
    by (intros ev; sat_go).
  assert (Hall : forall evs b,
            sat (fun _ => True) dedupe_frame (upsert_all E evs b) (fun _ => True))
    by (intros; by apply sat_upsert_all).
  assert (Hpages : forall fuel um tok evs,
            sat (fun _ => True) dedupe_frame (list_pages E fuel um tok evs)
                (fun _ => True))
    by (intros; by apply sat_list_pages).
  sat_go.
Qed.

Lemma register_message_id_holds (E : env) (key : string) (w : world) :
  key <> "" ->
  key ∈ processed_message_set (register_message_id E key w).2.
Proof.
  intros Hk. apply truthy_true in Hk. unfold register_message_id.
  rewrite Hk. cbn [negb].
  destruct (bool_decide _) eqn:Hin.
  - by apply bool_decide_eq_true in Hin.
  - cbn. set_solver.
Qed.

Lemma dedupe_key_nonempty ch num : dedupe_key ch num <> "".
Proof. done. Qed.

(** X6. A notification is processed once: after [gcal_webhook] has handled
    a notification that carries a channel id and a message number, a
    second delivery of the same notification is answered with 204 and
    changes nothing but the log: no pass is run. This holds whatever the
    first delivery did, also when its pass failed and it was answered
    with 500. *)
Theorem redelivery_is_skipped (E : env) (fuel fuel' : nat)
    (channel number state state' : option string) (w : world) :
  Py.truthy_opt channel = true -> Py.truthy_opt number = true ->
  let w1 := (gcal_webhook E fuel channel number state w).2 in
  gcal_webhook E fuel' channel number state' w1 =
    (Ret (Some ("", 204)),
     push_log (Log INFO "Duplicate Google webhook message skipped key=%s"
                   [dedupe_key channel number]) w1).
Proof.
  intros Hc Hn w1.
  assert (Hheld : dedupe_key channel number ∈ processed_message_set w1).
  { subst w1. unfold gcal_webhook, check_duplicate. rewrite Hc, Hn.
    cbn [andb]. cbv zeta. fold (dedupe_key channel number).
    pose proof (register_message_id_holds E (dedupe_key channel number) w
                  (dedupe_key_nonempty _ _)) as Hreg.
    rewrite !bind_assoc. unfold bind at 1.
    destruct (register_message_id E (dedupe_key channel number) w)
      as [[seen | exc] w0] eqn:Hr; cbn [snd] in Hreg; [| done].
    destruct seen.
    - rewrite bind_assoc, bind_log. done.
    - rewrite bind_ret_l. cbn beta iota. rewrite bind_log.
      pose proof (sat_run_sync_guarded E (fun _ => True) dedupe_frame
                    ltac:(done) ltac:(done) fuel "webhook"
                    (sync_calendar_keeps_dedupe E fuel)) as Hrun.
      match goal with
      | |- context [bind _ ?k ?w2] =>
          destruct (Hrun w2) as [[_ [_ Hset]] _]; unfold bind
      end.
      destruct (run_sync_guarded E fuel "webhook" _)
        as [[[[synced reason]|]|exc] w3]; cbn [snd] in Hset |- *.
      + destruct (negb _); [| destruct (negb synced)];
          cbn [ret snd]; by rewrite Hset.
      + cbn [ret snd]. by rewrite Hset.
      + by rewrite Hset. }
  unfold gcal_webhook, check_duplicate. rewrite Hc, Hn. cbn [andb]. cbv zeta.
  fold (dedupe_key channel number).
  rewrite !bind_assoc.
  rewrite (bind_ret _ _ _ _ _
             (register_seen E _ w1 (dedupe_key_nonempty _ _) Hheld)).
  reflexivity.
Qed.

(** The pass of the first delivery fails (every query of Notion times
    out) and is answered with 500; the second delivery is answered with
    204. *)
Lemma redelivery_is_skipped_witness :
  let E := Scenarios.env_with Fixtures.cfg0 Scenarios.respond_notion_down
             Fixtures.feb_25 in
  let first := gcal_webhook E 5 (Some "channel") (Some "1") (Some "exists")
                 Fixtures.world0 in
  first.1 = Ret (Some ("sync failed", 500)) /\
  gcal_webhook E 5 (Some "channel") (Some "1") (Some "exists") first.2 =
    (Ret (Some ("", 204)),
     push_log (Log INFO "Duplicate Google webhook message skipped key=%s"
                   [dedupe_key (Some "channel") (Some "1")]) first.2).
Proof.
  split; [vm_compute; reflexivity|].
  apply (redelivery_is_skipped
           (Scenarios.env_with Fixtures.cfg0 Scenarios.respond_notion_down
                               Fixtures.feb_25)
           5 5 (Some "channel") (Some "1") (Some "exists") (Some "exists")
           Fixtures.world0); reflexivity.
Defined.

(** ** The times and the description sent to Discord *)

(** X7. The times of a Discord event are ordered: [parse_google_event_times]
    changes no global, its start is the parsed start of the calendar
    event, and whenever it returns a start it returns an end that is
    strictly after it (a missing end, or one that is not after the start,
    is replaced). Without a start it returns no end either. *)
Theorem event_times_are_ordered (E : env) (ev : gevent) (w w' : world)
    (st en : option datetime) :
  parse_google_event_times E ev w = (Ret (st, en), w') ->
  w' = w /\
  st = parse_part E (ev_start ev) false /\
  match st, en with
  | Some s, Some e => dt_le e s = Some false
  | None, None => True
  | _, _ => False
  end.
Proof.
  unfold parse_google_event_times.
  destruct (parse_part E (ev_start ev) false) as [s|];
    [| by intros [= <- <- <-]].
  assert (Hsyn : dt_le (dt_add s (timedelta_hours 1)) s = Some false).
  { unfold dt_le, dt_add, timedelta_hours. cbn.
    destruct (dt_utcoffset s); f_equal; apply Z.leb_gt; lia. }
  destruct (parse_part E (ev_end ev) true) as [e|].
  - destruct (dt_le e s) as [[]|] eqn:Hle; [| | done];
      by intros [= <- <- <-].
  - by intros [= <- <- <-].
Qed.

(** [sprint_review] starts on 2024-03-01 at 10:00 (+09:00) and has no end:
    the end is 11:00. *)
Lemma event_times_are_ordered_witness :
  let s := DateTime 1709287200000000 (Some (timedelta_hours 9)) in
  let e := DateTime 1709290800000000 (Some (timedelta_hours 9)) in
  parse_google_event_times Fixtures.env0 Fixtures.sprint_review
    Fixtures.world0 = (Ret (Some s, Some e), Fixtures.world0) /\
  dt_le e s = Some false.
Proof.
  intros s e.
  assert (Hrun : parse_google_event_times Fixtures.env0 Fixtures.sprint_review
                   Fixtures.world0 = (Ret (Some s, Some e), Fixtures.world0))
    by (vm_compute; reflexivity).
  split; [exact Hrun|].
  exact (proj2 (proj2 (event_times_are_ordered Fixtures.env0
                         Fixtures.sprint_review Fixtures.world0
                         Fixtures.world0 (Some s) (Some e) Hrun))).
Defined.

Lemma app_cons (c : ascii) (a b : string) :
  String c a +:+ b = String c (a +:+ b).
Proof. reflexivity. Qed.

Lemma app_empty_l (s : string) : "" +:+ s = s.
Proof. reflexivity. Qed.

Lemma is_prefix_app (p s : string) : Py.is_prefix p (p +:+ s) = true.
Proof.
  induction p as [| a p IH]; [done|].
  rewrite app_cons. cbn [Py.is_prefix]. by rewrite Ascii.eqb_refl, IH.
Qed.

Lemma contains_app (a m b : string) : Py.contains m (a +:+ m +:+ b) = true.
Proof.
  induction a as [| c a IH].
  - rewrite app_empty_l. destruct (m +:+ b) eqn:Heq; cbn [Py.contains];
      rewrite <- Heq, is_prefix_app; done.
  - rewrite app_cons. cbn [Py.contains]. rewrite IH. by rewrite orb_true_r.
Qed.

Lemma app_empty_r (s : string) : s +:+ "" = s.
Proof.
  induction s as [| c s IH]; [done|]. by rewrite app_cons, IH.
Qed.

Lemma string_app_assoc (a b c : string) : (a +:+ b) +:+ c = a +:+ (b +:+ c).
Proof.
  induction a as [| x a IH]; [done|]. by rewrite !app_cons, IH.
Qed.

Lemma string_app_length (a b : string) :
  String.length (a +:+ b) = (String.length a + String.length b)%nat.
Proof.
  induction a as [| x a IH]; [done|]. rewrite app_cons. cbn. by rewrite IH.
Qed.

Lemma slice_to_all (s : string) (n : Z) :
  (0 < String.length s <= Z.to_nat n)%nat -> Py.slice_to s n = s.
Proof.
  intros Hlen. unfold Py.slice_to.
  assert (0 < n) by lia.
  destruct (n <? 0) eqn:Hn; [apply Z.ltb_lt in Hn; lia|].
  rewrite take_ge.
  - apply String.string_of_list_ascii_of_string.
  - rewrite <- length_string_of_list_ascii,
      String.string_of_list_ascii_of_string. lia.
Qed.

Lemma or_str_empty (s : option string) :
  Py.or_str s "" = default "" s.
Proof.
  destruct s as [s|]; [| done]. cbn. unfold Py.truthy.
  by destruct (String.eqb_spec s "") as [-> |].
Qed.

(** The description that fits the limit ends with the marker. *)
Lemma description_holds_marker (E : env) (desc : option string)
    (gid : string) :
  DISCORD_APPEND_GCAL_MARKER (cfg E) = true ->
  (String.length (Py.strip (Py.or_str desc "")) + 2
     + String.length (origin_marker gid)
     <= Z.to_nat (DISCORD_DESCRIPTION_LIMIT (cfg E)))%nat ->
  Py.contains (origin_marker gid) (build_discord_description E desc gid)
    = true.
Proof.
  intros Hflag Hfit.
  unfold build_discord_description. rewrite Hflag. cbv zeta.
  fold (origin_marker gid).
  assert (0 < String.length (origin_marker gid))%nat.
  { unfold origin_marker. rewrite string_app_length. cbn. lia. }
  destruct (Py.truthy (Py.strip (Py.or_str desc ""))).
  - rewrite slice_to_all.
    + rewrite <- (app_empty_r (origin_marker gid)) at 2.
      rewrite <- !string_app_assoc, string_app_assoc.
      apply contains_app.
    + rewrite !string_app_length. cbn. lia.
  - rewrite slice_to_all by lia.
    rewrite <- (app_empty_r (origin_marker gid)) at 2.
    apply (contains_app "").
Qed.

(** X8. Round trip of the origin marker. With the marker switched on
    ([DISCORD_APPEND_GCAL_MARKER]) and a description that fits
    [DISCORD_DESCRIPTION_LIMIT] together with the marker, the description
    that [build_discord_description] builds for a calendar event contains
    the marker of that event; and when Discord lists an event with that
    description and the id [d], after events whose descriptions do not
    contain the marker, [find_discord_event_id_by_google_marker] returns
    [d]. *)
Theorem marker_round_trip (E : env) (desc : option string) (gid d : string)
    (before after : list discord_item) (status : Z) (w : world) :
  DISCORD_APPEND_GCAL_MARKER (cfg E) = true ->
  discord_configured (cfg E) ->
  gid <> "" -> d <> "" ->
  (String.length (Py.strip (Py.or_str desc "")) + 2
     + String.length (origin_marker gid)
     <= Z.to_nat (DISCORD_DESCRIPTION_LIMIT (cfg E)))%nat ->
  Forall (fun item =>
            Py.contains (origin_marker gid)
                        (Py.or_str (di_description item) "") = false) before ->
  let text := build_discord_description E desc gid in
  respond E (trace w) (DiscordListEvents (scheduled_events_path E)) =
    Http status
      (BDiscordEvents (before ++ DiscordItem (Some d) (Some text) :: after)) ->
  status < 400 ->
  Py.contains (origin_marker gid) text = true /\
  (find_discord_event_id_by_google_marker E gid w).1 = Ret (Some d).
Proof.
  intros Hflag Hcfg Hg Hd Hfit Hbefore text Hlist Hstatus.
  pose proof (description_holds_marker E desc gid Hflag Hfit) as Htext.
  fold text in Htext. split; [done|].
  unfold find_discord_event_id_by_google_marker. rewrite Hflag. cbn [negb].
  rewrite (bind_ret _ _ _ _ _ (discord_sync_available_true E w Hcfg)).
  cbn [negb]. apply truthy_true in Hg. rewrite Hg. cbn [negb orb]. cbv zeta.
  unfold bind, perform. rewrite Hlist. cbn [fst snd].
  destruct (400 <=? status) eqn:Hs; [apply Z.leb_le in Hs; lia|].
  cbn [ret fst]. f_equal. fold (origin_marker gid).
  clear Hlist. induction Hbefore as [| item before Hitem _ IH].
  - cbn [app scan_marker di_description di_id].
    rewrite or_str_empty. cbn [default from_option id].
    rewrite Htext. apply truthy_true in Hd. cbn [Py.truthy_opt].
    by rewrite Hd.
  - cbn [app scan_marker]. by rewrite Hitem.
Qed.

(** Discord lists an event without description and the event of
    ["evt-1"], whose description is ["Agenda"] followed by the marker. *)
Lemma marker_round_trip_witness :
  let E := Scenarios.env_with Scenarios.cfg_marker Scenarios.respond_listed
             Fixtures.feb_25 in
  build_discord_description E (Some " Agenda ") "evt-1"
    = "Agenda" +:+ newline +:+ newline +:+ "[gcal-id:evt-1]" /\
  Py.contains (origin_marker "evt-1")
    (build_discord_description E (Some " Agenda ") "evt-1") = true /\
  (find_discord_event_id_by_google_marker E "evt-1" Fixtures.world0).1
    = Ret (Some "discord-1").
Proof.
  intros E. split; [vm_compute; reflexivity|].
  apply (marker_round_trip E (Some " Agenda ") "evt-1" "discord-1"
           [DiscordItem (Some "discord-0") None] [] 200 Fixtures.world0).
  - reflexivity.
  - repeat split; reflexivity.
  - done.
  - done.
  - vm_compute. lia.
  - repeat constructor.
  - vm_compute. reflexivity.
  - lia.
Defined.

(** ** The mirror on Discord *)

Lemma discord_sync_available_inv (E : env) (w w' : world) :
  discord_sync_available E w = (Ret true, w') -> discord_configured (cfg E).
Proof.
  unfold discord_sync_available, discord_configured.
  destruct (DISCORD_SYNC_ENABLED (cfg E)); [| done]. cbn [negb].
  destruct (Py.truthy_opt (DISCORD_TOKEN (cfg E))); [| done]. cbn [negb].
  destruct (Py.truthy_opt (DISCORD_GUILD_ID (cfg E))); done.
Qed.

Lemma set_discord_event_id_run (gid d : string) (w : world) :
  gid <> "" -> d <> "" ->
  set_discord_event_id_by_google_id gid d w =
    (Ret tt, set_discord (insert gid d) w).
Proof.
  intros Hg Hd. apply truthy_true in Hg, Hd.
  unfold set_discord_event_id_by_google_id. by rewrite Hg, Hd.
Qed.

Lemma or_str_truthy (o : option string) (d : string) :
  d <> "" -> Py.or_str o d <> "".
Proof.
  intros Hd. destruct o as [s|]; [| done]. cbn.
  destruct (Py.truthy s) eqn:Hs; [by apply truthy_true | done].
Qed.

(** A recorded Discord event id is resolved without any request. *)
Lemma resolve_discord_mapped (E : env) (gid d : string)
    (pg fb : option page) (w : world) :
  gid <> "" -> d <> "" -> gcal_discord_map w !! gid = Some d ->
  exists d', resolve_discord_event_id E gid pg fb w = (Ret (Some d'), w) /\
             d' <> "".
Proof.
  intros Hg Hd Hmap. unfold resolve_discord_event_id. cbv zeta.
  unfold bind at 1, get_discord_event_id_by_google_id.
  apply truthy_true in Hg. rewrite Hg, Hmap. cbn [negb].
  set (n := if _ && _ then _ else _).
  unfold Py.or_opt.
  destruct (Py.truthy_opt n) eqn:Hn.
  - rewrite Hn. cbn [negb]. destruct n as [s|]; [| done].
    exists s. split; [done|]. by apply truthy_true.
  - cbn [Py.truthy_opt]. apply truthy_true in Hd. rewrite Hd. cbn [negb].
    exists d. split; [done|]. by apply truthy_true.
Qed.

(** X9. The mirror on Discord is reused. When [sync_to_discord] returns
    the id [d] of the Discord event of a calendar event (after a create
    or an update), [d] is not empty and the correlation map records it
    for the event; and a later [sync_to_discord] of the same event, from
    there and with whatever Notion pages, sends no create request: the
    recorded event is updated. *)
Theorem discord_mirror_is_reused (E : env) (ev : gevent) (gid d : string)
    (pg fb : option page) (w w1 : world) :
  ev_id ev = Some gid ->
  sync_to_discord E ev pg fb w = (Ret (Some d), w1) ->
  d <> "" /\
  gcal_discord_map w1 !! gid = Some d /\
  forall pg' fb',
    Forall (fun c => is_create c = false)
           (calls_since w1 (sync_to_discord E ev pg' fb' w1).2).
Proof.
  intros Hid Hrun.
  unfold sync_to_discord in Hrun.
  apply bind_inv in Hrun as (avail & wa & Havail & Hrun).
  destruct avail; [| done]. cbn [negb] in Hrun.
  pose proof (discord_sync_available_inv E w wa Havail) as Hcfg.
  rewrite Hid in Hrun. cbn [Py.truthy_opt default from_option id] in Hrun.
  destruct (Py.truthy gid) eqn:Hg; [| done]. cbn [negb] in Hrun.
  apply truthy_true in Hg.
  apply bind_inv in Hrun as (d0 & wb & _ & Hrun).
  destruct (bool_decide (ev_status ev = Some "cancelled")) eqn:Hst.
  { apply bind_inv in Hrun as (? & ? & _ & Hrun).
    apply bind_inv in Hrun as (? & ? & _ & Hrun). done. }
  apply bool_decide_eq_false in Hst.
  assert (Hd : d <> "" /\ gcal_discord_map w1 !! gid = Some d).
  { destruct (Py.truthy_opt d0) eqn:Hd0.
    - apply bind_inv in Hrun as ([obj|] & wc & _ & Hrun).
      + cbv zeta in Hrun.
        assert (Hres : Py.or_str obj (default "" d0) <> "").
        { apply or_str_truthy. destruct d0 as [s|]; [| done].
          by apply truthy_true. }
        rewrite (bind_ret _ _ _ _ _
                   (set_discord_event_id_run gid _ wc Hg Hres)) in Hrun.
        injection Hrun as <- <-. split; [done|]. cbn.
        by rewrite lookup_insert_eq.
      + apply bind_inv in Hrun as (? & ? & _ & Hrun). done.
    - apply bind_inv in Hrun as ([[id|]|] & wc & _ & Hrun); try done.
      destruct (Py.truthy id) eqn:Hidt; [| done].
      apply truthy_true in Hidt.
      rewrite (bind_ret _ _ _ _ _
                 (set_discord_event_id_run gid id wc Hg Hidt)) in Hrun.
      rewrite bind_log in Hrun. injection Hrun as <- <-.
      split; [done|]. cbn. by rewrite lookup_insert_eq. }
  destruct Hd as [Hd Hmap]. split; [done|]. split; [done|].
  intros pg' fb'.
  destruct (resolve_discord_mapped E gid d pg' fb' w1 Hg Hd Hmap)
    as (d' & Hres & Hd').
  assert (Hnext : sync_to_discord E ev pg' fb' w1 =
    bind (discord_update_event E d' ev)
      (fun updated =>
         match updated with
         | Some obj =>
             let resolved_id := Py.or_str obj d' in
             bind (set_discord_event_id_by_google_id gid resolved_id)
                  (fun _ => ret (Some resolved_id))
         | None =>
             bind (log WARNING
                     "Discord update failed for existing event_id=%s; skip create to avoid duplication"
                     [d'])
                  (fun _ => ret None)
         end) w1).
  { unfold sync_to_discord.
    rewrite (bind_ret _ _ _ _ _ (discord_sync_available_true E w1 Hcfg)).
    cbn [negb]. rewrite Hid. cbn [Py.truthy_opt default from_option id].
    apply truthy_true in Hg as ->. cbn [negb].
    rewrite (bind_ret _ _ _ _ _ Hres).
    rewrite bool_decide_eq_false_2 by done.
    cbn [Py.truthy_opt default from_option id].
    apply truthy_true in Hd' as ->. done. }
  rewrite Hnext. apply (follows_calls_since _ any_frame).
  apply (sat_follows _ _ _ (fun _ => True)). sat_go.
Qed.

(** The first reconciliation of [sprint_review] creates the Discord event
    ["discord-1"]; the second one sends an update. *)
Lemma discord_mirror_is_reused_witness :
  let E := Fixtures.env0 in
  let ev := Fixtures.sprint_review in
  let first := sync_to_discord E ev None None Fixtures.world0 in
  first.1 = Ret (Some "discord-1") /\
  gcal_discord_map first.2 !! "evt-1" = Some "discord-1" /\
  Forall (fun c => is_create c = false)
         (calls_since first.2 (sync_to_discord E ev None None first.2).2).
Proof.
  intros E ev first.
  assert (Hrun : sync_to_discord E ev None None Fixtures.world0
                 = (Ret (Some "discord-1"), first.2))
    by (vm_compute; reflexivity).
  destruct (discord_mirror_is_reused E ev "evt-1" "discord-1" None None
              Fixtures.world0 first.2 eq_refl Hrun) as (_ & Hmap & Hnext).
  split; [vm_compute; reflexivity|]. split; [exact Hmap | apply Hnext].
Defined.

Section DiscordDisabled.

Context (E : env).
Hypothesis disabled : discord_disabled (cfg E).

Let P (c : call) : Prop := is_discord_call c = false.

Lemma discord_sync_available_false :
  sat P discord_frame (discord_sync_available E) (fun b => b = false).
Proof.
  unfold discord_sync_available.
  destruct disabled as [-> | [-> | Hg]]; cbn [negb].
  - by apply sat_ret.
  - destruct (negb _); [by apply sat_ret|].
    apply sat_bind_top; [by apply sat_log | intros _; by apply sat_ret].
  - destruct (negb _); [by apply sat_ret|].
    destruct (negb (Py.truthy_opt (DISCORD_TOKEN (cfg E)))).
    + apply sat_bind_top; [by apply sat_log | intros _; by apply sat_ret].
    + rewrite Hg. cbn [negb].
      apply sat_bind_top; [by apply sat_log | intros _; by apply sat_ret].
Qed.

Lemma sync_to_discord_disabled (ev : gevent) (pg fb : option page) :
  sat P discord_frame (sync_to_discord E ev pg fb) (fun _ => True).
Proof.
  unfold sync_to_discord.
  eapply sat_bind; [apply discord_sync_available_false |].
  intros b ->. cbn [negb]. by apply sat_ret.
Qed.

Lemma upsert_event_disabled (ev : gevent) :
  sat P discord_frame (upsert_event E ev) (fun _ => True).
Proof.
  pose proof sync_to_discord_disabled as Hsync.
  sat_go.
Qed.

Lemma sync_calendar_disabled (fuel : nat) :
  sat P discord_frame (sync_calendar E fuel) (fun _ => True).
Proof.
  pose proof upsert_event_disabled as Hev.
  assert (Hall : forall evs b,
            sat P discord_frame (upsert_all E evs b) (fun _ => True))
    by (intros; by apply sat_upsert_all).
  assert (Hpages : forall fuel um tok evs,
            sat P discord_frame (list_pages E fuel um tok evs) (fun _ => True))
    by (intros; by apply sat_list_pages).
  sat_go.
Qed.

End DiscordDisabled.

(** X10. With the synchronisation to Discord switched off
    ([DISCORD_SYNC_ENABLED] false, or no token, or no guild), a guarded
    run sends no request to Discord and leaves the correlation map of
    Discord as it is, whatever events the calendar lists. *)
Theorem disabled_discord_is_never_contacted (E : env) (fuel : nat)
    (source : string) (w : world) :
  discord_disabled (cfg E) ->
  let w' := (run_sync_guarded E fuel source w).2 in
  Forall (fun c => is_discord_call c = false) (calls_since w w') /\
  gcal_discord_map w' = gcal_discord_map w.
Proof.
  intros Hdis w'.
  pose proof (sat_run_sync_guarded E (fun c => is_discord_call c = false)
                discord_frame ltac:(done) ltac:(done) fuel source
                (sync_calendar_disabled E Hdis fuel) w) as [Hf _].
  split; [by eapply follows_calls_since | apply Hf].
Qed.

(** A pass over [sprint_review] with [DISCORD_SYNC_ENABLED] false: the
    two pages are created in Notion, nothing goes to Discord. *)
Lemma disabled_discord_is_never_contacted_witness :
  let E := Scenarios.env_with Scenarios.cfg_no_discord
             Scenarios.respond_one_event Fixtures.feb_25 in
  let w' := (run_sync_guarded E 5 "manual" Fixtures.world0).2 in
  List.length (filter (fun c => is_create c = true)
                 (calls_since Fixtures.world0 w')) = 2%nat /\
  Forall (fun c => is_discord_call c = false)
         (calls_since Fixtures.world0 w') /\
  gcal_discord_map w' = gcal_discord_map Fixtures.world0.
Proof.
  intros E w'. split; [vm_compute; reflexivity|].
  apply (disabled_discord_is_never_contacted E 5 "manual" Fixtures.world0).
  left. reflexivity.
Defined.

(** ** The mirrors in Notion *)

Lemma upsert_event_steps (E : env) (ev : gevent) (gid : string) (w : world) :
  ev_id ev = Some gid -> gid <> "" ->
  upsert_event E ev w =
    bind (resolve_internal_page E gid)
      (fun pg =>
         bind (resolve_external_page E gid)
           (fun external_page =>
              if bool_decide (ev_status ev = Some "cancelled")
              then upsert_cancelled E ev gid pg external_page
              else upsert_active E ev gid pg external_page)) w.
Proof.
  intros Hid Hg. apply truthy_true in Hg. unfold upsert_event.
  rewrite Hid. cbn [Py.truthy_opt default from_option id]. by rewrite Hg.
Qed.

(** The create request of [upsert_external] goes to the external
    database. *)
Ltac database_side :=
  first [ exact I | done
        | cbn; unfold Py.or_opt;
          repeat match goal with
                 | H : negb ?b = false |- _ =>
                     apply negb_false_iff in H; rewrite H
                 end; done ].

(** X11. A page that exists is updated, never created again: when the
    page of the internal database is resolved for a calendar event, the
    reconciliation of the event creates no page in the internal database.
    Every create request sent to Notion is the one of the external
    database (it goes to [NOTION_EVENT_EXTERNAL_DB_ID] and carries no
    calendar id); this holds also when the update of the page fails. *)
Theorem known_page_is_updated_not_created (E : env) (ev : gevent)
    (gid : string) (p : page) (w w1 : world) :
  ev_id ev = Some gid -> gid <> "" ->
  resolve_internal_page E gid w = (Ret (Some p), w1) ->
  let calls := calls_since w (upsert_event E ev w).2 in
  Forall (external_create_only E) calls /\
  (NOTION_EVENT_EXTERNAL_DB_ID (cfg E) <> NOTION_EVENT_INTERNAL_DB_ID (cfg E) ->
   Forall (no_create_in (NOTION_EVENT_INTERNAL_DB_ID (cfg E))) calls).
Proof.
  intros Hid Hg Hres calls.
  assert (Hcalls : Forall (external_create_only E) calls).
  { subst calls.
    assert (Hsync : forall ev pg fb,
              sat (external_create_only E) any_frame
                  (sync_to_discord E ev pg fb) (fun _ => True))
      by (intros; sat_go).
    assert (Hrest : sat (external_create_only E) any_frame
              (bind (resolve_external_page E gid)
                 (fun external_page =>
                    if bool_decide (ev_status ev = Some "cancelled")
                    then upsert_cancelled E ev gid (Some p) external_page
                    else upsert_active E ev gid (Some p) external_page))
              (fun _ => True)).
    { sat_go_with database_side. }
    rewrite (upsert_event_steps E ev gid w Hid Hg).
    rewrite (bind_ret _ _ _ _ _ Hres).
    pose proof (lookups_only_internal E gid w) as [Hl _].
    rewrite Hres in Hl. cbn [snd] in Hl.
    eapply follows_calls_since, follows_trans; [| apply Hrest].
    destruct Hl as [(new & Hnew & Hall) _]. split; [| done].
    exists new. split; [done|].
    eapply Forall_impl; [exact Hall|]. by intros []. }
  split; [done|]. intros Hdb.
  eapply Forall_impl; [exact Hcalls|].
  intros [] Hc; try done. cbn in *. destruct Hc as [-> _]. done.
Qed.

(** [sprint_review] with its two pages recorded: both are updated. *)
Lemma known_page_is_updated_not_created_witness :
  let E := Fixtures.env_of Fixtures.respond_mirrored Fixtures.feb_25 in
  let w := Fixtures.world_mirrored in
  let calls := calls_since w (upsert_event E Fixtures.sprint_review w).2 in
  List.length (filter (fun c => is_update c = true) calls) = 5%nat /\
  Forall (external_create_only E) calls /\
  (NOTION_EVENT_EXTERNAL_DB_ID (cfg E) <> NOTION_EVENT_INTERNAL_DB_ID (cfg E) ->
   Forall (no_create_in (NOTION_EVENT_INTERNAL_DB_ID (cfg E))) calls).
Proof.
  intros E w calls. split; [vm_compute; reflexivity|].
  apply (known_page_is_updated_not_created E Fixtures.sprint_review "evt-1"
           Fixtures.internal_page w
           (resolve_internal_page E "evt-1" w).2).
  - reflexivity.
  - done.
  - vm_compute. reflexivity.
Defined.

(** X12. An event without start is mirrored nowhere: when the start of
    an event that is not cancelled holds neither a [dateTime] nor a
    [date], its reconciliation only looks the mirrors up in Notion; it
    sends no create, update or archive request and nothing to Discord. *)
Theorem event_without_start_is_not_mirrored (E : env) (ev : gevent)
    (w : world) :
  Py.truthy_opt (dateTime (ev_start ev)) = false ->
  Py.truthy_opt (date (ev_start ev)) = false ->
  ev_status ev <> Some "cancelled" ->
  Forall (fun c => is_lookup c = true) (calls_since w (upsert_event E ev w).2).
Proof.
  intros Hdt Hd Hst.
  assert (Hdate : build_notion_date ev = None).
  { unfold build_notion_date, Py.or_opt. by rewrite Hdt, Hd. }
  apply (follows_calls_since _ any_frame).
  apply (sat_follows _ _ _ (fun _ => True)).
  unfold upsert_event. destruct (negb _); [by apply sat_ret|]. cbv zeta.
  apply sat_bind_top; [apply lookups_only_internal | intros pg].
  apply sat_bind_top; [apply lookups_only_external | intros external_page].
  rewrite bool_decide_eq_false_2 by done.
  unfold upsert_active. cbv zeta. rewrite Hdate. sat_go.
Qed.

(** The three queries for [undated_event]. *)
Lemma event_without_start_is_not_mirrored_witness :
  let calls := calls_since Fixtures.world0
                 (upsert_event Fixtures.env0 Scenarios.undated_event
                    Fixtures.world0).2 in
  List.length calls = 3%nat /\
  Forall (fun c => is_lookup c = true) calls.
Proof.
  intros calls. split; [vm_compute; reflexivity|].
  apply (event_without_start_is_not_mirrored Fixtures.env0
           Scenarios.undated_event Fixtures.world0); done.
Defined.

(** ** A pass *)

(** X13. A failing event does not end the pass. The loop of
    [sync_calendar] over the events ([upsert_all]) never raises, and it
    never clears the error flag. When the reconciliation of an event
    raises, the error is logged, the flag is set, and the remaining
    events are reconciled from the globals that the failed reconciliation
    left. *)
Theorem upsert_failures_are_isolated (E : env) (ev : gevent)
    (rest : list gevent) (b : bool) (w : world) :
  (exists r w',
     upsert_all E (ev :: rest) b w = (Ret r, w') /\ (b = true -> r = true)) /\
  (forall exc w1,
     upsert_event E ev w = (Raise exc, w1) ->
     upsert_all E (ev :: rest) b w =
       upsert_all E rest true
         (push_log (Log ERROR "Upsert failed event_id=%s err=%s"
                        [fmt (ev_id ev); exc]) w1) /\
     exists w', upsert_all E (ev :: rest) b w = (Ret true, w')).
Proof.
  assert (Hret : forall evs b0 w0,
            exists r w', upsert_all E evs b0 w0 = (Ret r, w') /\
                         (b0 = true -> r = true)).
  { induction evs as [| ev0 evs IH]; intros b0 w0.
    - by exists b0, w0.
    - cbn [upsert_all]. unfold bind at 1, try_except.
      unfold bind at 1.
      destruct (upsert_event E ev0 w0) as [[[] | exc] w1].
      + cbn [ret]. destruct (IH (b0 || false) w1) as (r & w' & Hr & Hb).
        exists r, w'. split; [done|]. intros ->. by apply Hb.
      + rewrite bind_log. cbn [ret].
        destruct (IH (b0 || true)
                    (push_log (Log ERROR "Upsert failed event_id=%s err=%s"
                                   [fmt (ev_id ev0); exc]) w1))
          as (r & w' & Hr & Hb).
        exists r, w'. split; [done|]. intros _. apply Hb, orb_true_r. }
  split; [apply Hret|].
  intros exc w1 Hev.
  assert (Hstep : upsert_all E (ev :: rest) b w =
            upsert_all E rest true
              (push_log (Log ERROR "Upsert failed event_id=%s err=%s"
                             [fmt (ev_id ev); exc]) w1)).
  { cbn [upsert_all]. unfold bind at 1, try_except. unfold bind at 1.
    rewrite Hev, bind_log. cbn [ret]. by rewrite orb_true_r. }
  split; [done|]. rewrite Hstep.
  destruct (Hret rest true
              (push_log (Log ERROR "Upsert failed event_id=%s err=%s"
                             [fmt (ev_id ev); exc]) w1))
    as (r & w' & Hr & Hb).
  exists w'. rewrite Hr, Hb; done.
Qed.

(** X14. A pass that returns has moved the cursor: when [sync_calendar]
    is configured and returns, its last request is the write of the
    cursor and the state file holds that cursor, whether the events were
    reconciled or not (the result is [False] when a reconciliation
    raised). *)
Theorem pass_always_saves_cursor (E : env) (fuel : nat) (w w' : world)
    (synced : bool) :
  sync_configured (cfg E) ->
  sync_calendar E fuel w = (Ret (Some synced), w') ->
  exists cursor,
    last (trace w') = Some (SaveSyncState cursor) /\
    sync_state_file w' = Some cursor.
Proof.
  intros Hcfg. rewrite sync_calendar_steps by done.
  intros Hrun.
  apply bind_inv in Hrun as ([events|] & w1 & _ & Hrun); [| done].
  rewrite bind_log in Hrun.
  apply bind_inv in Hrun as (had_error & w2 & _ & Hrun).
  apply bind_inv in Hrun as (cursor & w3 & _ & Hrun).
  unfold save_sync_state in Hrun. rewrite bind_assoc in Hrun.
  apply bind_inv in Hrun as (r & w4 & Hsave & Hrun).
  rewrite bind_modify, bind_log in Hrun. injection Hrun as _ <-.
  exists cursor. unfold perform in Hsave.
  destruct (respond E (trace w3) (SaveSyncState cursor)); [done|].
  injection Hsave as _ <-. cbn. split; [apply last_snoc | done].
Qed.

(** The reconciliation of the one listed event raises (the queries of
    Notion time out): the pass returns [False], and the cursor has moved
    to the [updated] time of the event. *)
Lemma pass_always_saves_cursor_witness :
  let E := Scenarios.env_with Fixtures.cfg0 Scenarios.respond_notion_down
             Fixtures.feb_25 in
  let r := sync_calendar E 5 Fixtures.world0 in
  r.1 = Ret (Some false) /\
  sync_state_file r.2 = Some "2024-02-20T00:00:00+00:00" /\
  exists cursor,
    last (trace r.2) = Some (SaveSyncState cursor) /\
    sync_state_file r.2 = Some cursor.
Proof.
  intros E r.
  assert (Hrun : sync_calendar E 5 Fixtures.world0 = (Ret (Some false), r.2))
    by (vm_compute; reflexivity).
  split; [vm_compute; reflexivity|]. split; [vm_compute; reflexivity|].
  apply (pass_always_saves_cursor E 5 Fixtures.world0 r.2 false);
    [repeat split; reflexivity | exact Hrun].
Defined.



(** * Further properties of the bot *)

Import BotVocabulary.

(** ** The requests of a run *)

Section BotRules.

Context (P : Bot.call -> Prop).

Lemma emits_ret {A} (a : A) : emits P (Bot.ret a).
Proof. intros w. exists []. by rewrite app_nil_r. Qed.

Lemma emits_raise {A} exc : emits P (@Bot.raise A exc).
Proof. intros w. exists []. by rewrite app_nil_r. Qed.

Lemma emits_log l fmt args : emits P (Bot.log l fmt args).
Proof. intros w. exists []. by rewrite app_nil_r. Qed.

Lemma emits_perform (E : Bot.env) (c : Bot.call) :
  P c -> emits P (Bot.perform E c).
Proof.
  intros Hc w. exists [c]. unfold Bot.perform.
  destruct (Bot.respond E (Bot.trace w) c); (split; [done|]);
    by apply Forall_singleton.
Qed.

Lemma emits_bind {A B} (m : Bot.M A) (k : A -> Bot.M B) :
  emits P m -> (forall a, emits P (k a)) -> emits P (Bot.bind m k).
Proof.
  intros Hm Hk w. unfold Bot.bind. destruct (Hm w) as (n1 & H1 & P1).
  destruct (m w) as [[a | exc] w1]; cbn [snd] in *.
  - destruct (Hk a w1) as (n2 & H2 & P2). exists (n1 ++ n2).
    rewrite H2, H1, (assoc_L (++)). split; [done|]. by apply Forall_app.
  - by exists n1.
Qed.

Lemma emits_try_except {A} (m : Bot.M A) (h : string -> Bot.M A) :
  emits P m -> (forall exc, emits P (h exc)) -> emits P (Bot.try_except m h).
Proof.
  intros Hm Hh w. unfold Bot.try_except. destruct (Hm w) as (n1 & H1 & P1).
  destruct (m w) as [[a | exc] w1]; cbn [snd] in *.
  - by exists n1.
  - destruct (Hh exc w1) as (n2 & H2 & P2). exists (n1 ++ n2).
    rewrite H2, H1, (assoc_L (++)). split; [done|]. by apply Forall_app.
Qed.

Lemma emits_find_in_pages (pages : list page) (eid : string) :
  emits P (Bot.find_in_pages pages eid).
Proof.
  induction pages as [| p pages IH]; cbn [Bot.find_in_pages].
  - apply emits_ret.
  - destruct (default [] _) as [| node ?]; [done|].
    destruct (text_content node) as [mid|]; [| apply emits_raise].
    destruct (String.eqb mid eid); [apply emits_ret | done].
Qed.

Lemma emits_new {A} (m : Bot.M A) (w : Bot.world) :
  emits P m ->
  Forall P (drop (List.length (Bot.trace w)) (Bot.trace (m w).2)).
Proof.
  intros Hm. destruct (Hm w) as (new & -> & Hall).
  by rewrite drop_app_length.
Qed.

End BotRules.

(** Proves [emits P m] by following the structure of [m]; [side] proves
    [P] of each request. *)
Ltac emits_go_with side :=
  lazymatch goal with
  | |- emits _ (Bot.ret _) => apply emits_ret
  | |- emits _ (Bot.raise _) => apply emits_raise
  | |- emits _ (Bot.log _ _ _) => apply emits_log
  | |- emits _ (Bot.bind _ _) =>
      apply emits_bind; [emits_go_with side | intros ?; emits_go_with side]
  | |- emits _ (Bot.try_except _ _) =>
      apply emits_try_except;
        [emits_go_with side | intros ?; emits_go_with side]
  | |- emits _ (Bot.perform _ _) => apply emits_perform; side
  | |- emits _ (Bot.find_in_pages _ _) => apply emits_find_in_pages
  | |- emits _ (let _ := _ in _) => cbv zeta; emits_go_with side
  | |- emits _ (if ?b then _ else _) => destruct b eqn:?; emits_go_with side
  | |- emits _ (match ?x with _ => _ end) =>
      destruct x eqn:?; emits_go_with side
  | |- emits _ ?m => let h := head_of m in unfold h; emits_go_with side
  end.

Ltac emits_go := emits_go_with ltac:(first [exact I | done | cbn; done]).

(** ** The handlers of the scheduled events *)

(** X16. Each handler keeps to its kind of write. Among the requests of
    [on_scheduled_event_create] there is no delete or archive request;
    [on_scheduled_event_update] neither creates nor deletes or archives
    anything, in the calendar or in Notion (an event that has no page is
    logged, not created); and [on_scheduled_event_delete] neither creates
    nor updates anything. This holds for every event and whatever the
    services answer. *)
Theorem handlers_keep_to_their_kind (E : Bot.env)
    (before after : Bot.scheduled_event) (w : Bot.world) :
  let new m := drop (List.length (Bot.trace w)) (Bot.trace (m w).2) in
  Forall (fun c => removes c = false)
         (new (Bot.on_scheduled_event_create E after)) /\
  Forall (fun c => creates c = false /\ removes c = false)
         (new (Bot.on_scheduled_event_update E before after)) /\
  Forall (fun c => creates c = false /\ patches c = false)
         (new (Bot.on_scheduled_event_delete E after)).
Proof.
  cbv zeta. split; [| split]; apply emits_new; emits_go.
Qed.

Ltac external_free :=
  first [ exact I | done | intros Hext; cbn in Hext; done ].

Section Ignored.

Context (E : Bot.env).
Hypothesis distinct :
  Bot.NOTION_EVENT_INTERNAL_DB_ID (Bot.cfg E)
    <> Bot.NOTION_EVENT_EXTERNAL_DB_ID (Bot.cfg E).

Let P (c : Bot.call) : Prop := ~ to_external_db (Bot.cfg E) c.

Lemma internal_is_not_external :
  Py.truthy_opt (Bot.NOTION_EVENT_INTERNAL_DB_ID (Bot.cfg E)) = true ->
  Some (default "" (Bot.NOTION_EVENT_INTERNAL_DB_ID (Bot.cfg E)))
    <> Bot.NOTION_EVENT_EXTERNAL_DB_ID (Bot.cfg E).
Proof.
  destruct (Bot.NOTION_EVENT_INTERNAL_DB_ID (Bot.cfg E)) as [i|]; [| done].
  intros _. exact distinct.
Qed.

Ltac internal_side :=
  first [ exact I | done
        | intros Hext; cbn in Hext; first [done |
            match goal with
            | H : negb (Py.truthy_opt _) = false |- _ =>
                apply negb_false_iff in H;
                by apply (internal_is_not_external H)
            end ] ].

Lemma find_event_page_internal eid :
  emits P (Bot.find_event_page E
             (Bot.NOTION_EVENT_INTERNAL_DB_ID (Bot.cfg E)) eid).
Proof. emits_go_with internal_side. Qed.

Lemma notion_add_event_internal name content date_iso mid creator url gid loc :
  emits P (Bot.notion_add_event E
             (Bot.NOTION_EVENT_INTERNAL_DB_ID (Bot.cfg E)) name content
             date_iso mid creator url gid loc).
Proof. emits_go_with internal_side. Qed.

End Ignored.

(** X17. An excluded event stays out of the external database: for an
    event whose name contains the excluded word ([is_ignored_event]), and
    with two distinct databases, none of the three handlers sends a
    create request into the external database or a query to it. *)
Theorem ignored_event_stays_out_of_external_db (E : Bot.env)
    (before event : Bot.scheduled_event) (w : Bot.world) :
  Bot.is_ignored_event (Bot.se_name event) = true ->
  Bot.NOTION_EVENT_INTERNAL_DB_ID (Bot.cfg E)
    <> Bot.NOTION_EVENT_EXTERNAL_DB_ID (Bot.cfg E) ->
  let new m := drop (List.length (Bot.trace w)) (Bot.trace (m w).2) in
  Forall (fun c => ~ to_external_db (Bot.cfg E) c)
         (new (Bot.on_scheduled_event_create E event)) /\
  Forall (fun c => ~ to_external_db (Bot.cfg E) c)
         (new (Bot.on_scheduled_event_update E before event)) /\
  Forall (fun c => ~ to_external_db (Bot.cfg E) c)
         (new (Bot.on_scheduled_event_delete E event)).
Proof.
  intros Hign Hdb.
  pose proof (find_event_page_internal E Hdb) as Hfind.
  pose proof (notion_add_event_internal E Hdb) as Hadd.
  cbv zeta. split; [| split]; apply emits_new.
  - unfold Bot.on_scheduled_event_create. cbv zeta. rewrite Hign. cbn [negb].
    destruct (Bot.is_bot_created_scheduled_event E event);
      [apply emits_log|].
    apply emits_bind; [emits_go_with external_free | intros google_event].
    apply emits_bind; [apply emits_log | intros _].
    apply emits_bind; [apply Hadd | intros _; apply emits_log].
  - unfold Bot.on_scheduled_event_update. cbv zeta. rewrite Hign. cbn [negb].
    destruct (Bot.is_bot_created_scheduled_event E event);
      [apply emits_log|].
    apply emits_bind; [emits_go_with external_free | intros target].
    apply emits_bind; [apply Hfind | intros internal_target].
    emits_go_with external_free.
  - unfold Bot.on_scheduled_event_delete. cbv zeta. rewrite Hign. cbn [negb].
    destruct (Bot.is_bot_created_scheduled_event E event);
      [apply emits_log|].
    apply emits_bind; [apply emits_log | intros _].
    apply emits_bind; [apply Hfind | intros internal_target].
    emits_go_with external_free.
Qed.

(** A regular meeting created by a user: the create handler inserts it
    into the calendar and creates its page in the internal database
    only. *)
Lemma ignored_event_stays_out_of_external_db_witness :
  let E := Fixtures.bot_env in
  let event := Scenarios.regular_meeting in
  let w := Fixtures.bot_world0 in
  let new m := drop (List.length (Bot.trace w)) (Bot.trace (m w).2) in
  List.length (new (Bot.on_scheduled_event_create E event)) = 3%nat /\
  Forall (fun c => ~ to_external_db (Bot.cfg E) c)
         (new (Bot.on_scheduled_event_create E event)) /\
  Forall (fun c => ~ to_external_db (Bot.cfg E) c)
         (new (Bot.on_scheduled_event_update E event event)) /\
  Forall (fun c => ~ to_external_db (Bot.cfg E) c)
         (new (Bot.on_scheduled_event_delete E event)).
Proof.
  intros E event w new. split; [vm_compute; reflexivity|].
  apply (ignored_event_stays_out_of_external_db E event event w).
  - vm_compute. reflexivity.
  - done.
Defined.

Lemma bind_extends {A B} (m : Bot.M A) (k : A -> Bot.M B) (w : Bot.world) :
  (forall a, emits (fun _ => True) (k a)) ->
  exists more, Bot.trace (Bot.bind m k w).2 = Bot.trace (m w).2 ++ more.
Proof.
  intros Hk. unfold Bot.bind. destruct (m w) as [[a | exc] w1]; cbn [snd].
  - destruct (Hk a w1) as (more & Hmore & _). by exists more.
  - exists []. by rewrite app_nil_r.
Qed.

(** The first request of [notion_add_event] into a configured database is
    the create request. *)
Lemma notion_add_event_first (E : Bot.env) (db : option string)
    (name content date mid creator : string) (url gid loc : option string)
    (w : Bot.world) :
  Py.truthy_opt db = true ->
  exists rest,
    Bot.trace (Bot.notion_add_event E db name content date mid creator url
                 gid loc w).2 =
      Bot.trace w ++
        Bot.NotionCreatePage
          (Bot.NotionAdd (default "" db) name content date mid creator url
                         gid loc) :: rest.
Proof.
  intros Hdb. unfold Bot.notion_add_event. rewrite Hdb. cbn [negb].
  set (c := Bot.NotionCreatePage _).
  destruct (bind_extends (Bot.perform E c)
              (fun r =>
                 if negb ((r.1 =? 200) || (r.1 =? 201))
                 then Bot.bind (Bot.log ERROR "Notion作成エラー: %s" [])
                        (fun _ => Bot.ret None)
                 else
                   match r.2 with
                   | Bot.BPage p =>
                       Bot.bind
                         (Bot.notion_update_event E (pg_id p)
                            (Bot.NotionProps None None None None
                               (Some (pg_id p)) None None None))
                         (fun _ => Bot.ret (Some (pg_id p)))
                   | _ => Bot.raise "KeyError"
                   end) w) as (more & Hmore).
  { intros r. emits_go. }
  exists more. rewrite Hmore. unfold Bot.perform.
  destruct (Bot.respond E (Bot.trace w) c); cbn [snd Bot.trace];
    by rewrite <- (assoc_L (++)).
Qed.

(** X18. A failure of the calendar does not stop the registration in
    Notion. When the insert into the calendar raises for an event that a
    user created, [on_scheduled_event_create] swallows the error, and its
    next request creates the page of the event in Notion, without a
    calendar id, under the name of the event and with the id of the
    Discord event as message id. *)
Theorem calendar_failure_does_not_block_notion (E : Bot.env)
    (event : Bot.scheduled_event) (w : Bot.world) :
  Bot.is_bot_created_scheduled_event E event = false ->
  Bot.google_service E = true ->
  calendar_down E ->
  Py.truthy_opt (Bot.NOTION_EVENT_INTERNAL_DB_ID (Bot.cfg E)) = true ->
  exists body data rest,
    Bot.trace (Bot.on_scheduled_event_create E event w).2 =
      Bot.trace w
        ++ Bot.GoogleInsert body :: Bot.NotionCreatePage data :: rest /\
    Bot.na_google_event_id data = None /\
    Bot.na_title data = Bot.se_name event /\
    Bot.na_message_id data = pretty (Bot.se_id event).
Proof.
  intros Hbot Hsvc Hdown Hint.
  unfold Bot.on_scheduled_event_create. cbv zeta. rewrite Hbot.
  unfold Bot.bind at 1, Bot.google_add_event. rewrite Hsvc. cbn [negb].
  unfold Bot.try_except, Bot.bind at 1, Bot.perform.
  match goal with
  | |- context [Bot.respond E (Bot.trace w) (Bot.GoogleInsert ?b)] =>
      destruct (Hdown (Bot.trace w) b) as (exc & ->); exists b
  end.
  cbn [Bot.bind Bot.log Bot.ret fst snd].
  destruct (negb (Bot.is_ignored_event (Bot.se_name event)));
    [destruct (Py.truthy_opt (Bot.NOTION_EVENT_EXTERNAL_DB_ID (Bot.cfg E)))
       eqn:Hext|].
  - (* the page of the external database comes first *)
    match goal with
    | |- context [Bot.bind ?m ?k ?w1] =>
        destruct (bind_extends m k w1) as (more & ->); [intros; emits_go|]
    end.
    match goal with
    | |- context [Bot.bind ?m ?k ?w1] =>
        destruct (bind_extends m k w1) as (more' & ->); [intros; emits_go|]
    end.
    match goal with
    | |- context [Bot.notion_add_event E ?db ?n ?c ?d ?m ?cr ?u ?g ?l ?w1] =>
        destruct (notion_add_event_first E db n c d m cr u g l w1 Hext)
          as (rest & ->)
    end.
    eexists _, _. cbn [Bot.trace]. rewrite <- !(assoc_L (++)). cbn [app].
    split; [reflexivity | done].
  - (* no external database: the page of the internal database *)
    unfold Bot.bind at 1. unfold Bot.bind at 1.
    unfold Bot.notion_add_event at 1. rewrite Hext. cbn [negb Bot.ret].
    match goal with
    | |- context [Bot.bind ?m ?k ?w1] =>
        destruct (bind_extends m k w1) as (more & ->); [intros; emits_go|]
    end.
    match goal with
    | |- context [Bot.notion_add_event E ?db ?n ?c ?d ?m ?cr ?u ?g ?l ?w1] =>
        destruct (notion_add_event_first E db n c d m cr u g l w1 Hint)
          as (rest & ->)
    end.
    eexists _, _. cbn [Bot.trace]. rewrite <- !(assoc_L (++)). cbn [app].
    split; [reflexivity | done].
  - (* an excluded event: the page of the internal database *)
    unfold Bot.bind at 1. cbn [Bot.log].
    match goal with
    | |- context [Bot.bind ?m ?k ?w1] =>
        destruct (bind_extends m k w1) as (more & ->); [intros; emits_go|]
    end.
    match goal with
    | |- context [Bot.notion_add_event E ?db ?n ?c ?d ?m ?cr ?u ?g ?l ?w1] =>
        destruct (notion_add_event_first E db n c d m cr u g l w1 Hint)
          as (rest & ->)
    end.
    eexists _, _. cbn [Bot.trace]. rewrite <- !(assoc_L (++)). cbn [app].
    split; [reflexivity | done].
Qed.

(** The calendar rejects the insert of the event that user 77 created:
    the two pages are created all the same. *)
Lemma calendar_failure_does_not_block_notion_witness :
  let E := Scenarios.bot_env_calendar_down in
  let r := Bot.on_scheduled_event_create E (Fixtures.scheduled 77)
             Fixtures.bot_world0 in
  r.1 = Ret tt /\
  map (fun c => (Bot.is_calendar_call c, creates c)) (Bot.trace r.2) =
    [ (true, true); (false, true); (false, false); (false, true);
      (false, false) ] /\
  exists body data rest,
    Bot.trace r.2 =
      Bot.trace Fixtures.bot_world0
        ++ Bot.GoogleInsert body :: Bot.NotionCreatePage data :: rest /\
    Bot.na_google_event_id data = None /\
    Bot.na_title data = Bot.se_name (Fixtures.scheduled 77) /\
    Bot.na_message_id data = pretty (Bot.se_id (Fixtures.scheduled 77)).
Proof.
  intros E r. split; [vm_compute; reflexivity|].
  split; [vm_compute; reflexivity|].
  apply (calendar_failure_does_not_block_notion E (Fixtures.scheduled 77)
           Fixtures.bot_world0).
  - reflexivity.
  - reflexivity.
  - intros h body. by exists "HttpError 403".
  - reflexivity.
Defined.

(** ** The lookup of the page of a scheduled event *)

Lemma find_in_pages_sound (pages : list page) (eid : string) (p : page)
    (w w' : Bot.world) :
  Bot.find_in_pages pages eid w = (Ret (Some p), w') ->
  w' = w /\
  exists before after,
    pages = before ++ p :: after /\
    message_id_of p = Some eid /\
    Forall (fun q => message_id_of q <> Some eid) before.
Proof.
  revert w w'. induction pages as [| q pages IH]; intros w w'; [done|].
  cbn [Bot.find_in_pages].
  destruct (default [] (pg_rich_text q !! "メッセージID")) as [| node nodes]
    eqn:Hq.
  - intros Hrun.
    destruct (IH _ _ Hrun) as (-> & before & after & -> & Hp & Hb).
    split; [done|]. exists (q :: before), after. split; [done|].
    split; [done|]. constructor; [| done]. unfold message_id_of.
    by rewrite Hq.
  - destruct (text_content node) as [mid|] eqn:Hmid; [| done].
    destruct (String.eqb_spec mid eid) as [-> | Hne].
    + intros [= <- <-]. split; [done|]. exists [], pages.
      split; [done|]. split; [| done]. unfold message_id_of.
      by rewrite Hq.
    + intros Hrun.
      destruct (IH _ _ Hrun) as (-> & before & after & -> & Hp & Hb).
      split; [done|]. exists (q :: before), after. split; [done|].
      split; [done|]. constructor; [| done]. unfold message_id_of.
      rewrite Hq, Hmid. congruence.
Qed.

(** X19. [find_event_page] returns the first page of the listing that
    carries the id of the scheduled event. When it returns a page, the
    database id is set, the one request of the run is the query of that
    database, it was answered with a list of pages, and the returned
    page is the first page of that list whose message-id column holds
    the event id. *)
Theorem find_event_page_returns_first_match (E : Bot.env)
    (db_id : option string) (eid : string) (p : page) (w w' : Bot.world) :
  Bot.find_event_page E db_id eid w = (Ret (Some p), w') ->
  exists db status before after,
    db_id = Some db /\ db <> "" /\
    Bot.respond E (Bot.trace w) (Bot.NotionQueryAll db)
      = Bot.Http status (Bot.BResults (before ++ p :: after)) /\
    Bot.trace w' = Bot.trace w ++ [Bot.NotionQueryAll db] /\
    message_id_of p = Some eid /\
    Forall (fun q => message_id_of q <> Some eid) before.
Proof.
  unfold Bot.find_event_page, Bot.bind at 1, Bot.fetch_event_pages.
  destruct (Py.truthy_opt db_id) eqn:Hdb; [| done]. cbn [negb].
  destruct db_id as [db|]; [| done]. cbn [default from_option id].
  unfold Bot.bind at 1, Bot.perform.
  destruct (Bot.respond E (Bot.trace w) (Bot.NotionQueryAll db))
    as [exc | status data] eqn:Hr; [done|].
  cbn [fst snd].
  destruct (negb (status =? 200)); [done|].
  destruct data as [| | results |]; try done.
  cbn [Bot.ret]. intros Hrun.
  apply find_in_pages_sound in Hrun
    as (-> & before & after & -> & Hp & Hb).
  exists db, status, before, after. split; [done|].
  split; [by apply truthy_true|]. done.
Qed.

(** The listing holds the pages of the scheduled events 1000 and 1001;
    the page of 1001 is found. *)
Lemma find_event_page_returns_first_match_witness :
  let E := Scenarios.bot_env_listed in
  let p := Scenarios.page_of "page-b" "1001" in
  let r := Bot.find_event_page E (Some "db-internal") "1001"
             Fixtures.bot_world0 in
  r.1 = Ret (Some p) /\
  exists db status before after,
    Some "db-internal" = Some db /\ db <> "" /\
    Bot.respond E (Bot.trace Fixtures.bot_world0) (Bot.NotionQueryAll db)
      = Bot.Http status (Bot.BResults (before ++ p :: after)) /\
    Bot.trace r.2 = Bot.trace Fixtures.bot_world0 ++ [Bot.NotionQueryAll db] /\
    message_id_of p = Some "1001" /\
    Forall (fun q => message_id_of q <> Some "1001") before.
Proof.
  intros E p r.
  assert (Hrun : Bot.find_event_page E (Some "db-internal") "1001"
                   Fixtures.bot_world0 = (Ret (Some p), r.2))
    by (vm_compute; reflexivity).
  split; [vm_compute; reflexivity|].
  exact (find_event_page_returns_first_match E (Some "db-internal") "1001" p
           Fixtures.bot_world0 r.2 Hrun).
Defined.

(** * Further properties: the environment variables *)

Lemma lstrip_clean (cs : list ascii) :
  match Py.lstrip cs with
  | c :: _ => Py.is_space c = false
  | [] => True
  end.
Proof.
  induction cs as [| c cs IH]; cbn [Py.lstrip]; [done|].
  destruct (Py.is_space c) eqn:Hc; [exact IH | exact Hc].
Qed.

Lemma lstrip_fixed (cs : list ascii) :
  match cs with
  | c :: _ => Py.is_space c = false
  | [] => True
  end ->
  Py.lstrip cs = cs.
Proof. destruct cs as [| c cs]; cbn [Py.lstrip]; [done|]. by intros ->. Qed.

Lemma lstrip_suffix (cs : list ascii) : Py.lstrip cs `suffix_of` cs.
Proof.
  induction cs as [| c cs IH]; cbn [Py.lstrip]; [done|].
  destruct (Py.is_space c); [by apply suffix_cons_r | done].
Qed.

Lemma strip_chars_fixed (cs : list ascii) :
  let l := rev (Py.lstrip (rev (Py.lstrip cs))) in
  rev (Py.lstrip (rev (Py.lstrip l))) = l.
Proof.
  cbv zeta. set (x := Py.lstrip cs). set (l' := Py.lstrip (rev x)).
  assert (Hhead : Py.lstrip (rev l') = rev l').
  { apply lstrip_fixed.
    destruct (lstrip_suffix (rev x)) as [k Hk]. fold l' in Hk.
    destruct (rev l') as [| c t] eqn:Hrev; [done|].
    assert (Hl' : l' = rev t ++ [c]).
    { by rewrite <- (rev_involutive l'), Hrev. }
    rewrite Hl', (assoc_L (++)) in Hk.
    apply (f_equal (@rev ascii)) in Hk.
    rewrite rev_involutive, rev_app_distr in Hk. cbn [rev app] in Hk.
    pose proof (lstrip_clean cs) as Hx. fold x in Hx. by rewrite Hk in Hx. }
  rewrite Hhead, rev_involutive.
  rewrite (lstrip_fixed l'); [done|]. apply lstrip_clean.
Qed.

Lemma strip_idemp (s : string) : Py.strip (Py.strip s) = Py.strip s.
Proof.
  unfold Py.strip. rewrite String.list_ascii_of_string_of_list_ascii.
  by rewrite strip_chars_fixed.
Qed.

(** X20. [getenv_clean] returns the default or a clean value: its result
    is the default, or a string that is not empty and that [strip] leaves
    as it is. A variable that is set to white space only counts as not
    set: the result is the default. *)
Theorem getenv_clean_is_clean (environ : gmap string string) (name : string)
    (default : option string) :
  let r := Environ.getenv_clean environ name default in
  (r = default \/ exists v, r = Some v /\ v <> "" /\ Py.strip v = v) /\
  (forall raw, environ !! name = Some raw -> Py.strip raw = "" ->
               r = default).
Proof.
  cbv zeta. unfold Environ.getenv_clean, Environ.getenv. split.
  - destruct (environ !! name) as [raw|]; [| destruct default as [raw|]].
    + destruct (Py.truthy (Py.strip raw)) eqn:Ht; [right | by left].
      exists (Py.strip raw). split; [done|].
      split; [by apply truthy_true | apply strip_idemp].
    + destruct (Py.truthy (Py.strip raw)) eqn:Ht; [right | by left].
      exists (Py.strip raw). split; [done|].
      split; [by apply truthy_true | apply strip_idemp].
    + by left.
  - intros raw -> ->. done.
Qed.

(** * Further properties of the periodic tasks of the bot *)

Import TaskVocabulary.

(** ** The cleanup of the event databases *)

Ltac stops_here :=
  exists []; cbn; rewrite app_nil_r; split; [done|];
  split; [apply prefix_nil | done].

Lemma expired_unfold (E : Tasks.env) (today : Z) (p : Tasks.page) :
  expired E today p =
    match Tasks.page_date p with
    | Some (Some d) =>
        match Tasks.dv_start d with
        | Some start =>
            match Tasks.fromisoformat E start with
            | Some parsed => today - Tasks.date_of parsed >=? 30
            | None => false
            end
        | None => false
        end
    | _ => false
    end.
Proof.
  unfold expired, start_day. destruct (Tasks.page_date p) as [[d|]|]; [| done..].
  destruct (Tasks.dv_start d) as [start|]; [| done].
  by destruct (Tasks.fromisoformat E start).
Qed.

Lemma archive_past_requests (E : Tasks.env) (today : Z)
    (pages : list Tasks.page) (w w' : Tasks.world) (o : outcome unit) :
  Tasks.archive_past E today pages w = (o, w') ->
  exists archived,
    Tasks.trace w' = Tasks.trace w ++ map archive_of archived /\
    archived `prefix_of` List.filter (expired E today) pages /\
    (o = Ret tt -> archived = List.filter (expired E today) pages).
Proof.
  revert w. induction pages as [| p pages IH]; intros w.
  { intros [= <- <-]. stops_here. }
  cbn [Tasks.archive_past List.filter]. rewrite (expired_unfold E today p).
  destruct (Tasks.page_date p) as [[d|]|];
    [| by apply IH | intros [= <- <-]; stops_here].
  destruct (Tasks.dv_start d) as [start|]; [| intros [= <- <-]; stops_here].
  destruct (Tasks.fromisoformat E start) as [parsed|];
    [| intros [= <- <-]; stops_here].
  destruct (today - Tasks.date_of parsed >=? 30).
  - unfold Effects.bind at 1. unfold Effects.bind at 1. unfold Tasks.perform.
    destruct (Tasks.respond E (Tasks.trace w) _) as [exc | status data].
    + intros [= <- <-]. exists [p]. split; [done|]. split; [| done].
      apply prefix_cons, prefix_nil.
    + cbn [Tasks.log]. intros Hrun.
      destruct (IH _ Hrun) as (a & Ht & Hp & Hr).
      exists (p :: a). cbn [Tasks.trace] in Ht.
      rewrite Ht, <- (assoc_L (++)). split; [done|].
      split; [by apply prefix_cons|]. intros Hret. by rewrite Hr.
  - unfold Effects.bind at 1. cbn [Effects.ret]. by apply IH.
Qed.

Lemma delete_past_run (E : Tasks.env) (db : string)
    (pages : list Tasks.page) (w w' : Tasks.world) (o : outcome unit) :
  db <> "" ->
  Tasks.respond E (Tasks.trace w) (Tasks.NotionQueryAll db)
    = Tasks.Http 200 (Tasks.BResults pages) ->
  Tasks.delete_past_events_for_db E (Some db) w = (o, w') ->
  let today := Tasks.date_of (now_after E w (Tasks.NotionQueryAll db)) in
  exists archived,
    Tasks.trace w'
      = Tasks.trace w ++ Tasks.NotionQueryAll db :: map archive_of archived /\
    archived `prefix_of` List.filter (expired E today) pages /\
    (o = Ret tt -> archived = List.filter (expired E today) pages).
Proof.
  intros Hdb Hq. cbv zeta. unfold Tasks.delete_past_events_for_db.
  cbn [Py.truthy_opt]. apply truthy_true in Hdb as ->. cbn [negb].
  unfold Effects.bind at 1, Tasks.perform.
  cbn [default from_option id]. rewrite Hq. cbn [fst snd Z.eqb Pos.eqb negb].
  unfold Effects.bind at 1, Tasks.now_jst, Effects.bind at 1, Tasks.read_clock.
  cbn [Effects.ret Tasks.trace Tasks.clock_reads]. intros Hrun.
  destruct (archive_past_requests _ _ _ _ _ _ Hrun) as (a & Ht & Hp & Hr).
  exists a. cbn [Tasks.trace] in Ht. rewrite Ht, <- (assoc_L (++)). done.
Qed.

(** X21. The cleanup of the external database archives the expired
    pages, and only them. When the query of a database is answered with
    pages, the requests of [delete_past_events_for_db] after the query
    are archive requests for pages of the listing that started thirty
    days before today (in Japanese time) or earlier, in the order of the
    listing: all of them when the run returns, and a first part of them
    when a request or a page makes it raise. A page without date, or one
    that started less than thirty days ago, is never archived. *)
Theorem past_cleanup_archives_the_expired (E : Tasks.env) (db : string)
    (pages : list Tasks.page) (w : Tasks.world) :
  db <> "" ->
  Tasks.respond E (Tasks.trace w) (Tasks.NotionQueryAll db)
    = Tasks.Http 200 (Tasks.BResults pages) ->
  let r := Tasks.delete_past_events_for_db E (Some db) w in
  let today := Tasks.date_of (now_after E w (Tasks.NotionQueryAll db)) in
  exists archived,
    Tasks.trace r.2
      = Tasks.trace w ++ Tasks.NotionQueryAll db :: map archive_of archived /\
    archived `prefix_of` List.filter (expired E today) pages /\
    (r.1 = Ret tt -> archived = List.filter (expired E today) pages).
Proof.
  intros Hdb Hq. cbv zeta.
  destruct (Tasks.delete_past_events_for_db E (Some db) w) as [o w'] eqn:Hrun.
  exact (delete_past_run E db pages w w' o Hdb Hq Hrun).
Qed.

Lemma finished_unfold (E : Tasks.env) (now : datetime) (p : Tasks.page) :
  finished E now p =
    match Tasks.page_date p with
    | Some (Some d) =>
        let end_iso := Py.or_opt (Tasks.dv_end d) (Tasks.dv_start d) in
        if negb (Py.truthy_opt end_iso) then false
        else
          match Tasks.fromisoformat E (default "" end_iso) with
          | Some end_dt => default false (dt_le end_dt now)
          | None => false
          end
    | _ => false
    end.
Proof.
  unfold finished, end_of.
  destruct (Tasks.page_date p) as [[d|]|]; [| done..]. cbv zeta.
  destruct (Py.or_opt (Tasks.dv_end d) (Tasks.dv_start d)) as [s|]; [| done].
  cbn [Py.truthy_opt default from_option id].
  by destruct (Py.truthy s).
Qed.

Lemma archive_finished_requests (E : Tasks.env) (now : datetime)
    (pages : list Tasks.page) (w w' : Tasks.world) (o : outcome unit) :
  Tasks.archive_finished E now pages w = (o, w') ->
  exists archived,
    Tasks.trace w' = Tasks.trace w ++ map archive_of archived /\
    archived `prefix_of` List.filter (finished E now) pages /\
    (o = Ret tt -> archived = List.filter (finished E now) pages).
Proof.
  revert w. induction pages as [| p pages IH]; intros w.
  { intros [= <- <-]. stops_here. }
  cbn [Tasks.archive_finished List.filter]. rewrite (finished_unfold E now p).
  destruct (Tasks.page_date p) as [[d|]|];
    [| by apply IH | intros [= <- <-]; stops_here].
  cbv zeta.
  destruct (negb (Py.truthy_opt _)); [by apply IH|].
  destruct (Tasks.fromisoformat E _) as [end_dt|];
    [| intros [= <- <-]; stops_here].
  destruct (dt_le end_dt now) as [[|]|]; cbn [default from_option id];
    [| | intros [= <- <-]; stops_here].
  - unfold Effects.bind at 1. unfold Effects.bind at 1. unfold Tasks.perform.
    destruct (Tasks.respond E (Tasks.trace w) _) as [exc | status data].
    + intros [= <- <-]. exists [p]. split; [done|]. split; [| done].
      apply prefix_cons, prefix_nil.
    + cbn [Tasks.log]. intros Hrun.
      destruct (IH _ Hrun) as (a & Ht & Hp & Hr).
      exists (p :: a). cbn [Tasks.trace] in Ht.
      rewrite Ht, <- (assoc_L (++)). split; [done|].
      split; [by apply prefix_cons|]. intros Hret. by rewrite Hr.
  - unfold Effects.bind at 1. cbn [Effects.ret]. by apply IH.
Qed.

Lemma delete_finished_run (E : Tasks.env) (db : string)
    (pages : list Tasks.page) (w w' : Tasks.world) (o : outcome unit) :
  db <> "" ->
  Tasks.respond E (Tasks.trace w) (Tasks.NotionQueryAll db)
    = Tasks.Http 200 (Tasks.BResults pages) ->
  Tasks.delete_finished_events_for_db E (Some db) w = (o, w') ->
  let now := now_after E w (Tasks.NotionQueryAll db) in
  exists archived,
    Tasks.trace w'
      = Tasks.trace w ++ Tasks.NotionQueryAll db :: map archive_of archived /\
    archived `prefix_of` List.filter (finished E now) pages /\
    (o = Ret tt -> archived = List.filter (finished E now) pages).
Proof.
  intros Hdb Hq. cbv zeta. unfold Tasks.delete_finished_events_for_db.
  cbn [Py.truthy_opt]. apply truthy_true in Hdb as ->. cbn [negb].
  unfold Effects.bind at 1, Tasks.perform.
  cbn [default from_option id]. rewrite Hq. cbn [fst snd Z.eqb Pos.eqb negb].
  unfold Effects.bind at 1, Tasks.now_jst, Effects.bind at 1, Tasks.read_clock.
  cbn [Effects.ret Tasks.trace Tasks.clock_reads]. intros Hrun.
  destruct (archive_finished_requests _ _ _ _ _ _ Hrun) as (a & Ht & Hp & Hr).
  exists a. cbn [Tasks.trace] in Ht. rewrite Ht, <- (assoc_L (++)). done.
Qed.

(** X22. The cleanup of the internal database archives the finished
    pages, and only them. When the query of a database is answered with
    pages, the requests of [delete_finished_events_for_db] after the
    query are archive requests for pages of the listing whose end (the
    start, for a page without end) is not after the current time, in the
    order of the listing: all of them when the run returns, and a first
    part of them when a request or a page makes it raise. *)
Theorem finished_cleanup_archives_the_ended (E : Tasks.env) (db : string)
    (pages : list Tasks.page) (w : Tasks.world) :
  db <> "" ->
  Tasks.respond E (Tasks.trace w) (Tasks.NotionQueryAll db)
    = Tasks.Http 200 (Tasks.BResults pages) ->
  let r := Tasks.delete_finished_events_for_db E (Some db) w in
  let now := now_after E w (Tasks.NotionQueryAll db) in
  exists archived,
    Tasks.trace r.2
      = Tasks.trace w ++ Tasks.NotionQueryAll db :: map archive_of archived /\
    archived `prefix_of` List.filter (finished E now) pages /\
    (r.1 = Ret tt -> archived = List.filter (finished E now) pages).
Proof.
  intros Hdb Hq. cbv zeta.
  destruct (Tasks.delete_finished_events_for_db E (Some db) w)
    as [o w'] eqn:Hrun.
  exact (delete_finished_run E db pages w w' o Hdb Hq Hrun).
Qed.

Lemma archive_finished_stops (E : Tasks.env) (now : datetime)
    (before after : list Tasks.page) (p : Tasks.page) (dt : datetime)
    (w : Tasks.world) :
  is_Some (dt_utcoffset now) ->
  end_of E p = Some dt ->
  dt_utcoffset dt = None ->
  always_answers E ->
  Forall (fun q => reads_aware E q = true) before ->
  exists w',
    Tasks.archive_finished E now (before ++ p :: after) w
      = (Raise "TypeError", w') /\
    Tasks.trace w'
      = Tasks.trace w ++ map archive_of (List.filter (finished E now) before).
Proof.
  intros [o Hnow] Hend Hnaive Hans Hbefore. revert w.
  induction Hbefore as [| q before Hq Hbefore IH]; intros w.
  - cbn [app Tasks.archive_finished List.filter map]. rewrite app_nil_r.
    revert Hend. unfold end_of.
    destruct (Tasks.page_date p) as [[d|]|]; [| done..].
    destruct (Py.or_opt (Tasks.dv_end d) (Tasks.dv_start d)) as [s|]; [| done].
    cbn [Py.truthy_opt default from_option id].
    destruct (Py.truthy s); [| done]. intros ->. cbn [negb].
    unfold dt_le. rewrite Hnaive, Hnow. by eexists.
  - cbn [app Tasks.archive_finished List.filter].
    rewrite (finished_unfold E now q). revert Hq. unfold reads_aware.
    destruct (Tasks.page_date q) as [[d|]|]; [| intros _; apply IH | done].
    cbv zeta.
    destruct (Py.or_opt (Tasks.dv_end d) (Tasks.dv_start d)) as [s|];
      cbn [Py.truthy_opt default from_option id negb]; [| intros _; apply IH].
    destruct (Py.truthy s); cbn [negb orb]; [| intros _; apply IH].
    destruct (Tasks.fromisoformat E s) as [end_dt|]; [| done].
    intros Haware. apply bool_decide_eq_true in Haware as [oe Hoe].
    unfold dt_le. rewrite Hoe, Hnow. cbn [default from_option id].
    destruct (dt_wall end_dt - oe <=? dt_wall now - o).
    + unfold Effects.bind at 1. unfold Effects.bind at 1.
      unfold Tasks.perform.
      destruct (Hans (Tasks.trace w) (Tasks.NotionArchivePage (Tasks.page_id q)))
        as (status & data & ->).
      cbn [Tasks.log].
      match goal with
      | |- context [Tasks.archive_finished E now _ ?w1] =>
          destruct (IH w1) as (w' & -> & Ht)
      end.
      exists w'. split; [done|]. rewrite Ht. cbn [Tasks.trace map].
      by rewrite <- (assoc_L (++)).
    + unfold Effects.bind at 1. cbn [Effects.ret]. apply IH.
Qed.

(** X23. A page with a date but no time stops the cleanup of the internal
    database. The end of such a page is read as a naive time, which
    Python cannot compare with the current time in Japan: when every
    request is answered and the pages before it in the listing are read
    without error, [delete_finished_events_for_db] raises [TypeError] at
    that page. The finished pages before it are archived; the pages
    behind it are not looked at, whether they are finished or not. *)
Theorem date_only_page_stops_cleanup (E : Tasks.env) (db : string)
    (before after : list Tasks.page) (p : Tasks.page) (dt : datetime)
    (w : Tasks.world) :
  db <> "" ->
  Tasks.respond E (Tasks.trace w) (Tasks.NotionQueryAll db)
    = Tasks.Http 200 (Tasks.BResults (before ++ p :: after)) ->
  end_of E p = Some dt ->
  dt_utcoffset dt = None ->
  always_answers E ->
  Forall (fun q => reads_aware E q = true) before ->
  let r := Tasks.delete_finished_events_for_db E (Some db) w in
  let now := now_after E w (Tasks.NotionQueryAll db) in
  r.1 = Raise "TypeError" /\
  Tasks.trace r.2
    = Tasks.trace w ++ Tasks.NotionQueryAll db
        :: map archive_of (List.filter (finished E now) before).
Proof.
  intros Hdb Hq Hend Hnaive Hans Hbefore. cbv zeta.
  destruct (Tasks.delete_finished_events_for_db E (Some db) w)
    as [o w''] eqn:Hrun.
  cbn [fst snd]. revert Hrun. unfold Tasks.delete_finished_events_for_db.
  cbn [Py.truthy_opt]. apply truthy_true in Hdb as ->. cbn [negb].
  unfold Effects.bind at 1, Tasks.perform.
  cbn [default from_option id]. rewrite Hq. cbn [fst snd Z.eqb Pos.eqb negb].
  unfold Effects.bind at 1, Tasks.now_jst, Effects.bind at 1, Tasks.read_clock.
  cbn [Effects.ret Tasks.trace Tasks.clock_reads].
  match goal with
  | |- context [Tasks.archive_finished E ?n _ ?w1] =>
      destruct (archive_finished_stops E n before after p dt w1
                  ltac:(by eexists) Hend Hnaive Hans Hbefore) as (w' & -> & Ht)
  end.
  intros [= <- <-]. split; [done|]. rewrite Ht. cbn [Tasks.trace].
  by rewrite <- (assoc_L (++)).
Qed.

(** Three pages of the external database on 31 May 2024: one of 1 April,
    one without date and one of 20 May. The first is archived. *)
Lemma past_cleanup_archives_the_expired_witness :
  let E := TaskScenarios.env_events TaskScenarios.event_listing in
  let w := TaskScenarios.world0 in
  let query := Tasks.NotionQueryAll "db-external" in
  let r := Tasks.delete_past_events_for_db E (Some "db-external") w in
  let today := Tasks.date_of (now_after E w query) in
  r.1 = Ret tt /\
  List.filter (expired E today) TaskScenarios.event_listing
    = [TaskScenarios.old_page] /\
  exists archived,
    Tasks.trace r.2 = Tasks.trace w ++ query :: map archive_of archived /\
    archived `prefix_of`
      List.filter (expired E today) TaskScenarios.event_listing /\
    (r.1 = Ret tt ->
     archived = List.filter (expired E today) TaskScenarios.event_listing).
Proof.
  intros E w query r today. split; [vm_compute; reflexivity|].
  split; [vm_compute; reflexivity|].
  apply (past_cleanup_archives_the_expired E "db-external"
           TaskScenarios.event_listing w); done.
Defined.

(** The same pages in the internal database: the pages of 1 April and of
    20 May have ended. *)
Lemma finished_cleanup_archives_the_ended_witness :
  let E := TaskScenarios.env_events TaskScenarios.event_listing in
  let w := TaskScenarios.world0 in
  let query := Tasks.NotionQueryAll "db-internal" in
  let r := Tasks.delete_finished_events_for_db E (Some "db-internal") w in
  let now := now_after E w query in
  r.1 = Ret tt /\
  List.filter (finished E now) TaskScenarios.event_listing
    = [TaskScenarios.old_page; TaskScenarios.recent_page] /\
  exists archived,
    Tasks.trace r.2 = Tasks.trace w ++ query :: map archive_of archived /\
    archived `prefix_of`
      List.filter (finished E now) TaskScenarios.event_listing /\
    (r.1 = Ret tt ->
     archived = List.filter (finished E now) TaskScenarios.event_listing).
Proof.
  intros E w query r now. split; [vm_compute; reflexivity|].
  split; [vm_compute; reflexivity|].
  apply (finished_cleanup_archives_the_ended E "db-internal"
           TaskScenarios.event_listing w); done.
Defined.

(** A page of 1 April, an all-day page of 1 May and a second page of
    1 April: the first is archived, the run raises at the second and the
    third stays. *)
Lemma date_only_page_stops_cleanup_witness :
  let pages := [TaskScenarios.old_page; TaskScenarios.all_day_page;
                TaskScenarios.dated "page-older" "2024-04-01T10:00:00+09:00"] in
  let E := TaskScenarios.env_events pages in
  let w := TaskScenarios.world0 in
  let query := Tasks.NotionQueryAll "db-internal" in
  let r := Tasks.delete_finished_events_for_db E (Some "db-internal") w in
  let now := now_after E w query in
  List.filter (finished E now) pages
    = [TaskScenarios.old_page;
       TaskScenarios.dated "page-older" "2024-04-01T10:00:00+09:00"] /\
  r.1 = Raise "TypeError" /\
  Tasks.trace r.2
    = Tasks.trace w ++ query
        :: map archive_of
             (List.filter (finished E now) [TaskScenarios.old_page]).
Proof.
  intros pages E w query r now. split; [vm_compute; reflexivity|].
  apply (date_only_page_stops_cleanup E "db-internal"
           [TaskScenarios.old_page]
           [TaskScenarios.dated "page-older" "2024-04-01T10:00:00+09:00"]
           TaskScenarios.all_day_page
           (DateTime (19844 * TaskScenarios.day_us) None) w).
  - done.
  - reflexivity.
  - reflexivity.
  - reflexivity.
  - intros h c. destruct c; by eexists _, _.
  - repeat constructor.
Defined.

(** X29. [auto_clean] applies one rule to each database, the external one
    first. When the two databases are configured and their queries are
    answered with pages, the task first cleans the external database by
    the thirty-day rule. When that cleanup raises, the task raises with
    it and the internal database is not queried; when it returns, every
    expired page of the external listing has been archived, and the
    requests that follow are the query of the internal database and
    archive requests for the pages of its listing that have ended. *)
Theorem auto_clean_runs_both_rules (E : Tasks.env) (external internal : string)
    (listed_external listed_internal : list Tasks.page) (w : Tasks.world) :
  Tasks.NOTION_EVENT_EXTERNAL_DB_ID (Tasks.cfg E) = Some external ->
  Tasks.NOTION_EVENT_INTERNAL_DB_ID (Tasks.cfg E) = Some internal ->
  external <> "" -> internal <> "" ->
  (forall h, Tasks.respond E h (Tasks.NotionQueryAll external)
             = Tasks.Http 200 (Tasks.BResults listed_external)) ->
  (forall h, Tasks.respond E h (Tasks.NotionQueryAll internal)
             = Tasks.Http 200 (Tasks.BResults listed_internal)) ->
  let first := Tasks.delete_past_events_for_db E (Some external) w in
  let r := Tasks.auto_clean E w in
  let today := Tasks.date_of (now_after E w (Tasks.NotionQueryAll external)) in
  let now := now_after E first.2 (Tasks.NotionQueryAll internal) in
  exists archived_external,
    Tasks.trace first.2
      = Tasks.trace w
          ++ Tasks.NotionQueryAll external
          :: map archive_of archived_external /\
    archived_external
      `prefix_of` List.filter (expired E today) listed_external /\
    match first.1 with
    | Raise exc => r = (Raise exc, first.2)
    | Ret _ =>
        archived_external = List.filter (expired E today) listed_external /\
        exists archived_internal,
          Tasks.trace r.2
            = Tasks.trace first.2
                ++ Tasks.NotionQueryAll internal
                :: map archive_of archived_internal /\
          archived_internal
            `prefix_of` List.filter (finished E now) listed_internal /\
          (r.1 = Ret tt ->
           archived_internal = List.filter (finished E now) listed_internal)
    end.
Proof.
  intros He Hi Hext Hint Hqe Hqi. cbv zeta.
  unfold Tasks.auto_clean, Tasks.delete_past_events. rewrite He, Hi.
  unfold Effects.bind.
  destruct (Tasks.delete_past_events_for_db E (Some external) w)
    as [o1 w1] eqn:Hrun1.
  destruct (delete_past_run E external listed_external w w1 o1 Hext
              (Hqe _) Hrun1) as (a1 & Ht1 & Hp1 & Hr1).
  exists a1. cbn [fst snd]. split; [done|]. split; [done|].
  destruct o1 as [[] | exc1]; [| done].
  split; [by apply Hr1|].
  destruct (Tasks.delete_finished_events_for_db E (Some internal) w1)
    as [o2 w2] eqn:Hrun2.
  destruct (delete_finished_run E internal listed_internal w1 w2 o2 Hint
              (Hqi _) Hrun2) as (a2 & Ht2 & Hp2 & Hr2).
  by exists a2.
Qed.

(** The two databases list the same three pages: the page of 1 April is
    archived as expired, and it and the page of 20 May are archived as
    finished. *)
Lemma auto_clean_runs_both_rules_witness :
  let E := TaskScenarios.env_events TaskScenarios.event_listing in
  let w := TaskScenarios.world0 in
  let first := Tasks.delete_past_events_for_db E (Some "db-external") w in
  let r := Tasks.auto_clean E w in
  let today :=
    Tasks.date_of (now_after E w (Tasks.NotionQueryAll "db-external")) in
  let now := now_after E first.2 (Tasks.NotionQueryAll "db-internal") in
  Tasks.trace r.2
    = [Tasks.NotionQueryAll "db-external";
       Tasks.NotionArchivePage "page-old";
       Tasks.NotionQueryAll "db-internal";
       Tasks.NotionArchivePage "page-old";
       Tasks.NotionArchivePage "page-recent"] /\
  exists archived_external,
    Tasks.trace first.2
      = Tasks.trace w
          ++ Tasks.NotionQueryAll "db-external"
          :: map archive_of archived_external /\
    archived_external
      `prefix_of` List.filter (expired E today) TaskScenarios.event_listing /\
    match first.1 with
    | Raise exc => r = (Raise exc, first.2)
    | Ret _ =>
        archived_external
          = List.filter (expired E today) TaskScenarios.event_listing /\
        exists archived_internal,
          Tasks.trace r.2
            = Tasks.trace first.2
                ++ Tasks.NotionQueryAll "db-internal"
                :: map archive_of archived_internal /\
          archived_internal
            `prefix_of`
              List.filter (finished E now) TaskScenarios.event_listing /\
          (r.1 = Ret tt ->
           archived_internal
             = List.filter (finished E now) TaskScenarios.event_listing)
    end.
Proof.
  intros E w first r today now. split; [vm_compute; reflexivity|].
  apply (auto_clean_runs_both_rules E "db-external" "db-internal"
           TaskScenarios.event_listing TaskScenarios.event_listing w); done.
Defined.

(** ** The numbers of the questions *)

Lemma ltb_asym (a b : string) : String.ltb a b = true -> String.ltb b a = false.
Proof.
  unfold String.ltb. rewrite (String.compare_antisym b a).
  by destruct (String.compare a b).
Qed.

Lemma insert_by_created_perm (p : Tasks.page) (l : list Tasks.page) :
  Tasks.insert_by_created p l ≡ₚ p :: l.
Proof.
  induction l as [| q l IH]; cbn [Tasks.insert_by_created]; [done|].
  destruct (String.ltb _ _); [done|]. rewrite IH. apply Permutation_swap.
Qed.

Lemma insert_by_created_hd (p q : Tasks.page) (l : list Tasks.page) :
  created_in_order q p -> HdRel created_in_order q l ->
  HdRel created_in_order q (Tasks.insert_by_created p l).
Proof.
  intros Hqp Hl. destruct l as [| x l]; cbn [Tasks.insert_by_created].
  - by constructor.
  - destruct (String.ltb _ _); constructor; [done|]. by inversion Hl.
Qed.

Lemma insert_by_created_sorted (p : Tasks.page) (l : list Tasks.page) :
  Sorted created_in_order l ->
  Sorted created_in_order (Tasks.insert_by_created p l).
Proof.
  induction 1 as [| q l Hl IH Hhd]; cbn [Tasks.insert_by_created].
  - by repeat constructor.
  - destruct (String.ltb (Tasks.created_key p) (Tasks.created_key q)) eqn:Hlt.
    + constructor; [by constructor|]. constructor. by apply ltb_asym.
    + constructor; [done|]. by apply insert_by_created_hd.
Qed.

Lemma sort_by_created_spec (pages : list Tasks.page) :
  Tasks.sort_by_created pages ≡ₚ pages /\
  Sorted created_in_order (Tasks.sort_by_created pages).
Proof.
  unfold Tasks.sort_by_created.
  assert (H : forall acc, Sorted created_in_order acc ->
            foldl (fun sorted p => Tasks.insert_by_created p sorted) acc pages
              ≡ₚ acc ++ pages /\
            Sorted created_in_order
              (foldl (fun sorted p => Tasks.insert_by_created p sorted)
                     acc pages)).
  { induction pages as [| p pages IH]; intros acc Hacc; cbn [foldl].
    - by rewrite app_nil_r.
    - destruct (IH (Tasks.insert_by_created p acc)) as [Hp Hs].
      { by apply insert_by_created_sorted. }
      split; [| done]. rewrite Hp, insert_by_created_perm. cbn [app].
      apply Permutation_middle. }
  apply (H []). constructor.
Qed.

Lemma list_max_ge (x : Z) (xs : list Z) (y : Z) :
  y ∈ x :: xs -> y <= Tasks.list_max x xs.
Proof.
  unfold Tasks.list_max. revert x.
  assert (Hmono : forall l a, a <= foldl Z.max a l).
  { induction l as [| z l IH]; intros a; cbn [foldl]; [lia|].
    specialize (IH (Z.max a z)). lia. }
  induction xs as [| z xs IH]; intros x Hy; cbn [foldl].
  - apply elem_of_cons in Hy as [-> | Hy]; [lia | by apply elem_of_nil in Hy].
  - pose proof (Hmono xs (Z.max x z)) as Hm.
    apply elem_of_cons in Hy as [-> | Hy]; [lia|].
    apply elem_of_cons in Hy as [-> | Hy]; [lia|].
    apply IH. by right.
Qed.

Lemma list_max_in (x : Z) (xs : list Z) : Tasks.list_max x xs ∈ x :: xs.
Proof.
  unfold Tasks.list_max. revert x.
  induction xs as [| z xs IH]; intros x; cbn [foldl]; [by left|].
  specialize (IH (Z.max x z)).
  apply elem_of_cons in IH as [-> | IH]; [| by do 2 right].
  destruct (Z.max_spec x z) as [[_ ->] | [_ ->]]; [right|]; by left.
Qed.

Lemma number_pages_requests (E : Tasks.env) (next : Z)
    (pages : list Tasks.page) (w w' : Tasks.world) (o : outcome unit) :
  Tasks.number_pages E next pages w = (o, w') ->
  exists sent,
    Tasks.trace w' = Tasks.trace w ++ sent /\
    sent `prefix_of`
      zip_with number_request pages (seqZ next (Z.of_nat (List.length pages))) /\
    (o = Ret tt ->
     sent = zip_with number_request pages (seqZ next (Z.of_nat (List.length pages)))) /\
    Tasks.cache_file w' = Tasks.cache_file w.
Proof.
  revert next w. induction pages as [| p pages IH]; intros next w.
  { intros [= <- <-]. exists []. by rewrite app_nil_r. }
  cbn [Tasks.number_pages List.length]. rewrite Nat2Z.inj_succ.
  rewrite seqZ_cons by lia. cbn [zip_with].
  replace (Z.succ next) with (next + 1) by lia.
  replace (Z.pred (Z.succ (Z.of_nat (List.length pages)))) with (Z.of_nat (List.length pages))
    by lia.
  unfold Effects.bind at 1, Tasks.perform.
  destruct (Tasks.respond E (Tasks.trace w) _) as [exc | status data].
  - intros [= <- <-]. exists [number_request p next].
    split; [done|]. split; [apply prefix_cons, prefix_nil | done].
  - intros Hrun. destruct (IH _ _ Hrun) as (sent & Ht & Hp & Hr & Hc).
    exists (number_request p next :: sent). cbn [Tasks.trace] in Ht.
    rewrite Ht, <- (assoc_L (++)). split; [done|].
    split; [by apply prefix_cons|]. split; [| done].
    intros Hret. by rewrite Hr.
Qed.

(** X24. New question numbers are fresh and consecutive. When the query
    of the Q&A database is answered with pages that all have the number
    property, the requests of [ensure_question_numbers] after the query
    give the pages without number, in the order of their creation time,
    the numbers [next], [next + 1], ... (all of them when the run
    returns, a first part when a request raises), where [next] is larger
    than every number that a page of the listing has: it is 1 or one
    more than such a number. A page that has a number gets no
    request. *)
Theorem question_numbers_are_fresh (E : Tasks.env)
    (pages : list Tasks.page) (w : Tasks.world) :
  Tasks.respond E (Tasks.trace w) (qa_query E)
    = Tasks.Http 200 (Tasks.BResults pages) ->
  Forall (fun p => is_Some (Tasks.page_number p)) pages ->
  let r := Tasks.ensure_question_numbers E w in
  exists next targets sent,
    Tasks.trace r.2 = Tasks.trace w ++ qa_query E :: sent /\
    sent `prefix_of`
      zip_with number_request targets (seqZ next (Z.of_nat (List.length targets))) /\
    (r.1 = Ret tt ->
     sent = zip_with number_request targets
              (seqZ next (Z.of_nat (List.length targets)))) /\
    targets ≡ₚ List.filter unnumbered pages /\
    Sorted created_in_order targets /\
    (forall p n, p ∈ pages -> Tasks.page_number p = Some (Some n) ->
                 n < next) /\
    (next = 1 \/
     exists p, p ∈ pages /\ Tasks.page_number p = Some (Some (next - 1))).
Proof.
  intros Hq Hprops. cbv zeta.
  destruct (Tasks.ensure_question_numbers E w) as [o w'] eqn:Hrun.
  cbn [fst snd]. revert Hrun. unfold Tasks.ensure_question_numbers.
  unfold Effects.bind at 1, Tasks.fetch_qa_db, Effects.bind at 1,
    Tasks.perform.
  fold (qa_query E). rewrite Hq. cbn [fst snd Z.eqb Pos.eqb Effects.ret].
  unfold Tasks.numbers_of.
  destruct (mapM Tasks.page_number pages) as [numbers|] eqn:Hnum.
  2: { exfalso. apply mapM_is_Some in Hprops. rewrite Hnum in Hprops.
       by destruct Hprops. }
  apply mapM_Some in Hnum.
  set (next := match omap id numbers with
               | x :: xs => Tasks.list_max x xs + 1
               | [] => 1
               end).
  set (targets := Tasks.sort_by_created _).
  assert (Hnext :
            (forall p n, p ∈ pages -> Tasks.page_number p = Some (Some n) ->
                         n < next) /\
            (next = 1 \/
             exists p, p ∈ pages /\
                       Tasks.page_number p = Some (Some (next - 1)))).
  { assert (Hin : forall p n, p ∈ pages ->
              Tasks.page_number p = Some (Some n) -> n ∈ omap id numbers).
    { intros p n Hp Hn. apply list_elem_of_omap.
      apply list_elem_of_lookup in Hp as [i Hi].
      destruct (Forall2_lookup_l _ _ _ _ _ Hnum Hi) as (y & Hy & Hpy).
      exists y. split; [by eapply list_elem_of_lookup_2|].
      rewrite Hn in Hpy. by injection Hpy as <-. }
    assert (Hout : forall n, n ∈ omap id numbers ->
              exists p, p ∈ pages /\ Tasks.page_number p = Some (Some n)).
    { intros n Hn. apply list_elem_of_omap in Hn as (y & Hy & Hyn).
      apply list_elem_of_lookup in Hy as [i Hi].
      destruct (Forall2_lookup_r _ _ _ _ _ Hnum Hi) as (p & Hp & Hpy).
      exists p. split; [by eapply list_elem_of_lookup_2|].
      destruct y as [m|]; [| done]. by injection Hyn as <-. }
    subst next. destruct (omap id numbers) as [| x xs] eqn:Hex.
    - split; [| by left]. intros p n Hp Hn.
      by apply Hin, elem_of_nil in Hn.
    - split.
      + intros p n Hp Hn.
        pose proof (list_max_ge x xs n (Hin p n Hp Hn)). lia.
      + right. replace (Tasks.list_max x xs + 1 - 1) with (Tasks.list_max x xs)
          by lia.
        apply Hout, list_max_in. }
  destruct (sort_by_created_spec (List.filter
              (fun p => bool_decide (Tasks.page_number p = Some None)) pages))
    as [Hperm Hsorted].
  fold targets in Hperm, Hsorted.
  unfold Effects.bind at 1.
  destruct (Tasks.number_pages E next targets _) as [o1 w1] eqn:Hloop.
  destruct (number_pages_requests _ _ _ _ _ _ Hloop)
    as (sent & Ht & Hp & Hr & _).
  cbn [Tasks.trace] in Ht.
  intros Hrun. exists next, targets, sent.
  assert (Htrace : Tasks.trace w' = Tasks.trace w ++ qa_query E :: sent /\
                   (o = Ret tt -> o1 = Ret tt)).
  { destruct o1 as [[] | exc].
    - destruct targets; injection Hrun as <- <-; cbn [Tasks.log Tasks.trace];
        by rewrite Ht, <- (assoc_L (++)).
    - injection Hrun as <- <-. by rewrite Ht, <- (assoc_L (++)). }
  destruct Htrace as [Htrace Hret].
  split; [done|]. split; [done|]. split; [by intros ?%Hret%Hr|].
  split; [done|]. split; [done|]. done.
Qed.

(** ** The detection of changed questions *)

Lemma qa_diff_spec (cache : gmap string Tasks.cache_value)
    (pages : list Tasks.page) (nc : gmap string Tasks.cache_value)
    (changes : list (Tasks.change * Tasks.page)) :
  Tasks.qa_diff cache pages nc changes
    = (recorded nc pages, changes ++ omap (classify cache) pages).
Proof.
  revert nc changes. induction pages as [| p pages IH]; intros nc changes.
  { cbn. by rewrite app_nil_r. }
  cbn [Tasks.qa_diff recorded foldl]. rewrite IH. f_equal.
  change (omap (classify cache) (p :: pages))
    with (match classify cache p with
          | Some x => x :: omap (classify cache) pages
          | None => omap (classify cache) pages
          end).
  unfold classify at 2. destruct (cache !! Tasks.page_id p) as [v|].
  - destruct (Tasks.differs v _); [| done]. by rewrite <- (assoc_L (++)).
  - by rewrite <- (assoc_L (++)).
Qed.

Lemma recorded_lookup (nc : gmap string Tasks.cache_value)
    (pages : list Tasks.page) (k : string) (v : Tasks.cache_value) :
  recorded nc pages !! k = Some v ->
  nc !! k = Some v \/
  exists p, p ∈ pages /\ Tasks.page_id p = k /\
            v = Tasks.CTime (Tasks.page_last_edited_time p).
Proof.
  revert nc. induction pages as [| p pages IH]; intros nc; cbn [recorded foldl].
  { by left. }
  intros Hk. apply IH in Hk as [Hk | (q & Hq & Hid & Hv)].
  - destruct (decide (Tasks.page_id p = k)) as [Heq | Hne].
    + rewrite Heq, lookup_insert_eq in Hk. injection Hk as <-.
      right. exists p. split; [by left | done].
    + rewrite lookup_insert_ne in Hk by done. by left.
  - right. exists q. split; [by right | done].
Qed.

Lemma recorded_keeps (nc : gmap string Tasks.cache_value)
    (pages : list Tasks.page) (k : string) :
  k ∉ Tasks.page_id <$> pages -> recorded nc pages !! k = nc !! k.
Proof.
  revert nc. induction pages as [| p pages IH]; intros nc Hk;
    cbn [recorded foldl]; [done|].
  rewrite fmap_cons in Hk. apply not_elem_of_cons in Hk as [Hne Hk].
  unfold recorded in IH. rewrite IH by done. by rewrite lookup_insert_ne.
Qed.

Lemma recorded_is_some (nc : gmap string Tasks.cache_value)
    (pages : list Tasks.page) (k : string) :
  k ∈ Tasks.page_id <$> pages -> is_Some (recorded nc pages !! k).
Proof.
  revert nc. induction pages as [| p pages IH]; intros nc Hk;
    cbn [recorded foldl].
  { by apply elem_of_nil in Hk. }
  destruct (decide (k ∈ Tasks.page_id <$> pages)) as [Hin | Hout].
  - by apply IH.
  - rewrite fmap_cons in Hk. apply elem_of_cons in Hk as [-> | Hk]; [| done].
    pose proof (recorded_keeps
                  (<[Tasks.page_id p
                     := Tasks.CTime (Tasks.page_last_edited_time p)]> nc)
                  pages (Tasks.page_id p) Hout) as Hkeep.
    unfold recorded in Hkeep. rewrite Hkeep, lookup_insert_eq. by eexists.
Qed.

Lemma recorded_latest (nc : gmap string Tasks.cache_value)
    (pages : list Tasks.page) (p : Tasks.page) :
  NoDup (Tasks.page_id <$> pages) -> p ∈ pages ->
  recorded nc pages !! Tasks.page_id p
    = Some (Tasks.CTime (Tasks.page_last_edited_time p)).
Proof.
  revert nc. induction pages as [| q pages IH]; intros nc Hnd Hp;
    cbn [recorded foldl].
  { by apply elem_of_nil in Hp. }
  rewrite fmap_cons in Hnd. apply NoDup_cons in Hnd as [Hq Hnd].
  apply elem_of_cons in Hp as [-> | Hp].
  - pose proof (recorded_keeps
                  (<[Tasks.page_id q
                     := Tasks.CTime (Tasks.page_last_edited_time q)]> nc)
                  pages (Tasks.page_id q) Hq) as Hkeep.
    unfold recorded in Hkeep. by rewrite Hkeep, lookup_insert_eq.
  - by apply IH.
Qed.

Lemma get_qa_changes_run (E : Tasks.env) (pages : list Tasks.page)
    (w : Tasks.world) :
  Tasks.respond E (Tasks.trace w) (qa_query E)
    = Tasks.Http 200 (Tasks.BResults pages) ->
  let c := recorded ∅ pages in
  let w1 := Tasks.World (Tasks.cache_file w) (Tasks.clock_reads w)
              (Tasks.trace w ++ [qa_query E; Tasks.WriteCache c])
              (Tasks.logs w) in
  Tasks.get_qa_changes E w =
    match Tasks.respond E (Tasks.trace w ++ [qa_query E]) (Tasks.WriteCache c)
    with
    | Tasks.Failed exc => (Raise exc, w1)
    | Tasks.Http _ _ =>
        (Ret (omap (classify (default ∅ (Tasks.cache_file w))) pages),
         Tasks.set_cache_file (Some c) w1)
    end.
Proof.
  intros Hq. cbv zeta. unfold Tasks.get_qa_changes.
  unfold Effects.bind at 1, Tasks.fetch_qa_db, Effects.bind at 1,
    Tasks.perform.
  fold (qa_query E). rewrite Hq. cbn [fst snd Z.eqb Pos.eqb Effects.ret].
  unfold Effects.bind at 1, Tasks.load_cache. cbn [Tasks.cache_file].
  rewrite qa_diff_spec. cbn [app].
  unfold Effects.bind at 1, Tasks.save_cache, Effects.bind at 1,
    Tasks.perform.
  cbn [Tasks.trace].
  destruct (Tasks.respond E _ (Tasks.WriteCache _)) as [exc | status data].
  - by rewrite <- (assoc_L (++)).
  - unfold Effects.modify, Effects.ret, Tasks.set_cache_file.
    cbn [Tasks.trace Tasks.clock_reads Tasks.logs].
    by rewrite <- (assoc_L (++)).
Qed.

(** X25. [get_qa_changes] reports the new and the edited pages and
    records the listing, and nothing else. When the query of the Q&A
    database is answered with pages and the run returns, it reports, in
    the order of the listing, each page whose id is not in the cache file
    as new and each page whose recorded edit time differs as updated,
    and no other page. The cache file then holds the ids of the listing
    and no other key: an entry that was stored under another key, such as
    the first-run flag of [save_cache], is no longer in the file. *)
Theorem qa_check_records_the_listing_only (E : Tasks.env)
    (pages : list Tasks.page) (w w' : Tasks.world)
    (changes : list (Tasks.change * Tasks.page)) :
  Tasks.respond E (Tasks.trace w) (qa_query E)
    = Tasks.Http 200 (Tasks.BResults pages) ->
  Tasks.get_qa_changes E w = (Ret changes, w') ->
  changes = omap (classify (default ∅ (Tasks.cache_file w))) pages /\
  exists c,
    Tasks.cache_file w' = Some c /\
    (forall k, is_Some (c !! k) <-> k ∈ Tasks.page_id <$> pages) /\
    (forall k v, c !! k = Some v ->
       exists p, p ∈ pages /\ Tasks.page_id p = k /\
                 v = Tasks.CTime (Tasks.page_last_edited_time p)).
Proof.
  intros Hq. rewrite (get_qa_changes_run E pages w Hq). cbv zeta.
  destruct (Tasks.respond E _ (Tasks.WriteCache _)) as [exc | status data];
    [done|].
  intros [= <- <-]. split; [done|]. exists (recorded ∅ pages).
  split; [done|]. split.
  - intros k. split; [| apply recorded_is_some].
    intros [v Hv]. apply recorded_lookup in Hv as [Hv | (p & Hp & <- & _)].
    + by rewrite lookup_empty in Hv.
    + by apply list_elem_of_fmap_2.
  - intros k v Hv. apply recorded_lookup in Hv as [Hv | Hv]; [| done].
    by rewrite lookup_empty in Hv.
Qed.

(** X26. A check that follows a check of the same listing reports
    nothing. When a run of [get_qa_changes] has returned for a listing of
    pages with distinct ids, and the next run is answered with the same
    listing and can write the cache file, the next run reports no change
    and leaves the cache file as it is. *)
Theorem qa_recheck_is_silent (E : Tasks.env) (pages : list Tasks.page)
    (w w1 : Tasks.world) (changes : list (Tasks.change * Tasks.page)) :
  NoDup (Tasks.page_id <$> pages) ->
  Tasks.respond E (Tasks.trace w) (qa_query E)
    = Tasks.Http 200 (Tasks.BResults pages) ->
  Tasks.get_qa_changes E w = (Ret changes, w1) ->
  Tasks.respond E (Tasks.trace w1) (qa_query E)
    = Tasks.Http 200 (Tasks.BResults pages) ->
  (forall c, exists status data,
     Tasks.respond E (Tasks.trace w1 ++ [qa_query E]) (Tasks.WriteCache c)
       = Tasks.Http status data) ->
  exists w2,
    Tasks.get_qa_changes E w1 = (Ret [], w2) /\
    Tasks.cache_file w2 = Tasks.cache_file w1.
Proof.
  intros Hnd Hq. rewrite (get_qa_changes_run E pages w Hq). cbv zeta.
  destruct (Tasks.respond E _ (Tasks.WriteCache _)) as [exc | status data];
    [done|].
  intros [= <- <-] Hq1 Hwrite.
  rewrite (get_qa_changes_run E pages _ Hq1). cbv zeta.
  destruct (Hwrite (recorded ∅ pages)) as (status1 & data1 & ->).
  cbn [Tasks.set_cache_file Tasks.cache_file default from_option id].
  assert (Hall : forall l, (forall p, p ∈ l -> p ∈ pages) ->
            omap (classify (recorded ∅ pages)) l = []).
  { induction l as [| p l IH]; intros Hl; [done|].
    change (omap (classify (recorded ∅ pages)) (p :: l))
      with (match classify (recorded ∅ pages) p with
            | Some x => x :: omap (classify (recorded ∅ pages)) l
            | None => omap (classify (recorded ∅ pages)) l
            end).
    unfold classify at 1. rewrite (recorded_latest ∅ pages p Hnd).
    2: { apply Hl. by left. }
    cbn [Tasks.differs]. rewrite String.eqb_refl. cbn [negb].
    apply IH. intros q Hq'. apply Hl. by right. }
  rewrite Hall by done. eexists. split; [reflexivity | done].
Qed.

(** Four questions, two of them numbered 4 and 7: the two others get 8
    and 9 in the order of their creation. *)
Lemma question_numbers_are_fresh_witness :
  let E := TaskScenarios.env_events TaskScenarios.questions in
  let w := TaskScenarios.world0 in
  let r := Tasks.ensure_question_numbers E w in
  r.1 = Ret tt /\
  Tasks.trace r.2
    = [qa_query E; Tasks.NotionSetNumber "q-c" 8;
       Tasks.NotionSetNumber "q-a" 9] /\
  exists next targets sent,
    Tasks.trace r.2 = Tasks.trace w ++ qa_query E :: sent /\
    sent `prefix_of`
      zip_with number_request targets
        (seqZ next (Z.of_nat (List.length targets))) /\
    (r.1 = Ret tt ->
     sent = zip_with number_request targets
              (seqZ next (Z.of_nat (List.length targets)))) /\
    targets ≡ₚ List.filter unnumbered TaskScenarios.questions /\
    Sorted created_in_order targets /\
    (forall p n, p ∈ TaskScenarios.questions ->
                 Tasks.page_number p = Some (Some n) -> n < next) /\
    (next = 1 \/
     exists p, p ∈ TaskScenarios.questions /\
               Tasks.page_number p = Some (Some (next - 1))).
Proof.
  intros E w r. split; [vm_compute; reflexivity|].
  split; [vm_compute; reflexivity|].
  apply (question_numbers_are_fresh E TaskScenarios.questions w).
  - reflexivity.
  - repeat constructor; by eexists.
Defined.

(** The cache holds the first-run flag and an older edit of [q-b]: the
    check reports [q-b] as updated and the three other questions as new,
    and the flag is no longer in the file. *)
Lemma qa_check_records_the_listing_only_witness :
  let E := TaskScenarios.env_events TaskScenarios.questions in
  let w := TaskScenarios.world_flagged in
  let r := Tasks.get_qa_changes E w in
  let changes := omap (classify (default ∅ (Tasks.cache_file w)))
                      TaskScenarios.questions in
  map (fun c => (c.1, Tasks.page_id c.2)) changes
    = [(Tasks.New, "q-a"); (Tasks.Update, "q-b"); (Tasks.New, "q-c");
       (Tasks.New, "q-d")] /\
  default ∅ (Tasks.cache_file w) !! "_first_qa_run"
    = Some (Tasks.CFlag false) /\
  changes = omap (classify (default ∅ (Tasks.cache_file w)))
                 TaskScenarios.questions /\
  exists c,
    Tasks.cache_file r.2 = Some c /\
    (forall k, is_Some (c !! k)
               <-> k ∈ Tasks.page_id <$> TaskScenarios.questions) /\
    (forall k v, c !! k = Some v ->
       exists p, p ∈ TaskScenarios.questions /\ Tasks.page_id p = k /\
                 v = Tasks.CTime (Tasks.page_last_edited_time p)).
Proof.
  intros E w r changes. split; [vm_compute; reflexivity|].
  split; [vm_compute; reflexivity|].
  apply (qa_check_records_the_listing_only E TaskScenarios.questions w r.2
           changes).
  - reflexivity.
  - vm_compute. reflexivity.
Defined.

(** A second check of the four questions reports nothing. *)
Lemma qa_recheck_is_silent_witness :
  let E := TaskScenarios.env_events TaskScenarios.questions in
  let w := TaskScenarios.world0 in
  let first := Tasks.get_qa_changes E w in
  List.length (default [] (match first.1 with
                           | Ret changes => Some changes
                           | Raise _ => None
                           end)) = 4%nat /\
  exists w2,
    Tasks.get_qa_changes E first.2 = (Ret [], w2) /\
    Tasks.cache_file w2 = Tasks.cache_file first.2.
Proof.
  intros E w first. split; [vm_compute; reflexivity|].
  apply (qa_recheck_is_silent E TaskScenarios.questions w first.2
           (omap (classify ∅) TaskScenarios.questions)).
  - apply (bool_decide_unpack _). vm_compute. reflexivity.
  - reflexivity.
  - vm_compute. reflexivity.
  - reflexivity.
  - intros c. by eexists _, _.
Defined.

(** * Further properties of the watch channel *)

Import WatchVocabulary.

Lemma register_main_ready (E : Watcher.env) :
  ready E -> Watcher.register_main E = registration E "watch registered: %s".
Proof. intros [Hcal Hsvc]. unfold Watcher.register_main. by rewrite Hcal, Hsvc. Qed.

Lemma renew_main_ready (E : Watcher.env) :
  ready E ->
  Watcher.renew_main E =
    Effects.bind (Watcher.load_state)
      (fun state =>
         Effects.bind (Watcher.stop_old_channel E state)
           (fun _ => registration E "watch renewed: %s")).
Proof. intros [Hcal Hsvc]. unfold Watcher.renew_main. by rewrite Hcal, Hsvc. Qed.

Lemma main_returns_ready (E : Watcher.env) (w w1 : Watcher.world) :
  Watcher.register_main E w = (Ret tt, w1) \/
  Watcher.renew_main E w = (Ret tt, w1) ->
  ready E.
Proof.
  unfold ready, Watcher.register_main, Watcher.renew_main.
  destruct (Py.truthy_opt (Watcher.GOOGLE_CALENDAR_ID (Watcher.cfg E)));
    cbn [negb]; [| by intros [|]].
  destruct (Watcher.get_calendar_service E) as [[|] | exc];
    [done | by intros [|] | by intros [|]].
Qed.

Lemma stop_old_channel_run (E : Watcher.env)
    (state : option string * option string) (w : Watcher.world) :
  exists w',
    Watcher.stop_old_channel E state w = (Ret tt, w') /\
    Watcher.state_file w' = Watcher.state_file w /\
    Watcher.trace w' =
      Watcher.trace w ++
        (if negb (Py.truthy_opt state.1) || negb (Py.truthy_opt state.2)
         then []
         else [Watcher.ChannelsStop (default "" state.1) (default "" state.2)]).
Proof.
  unfold Watcher.stop_old_channel. cbv zeta.
  destruct (negb (Py.truthy_opt state.1) || negb (Py.truthy_opt state.2)).
  { exists w. by rewrite app_nil_r. }
  unfold Effects.try_except, Effects.bind, Watcher.perform.
  destruct (Watcher.respond E (Watcher.trace w) _) as [exc | r];
    by eexists.
Qed.

Lemma registration_returns (E : Watcher.env) (done : string)
    (w w1 : Watcher.world) :
  registration E done w = (Ret tt, w1) ->
  exists resp st,
    Watcher.trace w1
      = Watcher.trace w ++ [watch_request_of E; Watcher.SaveState st] /\
    Watcher.respond E (Watcher.trace w) (watch_request_of E)
      = Watcher.Answer resp /\
    Watcher.channel_id st = Watcher.resp_id resp /\
    Watcher.resource_id st = Watcher.resp_resourceId resp /\
    Watcher.state_file w1 = Some st.
Proof.
  unfold registration, Effects.bind at 1, Watcher.build_watch_request.
  destruct (Py.truthy_opt (Watcher.GCAL_WEBHOOK_URL (Watcher.cfg E)));
    cbn [negb]; [| done].
  unfold Effects.bind at 1. cbn [Watcher.log Effects.ret].
  unfold Effects.bind at 1, Watcher.perform. cbn [Watcher.trace].
  fold (watch_request_of E).
  destruct (Watcher.respond E (Watcher.trace w) (watch_request_of E))
    as [exc | resp] eqn:Hresp; [done|].
  unfold Effects.bind at 1, Watcher.utc_now_iso.
  unfold Effects.bind at 1, Watcher.save_state, Effects.bind at 1,
    Watcher.perform.
  cbn [Watcher.trace].
  destruct (Watcher.respond E _ (Watcher.SaveState _)) as [exc | r]; [done|].
  unfold Effects.modify. cbn [Watcher.log Watcher.trace Watcher.state_file].
  intros [= <-]. eexists resp, _. cbn [Watcher.trace Watcher.state_file].
  rewrite <- (assoc_L (++)). done.
Qed.

Lemma registration_starts (E : Watcher.env) (done : string)
    (w : Watcher.world) :
  Py.truthy_opt (Watcher.GCAL_WEBHOOK_URL (Watcher.cfg E)) = true ->
  exists rest,
    Watcher.trace (registration E done w).2
      = Watcher.trace w ++ watch_request_of E :: rest.
Proof.
  intros Hurl. unfold registration, Effects.bind at 1,
    Watcher.build_watch_request.
  rewrite Hurl. cbn [negb].
  unfold Effects.bind at 1. cbn [Watcher.log Effects.ret].
  unfold Effects.bind at 1, Watcher.perform. cbn [Watcher.trace].
  fold (watch_request_of E).
  destruct (Watcher.respond E (Watcher.trace w) (watch_request_of E))
    as [exc | resp]; [by exists []|].
  unfold Effects.bind at 1, Watcher.utc_now_iso.
  unfold Effects.bind at 1, Watcher.save_state, Effects.bind at 1,
    Watcher.perform.
  cbn [Watcher.trace].
  destruct (Watcher.respond E _ (Watcher.SaveState _)) as [exc | r];
    eexists; cbn [snd Watcher.trace Watcher.log Effects.modify];
    by rewrite <- (assoc_L (++)).
Qed.

(** X27. [renew.py] stops the old channel before it checks the address of
    the webhook. With a calendar id and a service but without
    [GCAL_WEBHOOK_URL], and with a state file that names a channel,
    the renewal stops that channel and then exits: no new channel is
    registered and the state file still names the stopped channel.
    [register.py] with the same settings exits without any request. *)
Theorem renewal_without_url_only_stops (E : Watcher.env)
    (w : Watcher.world) (s : Watcher.watch_state) (ch res : string) :
  ready E ->
  Py.truthy_opt (Watcher.GCAL_WEBHOOK_URL (Watcher.cfg E)) = false ->
  Watcher.state_file w = Some s ->
  Watcher.channel_id s = Some ch -> ch <> "" ->
  Watcher.resource_id s = Some res -> res <> "" ->
  let renew := Watcher.renew_main E w in
  let register := Watcher.register_main E w in
  renew.1 = Raise "SystemExit: GCAL_WEBHOOK_URL is required" /\
  Watcher.trace renew.2 = Watcher.trace w ++ [Watcher.ChannelsStop ch res] /\
  Watcher.state_file renew.2 = Some s /\
  register.1 = Raise "SystemExit: GCAL_WEBHOOK_URL is required" /\
  Watcher.trace register.2 = Watcher.trace w.
Proof.
  intros Hready Hurl Hs Hch Hch' Hres Hres'. cbv zeta.
  rewrite (renew_main_ready E Hready), (register_main_ready E Hready).
  assert (Hreg : forall done w0,
            registration E done w0
              = (Raise "SystemExit: GCAL_WEBHOOK_URL is required", w0)).
  { intros done w0. unfold registration, Effects.bind at 1,
      Watcher.build_watch_request. by rewrite Hurl. }
  rewrite Hreg. cbn [fst snd].
  assert (Hrenew : exists w',
            Effects.bind Watcher.load_state
              (fun state =>
                 Effects.bind (Watcher.stop_old_channel E state)
                   (fun _ => registration E "watch renewed: %s")) w
              = (Raise "SystemExit: GCAL_WEBHOOK_URL is required", w') /\
            Watcher.trace w'
              = Watcher.trace w ++ [Watcher.ChannelsStop ch res] /\
            Watcher.state_file w' = Some s).
  { unfold Effects.bind at 1, Watcher.load_state. rewrite Hs, Hch, Hres.
    unfold Effects.bind at 1.
    destruct (stop_old_channel_run E (Some ch, Some res) w)
      as (w' & -> & Hfile & Htrace).
    rewrite Hreg. exists w'. split; [done|]. rewrite Hfile, Htrace, Hs.
    cbn [fst snd Py.truthy_opt default from_option id].
    apply truthy_true in Hch' as ->. by apply truthy_true in Hres' as ->. }
  destruct Hrenew as (w' & -> & Htrace & Hfile). done.
Qed.

(** X28. A renewal stops the channel that the last run registered. When
    [register.py] or [renew.py] has returned, the state file names the
    channel and the resource with which the calendar answered the watch
    request of that run. The next renewal with a webhook address first
    asks the calendar to stop that channel and then, whatever the answer
    to that request is, even an error, sends its own watch request. *)
Theorem renewal_stops_the_registered_channel (E E' : Watcher.env)
    (w w1 : Watcher.world) :
  Watcher.register_main E w = (Ret tt, w1) \/
  Watcher.renew_main E w = (Ret tt, w1) ->
  ready E' ->
  Py.truthy_opt (Watcher.GCAL_WEBHOOK_URL (Watcher.cfg E')) = true ->
  exists h resp st,
    Watcher.trace w1 = h ++ [watch_request_of E; Watcher.SaveState st] /\
    Watcher.respond E h (watch_request_of E) = Watcher.Answer resp /\
    Watcher.channel_id st = Watcher.resp_id resp /\
    Watcher.resource_id st = Watcher.resp_resourceId resp /\
    Watcher.state_file w1 = Some st /\
    (forall ch res,
       Watcher.channel_id st = Some ch -> ch <> "" ->
       Watcher.resource_id st = Some res -> res <> "" ->
       exists rest,
         Watcher.trace (Watcher.renew_main E' w1).2
           = Watcher.trace w1
               ++ Watcher.ChannelsStop ch res :: watch_request_of E' :: rest).
Proof.
  intros Hrun Hready' Hurl'.
  pose proof (main_returns_ready E w w1 Hrun) as Hready.
  assert (Hfirst : exists w0 done, registration E done w0 = (Ret tt, w1)).
  { destruct Hrun as [Hrun | Hrun].
    - rewrite (register_main_ready E Hready) in Hrun. by eexists _, _.
    - rewrite (renew_main_ready E Hready) in Hrun.
      unfold Effects.bind at 1, Watcher.load_state in Hrun.
      unfold Effects.bind at 1 in Hrun.
      match type of Hrun with
      | context [Watcher.stop_old_channel E ?s w] =>
          destruct (stop_old_channel_run E s w) as (w0 & Hstop & _)
      end.
      rewrite Hstop in Hrun. by eexists _, _. }
  destruct Hfirst as (w0 & done & Hreg).
  destruct (registration_returns E done w0 w1 Hreg)
    as (resp & st & Ht & Hresp & Hch & Hres & Hfile).
  exists (Watcher.trace w0), resp, st. repeat (split; [done|]).
  intros ch res Hc Hc' Hr Hr'.
  rewrite (renew_main_ready E' Hready').
  unfold Effects.bind at 1, Watcher.load_state. rewrite Hfile, Hc, Hr.
  unfold Effects.bind at 1.
  destruct (stop_old_channel_run E' (Some ch, Some res) w1)
    as (w2 & -> & _ & Htrace).
  destruct (registration_starts E' "watch renewed: %s" w2 Hurl')
    as (rest & ->).
  exists rest. rewrite Htrace.
  cbn [fst snd Py.truthy_opt default from_option id].
  apply truthy_true in Hc' as ->. apply truthy_true in Hr' as ->.
  cbn [negb orb]. by rewrite <- (assoc_L (++)).
Qed.

(** Without the address of the webhook the renewal stops the stored
    channel [gcal-old] and exits. *)
Lemma renewal_without_url_only_stops_witness :
  let E := WatchScenarios.env_watch None in
  let w := WatchScenarios.world_stored in
  let renew := Watcher.renew_main E w in
  let register := Watcher.register_main E w in
  renew.1 = Raise "SystemExit: GCAL_WEBHOOK_URL is required" /\
  Watcher.trace renew.2
    = Watcher.trace w ++ [Watcher.ChannelsStop "gcal-old" "res-old"] /\
  Watcher.state_file renew.2 = Some WatchScenarios.stored /\
  register.1 = Raise "SystemExit: GCAL_WEBHOOK_URL is required" /\
  Watcher.trace register.2 = Watcher.trace w.
Proof.
  intros E w.
  apply (renewal_without_url_only_stops E w WatchScenarios.stored
           "gcal-old" "res-old"); done.
Defined.

(** A registration followed by a renewal: the renewal asks to stop the
    registered channel, is refused, and registers a channel all the
    same. *)
Lemma renewal_stops_the_registered_channel_witness :
  let E := WatchScenarios.env_watch (Some "https://hook.example/gcal") in
  let w := WatchScenarios.world_fresh in
  let w1 := (Watcher.register_main E w).2 in
  (Watcher.renew_main E w1).1 = Ret tt /\
  exists h resp st,
    Watcher.trace w1 = h ++ [watch_request_of E; Watcher.SaveState st] /\
    Watcher.respond E h (watch_request_of E) = Watcher.Answer resp /\
    Watcher.channel_id st = Watcher.resp_id resp /\
    Watcher.resource_id st = Watcher.resp_resourceId resp /\
    Watcher.state_file w1 = Some st /\
    (forall ch res,
       Watcher.channel_id st = Some ch -> ch <> "" ->
       Watcher.resource_id st = Some res -> res <> "" ->
       exists rest,
         Watcher.trace (Watcher.renew_main E w1).2
           = Watcher.trace w1
               ++ Watcher.ChannelsStop ch res :: watch_request_of E :: rest).
Proof.
  intros E w w1. split; [vm_compute; reflexivity|].
  apply (renewal_stops_the_registered_channel E E w w1).
  - left. vm_compute. reflexivity.
  - split; reflexivity.
  - reflexivity.
Defined.

(** * Further properties of the reminder of the day before *)

Import ReminderVocabulary.

Lemma filter_length_le {A} (f g : A -> bool) (l : list A) :
  (forall x, f x = true -> g x = true) ->
  (List.length (List.filter f l) <= List.length (List.filter g l))%nat.
Proof.
  intros Hfg. induction l as [| x l IH]; cbn [List.filter]; [done|].
  destruct (f x) eqn:Hf.
  - rewrite (Hfg x Hf). cbn [List.length]. lia.
  - destruct (g x); cbn [List.length]; lia.
Qed.

Lemma due_mono (E : Reminder.env) (now : Z) (c1 c2 : gmap string string)
    (e : Bot.scheduled_event) :
  (forall k v, c1 !! k = Some v -> c2 !! k = Some v) ->
  due E now c2 e = true -> due E now c1 e = true.
Proof.
  unfold due. intros Hsub [Hw Hc]%andb_true_iff. rewrite Hw. cbn [andb].
  apply bool_decide_eq_true in Hc. apply bool_decide_eq_true.
  destruct (c1 !! pretty (Bot.se_id e)) as [v|] eqn:Hv; [| done].
  apply Hsub in Hv. congruence.
Qed.

Lemma send_day_before_reminder_once (E : Reminder.env)
    (event : Bot.scheduled_event) (w w' : Reminder.world) (o : outcome bool) :
  Reminder.send_day_before_reminder E event w = (o, w') ->
  exists new,
    Reminder.trace w' = Reminder.trace w ++ new /\
    (List.length (List.filter is_send new) <= 1)%nat /\
    Reminder.reminder_file w' = Reminder.reminder_file w.
Proof.
  unfold Reminder.send_day_before_reminder.
  destruct (_ || _).
  { intros [= <- <-]. exists []. rewrite app_nil_r. cbn.
    split; [done|]. split; [lia | done]. }
  unfold Effects.bind at 1. unfold Effects.bind at 1.
  assert (Htail : forall w1 o1 w2 pre,
            Reminder.trace w1 = Reminder.trace w ++ pre ->
            List.filter is_send pre = [] ->
            Reminder.reminder_file w1 = Reminder.reminder_file w ->
            match Reminder.format_display_date E
                    (Bot.to_jst_iso (Reminder.bot E) (Bot.se_start_time event))
            with
            | Raise exc => Effects.raise exc
            | Ret _ =>
                Effects.try_except
                  (Effects.bind
                     (Reminder.perform E
                        (Reminder.ChannelSend
                           (Reminder.REMINDER_CHANNEL_ID (Reminder.cfg E))
                           ("🔔 <@&"
                              +:+ pretty (Reminder.REMINDER_ROLE_ID (Reminder.cfg E))
                              +:+ "> 明日開催のイベントがあります 🔔"
                              +:+ newline
                              +:+ Py.or_str (Bot.get_event_url event) "")))
                     (fun _ => Effects.ret true))
                  (fun exc =>
                     Effects.bind
                       (Reminder.log WARNING
                          "failed to send day-before reminder: %s" [exc])
                       (fun _ => Effects.ret false))
            end w1 = (o1, w2) ->
            exists new,
              Reminder.trace w2 = Reminder.trace w ++ new /\
              (List.length (List.filter is_send new) <= 1)%nat /\
              Reminder.reminder_file w2 = Reminder.reminder_file w).
  { intros w1 o1 w2 pre Ht Hpre Hf.
    destruct (Reminder.format_display_date E _) as [text | exc].
    - unfold Effects.try_except, Effects.bind, Reminder.perform.
      destruct (Reminder.respond E (Reminder.trace w1) _) as [exc | evs];
        intros [= <- <-]; eexists (pre ++ [_]);
        cbn [Reminder.trace Reminder.reminder_file Reminder.log];
        rewrite Ht, <- (assoc_L (++)); (split; [done|]);
        rewrite List.filter_app, Hpre; cbn; (split; [lia | done]).
    - intros [= <- <-]. exists pre. rewrite Hpre. cbn. split; [done|].
      split; [lia | done]. }
  destruct (Reminder.channel_cached E (Reminder.trace w)).
  - cbn [Effects.ret negb]. intros Hrun.
    apply (Htail w o w' []); [by rewrite app_nil_r | done | done | done].
  - unfold Effects.try_except, Effects.bind at 1, Reminder.perform.
    destruct (Reminder.respond E (Reminder.trace w) _) as [exc | evs].
    + cbn [Reminder.log Effects.bind Effects.ret negb].
      intros [= <- <-]. eexists [_]. split; [done|]. cbn.
      split; [lia | done].
    + cbn [Effects.ret negb]. intros Hrun.
      eapply (Htail _ o w' [_]); [| | | exact Hrun]; done.
Qed.

Lemma remind_events_bound (E : Reminder.env) (now : Z) (now_iso : string)
    (events : list Bot.scheduled_event) (cache : gmap string string)
    (changed : bool) (w w' : Reminder.world)
    (o : outcome (gmap string string * bool)) :
  Reminder.remind_events E
    (now + timedelta_hours 24)
    (now + timedelta_hours 24
       + timedelta_minutes
           (Z.max 1 (Reminder.REMINDER_WINDOW_MINUTES (Reminder.cfg E))))
    now_iso events cache changed w = (o, w') ->
  exists new,
    Reminder.trace w' = Reminder.trace w ++ new /\
    (List.length (List.filter is_send new)
     <= List.length (List.filter (due E now cache) events))%nat /\
    Reminder.reminder_file w' = Reminder.reminder_file w /\
    (forall state, o = Ret state ->
       (forall k v, cache !! k = Some v -> state.1 !! k = Some v) /\
       (state.2 = false -> state.1 = cache /\ changed = false)).
Proof.
  revert cache changed w. induction events as [| e events IH];
    intros cache changed w.
  { intros [= <- <-]. exists []. rewrite app_nil_r. cbn.
    split; [done|]. split; [lia|]. split; [done|].
    by intros state [= <-]. }
  cbn [Reminder.remind_events List.filter]. cbv zeta.
  unfold due at 1, in_window. cbv zeta.
  destruct ((now + timedelta_hours 24 <=? Reminder.start_instant e)
            && (Reminder.start_instant e <? _)); cbn [negb andb].
  2: { apply IH. }
  destruct (cache !! pretty (Bot.se_id e)) as [v|] eqn:Hv.
  { rewrite bool_decide_eq_false_2 by done. apply IH. }
  rewrite bool_decide_eq_true_2 by done. cbn [List.length].
  unfold Effects.bind at 1.
  destruct (Reminder.send_day_before_reminder E e w) as [[sent | exc] w1]
    eqn:Hsend;
    destruct (send_day_before_reminder_once E e w w1 _ Hsend)
      as (n1 & Ht1 & Hn1 & Hf1).
  2: { intros [= <- <-]. exists n1. split; [done|]. split; [lia|].
       split; [done|]. by intros state. }
  destruct sent; intros Hrun;
    destruct (IH _ _ _ Hrun) as (n2 & Ht2 & Hn2 & Hf2 & Hst);
    exists (n1 ++ n2); rewrite Ht2, Ht1, <- (assoc_L (++)), Hf2, Hf1;
    (split; [done|]); rewrite List.filter_app, List.length_app.
  - split.
    + pose proof (filter_length_le
                    (due E now (<[pretty (Bot.se_id e) := now_iso]> cache))
                    (due E now cache) events) as Hle.
      assert (forall x,
                due E now (<[pretty (Bot.se_id e) := now_iso]> cache) x = true ->
                due E now cache x = true) as Hmono.
      { intros x. apply due_mono. intros k v' Hk.
        destruct (decide (k = pretty (Bot.se_id e))) as [-> | Hne];
          [congruence | by rewrite lookup_insert_ne]. }
      specialize (Hle Hmono). lia.
    + split; [done|]. intros state Hret.
      destruct (Hst state Hret) as [Hsub Hsame]. split.
      * intros k v' Hk. apply Hsub.
        destruct (decide (k = pretty (Bot.se_id e))) as [-> | Hne];
          [congruence | by rewrite lookup_insert_ne].
      * intros Hfalse. by destruct (Hsame Hfalse).
  - split; [lia|]. split; [done|]. exact Hst.
Qed.

Lemma remind_guilds_bound (E : Reminder.env) (now : Z) (now_iso : string)
    (evs : Reminder.guild -> list Bot.scheduled_event)
    (gs : list Reminder.guild) (cache : gmap string string)
    (changed : bool) (w w' : Reminder.world)
    (o : outcome (gmap string string * bool)) :
  (forall g, g ∈ gs -> lists E g (evs g)) ->
  Reminder.remind_guilds E
    (now + timedelta_hours 24)
    (now + timedelta_hours 24
       + timedelta_minutes
           (Z.max 1 (Reminder.REMINDER_WINDOW_MINUTES (Reminder.cfg E))))
    now_iso gs cache changed w = (o, w') ->
  exists new,
    Reminder.trace w' = Reminder.trace w ++ new /\
    (List.length (List.filter is_send new)
     <= List.length (List.filter (due E now cache) (concat (evs <$> gs))))%nat /\
    Reminder.reminder_file w' = Reminder.reminder_file w /\
    (forall state, o = Ret state ->
       (forall k v, cache !! k = Some v -> state.1 !! k = Some v) /\
       (state.2 = false -> state.1 = cache /\ changed = false)).
Proof.
  revert cache changed w. induction gs as [| g gs IH];
    intros cache changed w Hlists.
  { intros [= <- <-]. exists []. rewrite app_nil_r. cbn.
    split; [done|]. split; [lia|]. split; [done|].
    by intros state [= <-]. }
  cbn [Reminder.remind_guilds]. rewrite fmap_cons. cbn [concat].
  rewrite List.filter_app, List.length_app.
  unfold Effects.bind at 1.
  assert (Hfetch :
            Effects.try_except
              (Reminder.perform E
                 (Reminder.FetchScheduledEvents (Reminder.guild_id g)))
              (fun _ => Effects.ret (Reminder.scheduled_events g)) w
            = (Ret (evs g),
               Reminder.World (Reminder.reminder_file w)
                 (Reminder.trace w
                    ++ [Reminder.FetchScheduledEvents (Reminder.guild_id g)])
                 (Reminder.logs w))).
  { unfold Effects.try_except, Reminder.perform.
    destruct (Hlists g ltac:(left)) as [Hans | [Hfail ->]].
    - by rewrite Hans.
    - by destruct (Hfail (Reminder.trace w)) as [exc ->]. }
  rewrite Hfetch. unfold Effects.bind at 1.
  match goal with
  | |- context [Reminder.remind_events E ?a ?b ?c ?d ?e ?f ?w1] =>
      destruct (Reminder.remind_events E a b c d e f w1) as [[st | exc] w2]
        eqn:Hev;
      destruct (remind_events_bound E now now_iso _ _ _ _ _ _ Hev)
        as (n1 & Ht1 & Hn1 & Hf1 & Hst1)
  end.
  2: { intros [= <- <-]. eexists (_ :: n1). rewrite Ht1.
       cbn [Reminder.trace Reminder.reminder_file] in *.
       rewrite <- (assoc_L (++)). split; [done|]. cbn. split; [lia|].
       split; [done|]. by intros state. }
  intros Hrun.
  destruct (IH _ _ _ ltac:(intros; apply Hlists; by right) Hrun)
    as (n2 & Ht2 & Hn2 & Hf2 & Hst2).
  destruct (Hst1 st eq_refl) as [Hsub1 Hsame1].
  eexists (_ :: n1 ++ n2). rewrite Ht2, Ht1, Hf2, Hf1.
  cbn [Reminder.trace Reminder.reminder_file].
  rewrite <- !(assoc_L (++)). split; [done|].
  split.
  - cbn [List.filter is_send]. rewrite List.filter_app, List.length_app.
    pose proof (filter_length_le (due E now st.1) (due E now cache)
                  (concat (evs <$> gs))
                  (fun x => due_mono E now cache st.1 x Hsub1)).
    lia.
  - split; [done|]. intros state Hret.
    destruct (Hst2 state Hret) as [Hsub2 Hsame2]. split.
    + intros k v Hk. by apply Hsub2, Hsub1.
    + intros Hfalse. destruct (Hsame2 Hfalse) as [-> Hst].
      destruct (Hsame1 Hst) as [-> ->]. done.
Qed.


